(** * SuperVision risk scanner: scan pipeline, snapshot store and Graph client

    A shallow embedding of the scan-management context (ScanContext), the
    Graph API client (graphApi) and the result page helpers, followed by the
    properties of the specification that were checked against them.

    Modelling conventions
    - JavaScript numbers that occur here are integers and are modelled by [Z].
    - Strings are byte strings; [toLowerCase] folds the ASCII letters.
    - Values that come back from [JSON.parse] of browser storage are dynamic
      ([jsval]); reading a property of [undefined]/[null] raises, which the
      [result] monad records as [Throw].
    - Microsoft Graph payloads follow the Graph schema: a response body is
      JSON [null] or an object whose [value], when present, is an array of
      objects; the fields the scanner reads are optional strings/booleans.
    - React state setters are modelled by the state the next render sees;
      a handler reads the state it was created with.
    - [localStorage] is unbounded (no quota error). *)

From Stdlib Require Import ZArith String Ascii List Bool Lia.
From stdpp Require Import base option gmap strings list.

Local Open Scope string_scope.
Set Warnings "-register-all".


(* ------------------------------------------------------------------------- *)
(** ** JavaScript values and primitives *)

Module JS.

(** A JSON value, or [undefined]. *)
Inductive jsval : Type :=
| JUndefined
| JNull
| JBool (b : bool)
| JNum (n : Z)
| JStr (s : string)
| JArr (items : list jsval)
| JObj (fields : list (string * jsval)).

(** Outcome of evaluating an expression that may raise. *)
Inductive result (A : Type) : Type :=
| Ok (a : A)
| Throw (e : string).
Arguments Ok {A} a.
Arguments Throw {A} e.

(** Sequencing: a raise ends the evaluation. *)
Definition bind {A B} (m : result A) (f : A -> result B) : result B :=
  match m with
  | Ok a => f a
  | Throw e => Throw e
  end.

Declare Scope js_scope.
Delimit Scope js_scope with js.
Notation "'let*' x ':=' m 'in' k" := (bind m (fun x => k))
  (at level 10, x name, m at level 100, k at level 200) : js_scope.
Local Open Scope js_scope.

(** The evaluation did not raise. *)
Definition isOk {A} (r : result A) : bool :=
  match r with Ok _ => true | Throw _ => false end.

(** [list.map] with a callback that may raise: stops at the first raise. *)
Fixpoint mapM {A B} (f : A -> result B) (l : list A) : result (list B) :=
  match l with
  | [] => Ok []
  | x :: xs => let* y := f x in let* ys := mapM f xs in Ok (y :: ys)
  end.

(** [list.filter] with a callback that may raise. *)
Fixpoint filterM {A} (f : A -> result bool) (l : list A) : result (list A) :=
  match l with
  | [] => Ok []
  | x :: xs =>
      let* b := f x in let* ys := filterM f xs in Ok (if b then x :: ys else ys)
  end.

(** ToBoolean. *)
Definition truthy (v : jsval) : bool :=
  match v with
  | JUndefined | JNull => false
  | JBool b => b
  | JNum n => negb (n =? 0)%Z
  | JStr s => negb (String.eqb s "")
  | JArr _ | JObj _ => true
  end.

(** [a || b] *)
Definition or_else (a b : jsval) : jsval := if truthy a then a else b.

(** [v === "literal"] *)
Definition strictEqStr (v : jsval) (s : string) : bool :=
  match v with
  | JStr t => String.eqb t s
  | _ => false
  end.

(** The own property [k] of an object, [undefined] when absent. *)
Fixpoint lookupField (k : string) (fs : list (string * jsval)) : jsval :=
  match fs with
  | [] => JUndefined
  | (k', v) :: rest => if String.eqb k k' then v else lookupField k rest
  end.

(** Assignment to an own property: replaces in place or appends. *)
Fixpoint setField (k : string) (v : jsval) (fs : list (string * jsval))
  : list (string * jsval) :=
  match fs with
  | [] => [(k, v)]
  | (k', v') :: rest =>
      if String.eqb k k' then (k, v) :: rest else (k', v') :: setField k v rest
  end.

(** Property read [v.k] for the property names used by the scanner. *)
Definition get (v : jsval) (k : string) : result jsval :=
  match v with
  | JUndefined => Throw "TypeError: Cannot read properties of undefined"
  | JNull => Throw "TypeError: Cannot read properties of null"
  | JObj fs => Ok (lookupField k fs)
  | JArr l =>
      Ok (if String.eqb k "length" then JNum (Z.of_nat (length l)) else JUndefined)
  | JStr s =>
      Ok (if String.eqb k "length" then JNum (Z.of_nat (String.length s))
          else JUndefined)
  | JBool _ | JNum _ => Ok JUndefined
  end.

(** The elements of an array; any other value has no array methods. *)
Definition asArray (what : string) (v : jsval) : result (list jsval) :=
  match v with
  | JArr l => Ok l
  | JUndefined | JNull => Throw "TypeError: Cannot read properties of undefined"
  | _ => Throw ("TypeError: " +:+ what +:+ " is not a function")
  end.

(** [s.toLowerCase()] on a dynamic value. *)
Definition asString (what : string) (v : jsval) : result string :=
  match v with
  | JStr s => Ok s
  | JUndefined | JNull => Throw "TypeError: Cannot read properties of undefined"
  | _ => Throw ("TypeError: " +:+ what +:+ " is not a function")
  end.

(** What [JSON.parse (JSON.stringify v)] gives back: properties holding
    [undefined] are dropped, [undefined] array elements become [null]. *)
Fixpoint jsonRoundTrip (v : jsval) : jsval :=
  match v with
  | JArr l =>
      JArr (List.map (fun x => match x with
                               | JUndefined => JNull
                               | _ => jsonRoundTrip x
                               end) l)
  | JObj fs =>
      JObj ((fix go (fs : list (string * jsval)) : list (string * jsval) :=
               match fs with
               | [] => []
               | (k, JUndefined) :: rest => go rest
               | (k, x) :: rest => (k, jsonRoundTrip x) :: go rest
               end) fs)
  | _ => v
  end.

(** *** Strings *)

(** [s.includes(sub)] *)
Fixpoint includes (s sub : string) : bool :=
  if String.prefix sub s then true
  else match s with
       | EmptyString => false
       | String _ s' => includes s' sub
       end.

(** [s.endsWith(suffix)] *)
Definition endsWith (s suffix : string) : bool :=
  let n := String.length s in
  let m := String.length suffix in
  (m <=? n)%nat && String.eqb (String.substring (n - m) m s) suffix.

(** The lower-case form of an ASCII letter. *)
Definition lowerAscii (c : ascii) : ascii :=
  let n := nat_of_ascii c in
  if ((65 <=? n) && (n <=? 90))%nat then ascii_of_nat (n + 32) else c.

(** [s.toLowerCase()] *)
Fixpoint toLowerCase (s : string) : string :=
  match s with
  | EmptyString => EmptyString
  | String c s' => String (lowerAscii c) (toLowerCase s')
  end.

(** [s.replace(/\s+/g, "_")]: every run of white space becomes one "_". *)
Definition isSpace (c : ascii) : bool :=
  let n := nat_of_ascii c in
  ((n =? 32) || ((9 <=? n) && (n <=? 13)))%nat.

(** [inRun] tells that the previous character was white space. *)
Fixpoint replaceSpaces (inRun : bool) (s : string) : string :=
  match s with
  | EmptyString => EmptyString
  | String c s' =>
      if isSpace c
      then (if inRun then replaceSpaces true s'
            else String "_" (replaceSpaces true s'))
      else String c (replaceSpaces false s')
  end.

(** [n.toString(radix)] for integers, 2 <= radix <= 36. *)
Definition digitChar (d : N) : ascii :=
  if (d <? 10)%N then ascii_of_N (48 + d) else ascii_of_N (87 + d).

(** The digits of [n] in front of [acc]; [fuel] bounds their number. *)
Fixpoint digitsOf (fuel : nat) (radix n : N) (acc : string) : string :=
  match fuel with
  | O => acc
  | S fuel' =>
      let acc' := String (digitChar (n mod radix)) acc in
      if (n / radix =? 0)%N then acc' else digitsOf fuel' radix (n / radix) acc'
  end.

(** The binary length of [n] bounds the number of its digits. *)
Definition numberToString (radix : N) (z : Z) : string :=
  let n := Z.to_N (Z.abs z) in
  let ds := digitsOf (S (N.to_nat (N.log2 n))) radix n EmptyString in
  if (z <? 0)%Z then String "-" ds else ds.

End JS.
Export JS.
Local Open Scope js_scope.

(* ------------------------------------------------------------------------- *)
(** ** Data model (ScanContext.tsx, interfaces) *)

(** ["Low" | "Medium" | "High"] *)
Inductive Severity : Type := Low | Medium | High.

(** Equality test on severities. *)
Definition Severity_eqb (a b : Severity) : bool :=
  match a, b with
  | Low, Low | Medium, Medium | High, High => true
  | _, _ => false
  end.

(** The string a severity is in the source. *)
Definition Severity_toString (s : Severity) : string :=
  match s with Low => "Low" | Medium => "Medium" | High => "High" end.

(** [affectedObject: { type, id, name }] *)
Record AffectedObject : Type := {
  ao_type : string;
  ao_id : string;
  ao_name : string
}.

(** [interface SecurityIssue]; an optional member that is absent is [None]. *)
Record SecurityIssue : Type := {
  si_id : string;
  si_type : string;
  si_severity : Severity;
  si_affectedObject : AffectedObject;
  si_description : string;
  si_impact : option string;
  si_remediation : option string;
  si_details : option jsval;
  si_status : option string;
  si_affectedItems : option (list string);
  si_isRealData : option bool
}.

(** [issueCountsBySeverity: { Low, Medium, High }] *)
Record SeverityCount : Type := {
  cnt_High : Z;
  cnt_Medium : Z;
  cnt_Low : Z
}.

(** [interface ScanSummary] *)
Record ScanSummary : Type := {
  sum_id : string;
  sum_timestamp : string;
  sum_tenantId : string;
  sum_tenantName : string;
  sum_overallRiskScore : Z;
  sum_issueCountsByCategory : list (string * Z);
  sum_issueCountsBySeverity : SeverityCount;
  sum_totalAccountsScanned : Z;
  sum_totalGroupsScanned : Z;
  sum_totalPoliciesScanned : Z;
  sum_totalDevicesScanned : Z;
  sum_totalMailboxesScanned : Z
}.

(* ------------------------------------------------------------------------- *)
(** ** Microsoft Graph payloads (graphApi.ts) *)

(** An element of a Graph collection, with the members the scanner reads. *)
Record GraphObject : Type := {
  userPrincipalName : option string;
  isMfaEnabled : option bool;
  forwardTo : option string;
  mailbox : option string;
  displayName : option string
}.

(** [{ error: { message } }] of a failed call. *)
Record GraphError : Type := { message : option string }.

(** A parsed JSON object of a response body. *)
Record GraphBody : Type := {
  value : option (list GraphObject);
  body_error : option GraphError
}.

(** [interface GraphApiResponse<T>]; [data] is [None] when the member is
    absent or the body was JSON [null]. *)
Record GraphApiResponse : Type := {
  success : bool;
  data : option GraphBody;
  error : option string;
  statusCode : option Z
}.

(** The object returned by [fetchMicrosoftGraphData]: the flat result bag. A
    dataset that is [undefined] in the bag is [None]. *)
Record GraphResult : Type := {
  gr_success : bool;
  gr_apiErrors : list string;
  gr_error : option string;
  users : option (list GraphObject);
  tenantInfo : option GraphObject;
  inactiveUsers : option (list GraphObject);
  mfaStatus : option (list GraphObject);
  groups : option (list GraphObject);
  passwordNeverExpires : option (list GraphObject);
  riskyUsers : option (list GraphObject);
  emailForwarding : option (list GraphObject);
  privilegedRoles : option (list GraphObject);
  guestUsers : option (list GraphObject);
  sharedMailboxes : option (list GraphObject);
  deviceCompliance : option (list GraphObject);
  conditionalAccess : option (list GraphObject);
  unusedLicenses : option (list GraphObject);
  securityDefaults : option GraphBody;
  authStrengthPolicies : option GraphBody;
  namedLocations : option (list GraphObject);
  legacyAuthStatus : option GraphBody;
  passwordResetPolicy : option GraphBody;
  administrativeUnits : option (list GraphObject);
  pimConfiguration : option GraphBody;
  sharePointSharing : option GraphBody;
  dlpPolicies : option (list GraphObject);
  retentionPolicies : option (list GraphObject);
  organizationSettings : option GraphBody;
  defenderForOffice : option GraphBody;
  intuneCompliancePolicies : option (list GraphObject);
  exchangeTransportRules : option (list GraphObject);
  emailAuthentication : option GraphBody
}.

(** [rawData] of a scan. *)
Record RawData : Type := {
  raw_users : option (list GraphObject);
  raw_groups : option (list GraphObject);
  raw_policies : option (list GraphObject);
  raw_mailRules : option (list GraphObject);
  raw_devices : option (list GraphObject);
  raw_licenses : option (list GraphObject);
  raw_roles : option (list GraphObject)
}.

(** [interface ScanData] *)
Record ScanData : Type := {
  sd_summary : ScanSummary;
  sd_issues : list SecurityIssue;
  sd_apiErrors : list string;
  sd_rawData : RawData;
  sd_usesRealData : bool
}.

(** The browser facilities the scanner calls: the [k]-th reading of
    [Date.now()] and the two date formatters. *)
Record Host : Type := {
  clock : nat -> Z;
  toISOString : Z -> string;
  toLocaleString : jsval -> string
}.

(* ------------------------------------------------------------------------- *)
(** ** Scan generation (ScanContext.tsx, [generateScan]) *)

(** [o || dflt] for an optional string member. *)
Definition orDefault (o : option string) (dflt : string) : string :=
  match o with
  | Some s => if String.eqb s "" then dflt else s
  | None => dflt
  end.

(** [d?.length > 0] *)
Definition lengthGt0 {A} (d : option (list A)) : bool :=
  match d with
  | Some (_ :: _) => true
  | _ => false
  end.

(** [d?.length || 0] *)
Definition lengthOr0 {A} (d : option (list A)) : Z :=
  match d with
  | Some l => Z.of_nat (length l)
  | None => 0
  end.

(** The elements of a dataset that passed the length test. *)
Definition elements {A} (d : option (list A)) : list A :=
  match d with
  | Some l => l
  | None => []
  end.

(** The mutable part of a [generateScan] run: how many clock readings were
    taken, and the [issues] array built so far. *)
Record GenState : Type := {
  tick : nat;
  issues : list SecurityIssue
}.

(** [issues.push({ id: `..._${Date.now()}`, ... })]: one clock reading per
    pushed issue. *)
Definition push (h : Host) (mk : Z -> SecurityIssue) (s : GenState) : GenState :=
  {| tick := S (tick s); issues := (issues s ++ [mk (clock h (tick s))])%list |}.

(** [{ type: ty, id: "multiple", name }] *)
Definition multiple (ty name : string) : AffectedObject :=
  {| ao_type := ty; ao_id := "multiple"; ao_name := name |}.

(** Risky users, grouped into one issue. *)
Definition detectRiskyUsers (h : Host) (realData : GraphResult) (s : GenState)
  : GenState :=
  if lengthGt0 (riskyUsers realData) then
    push h (fun now =>
      {| si_id := "risky_users_" +:+ numberToString 10 now;
         si_type := "Risky Users Detected";
         si_severity := High;
         si_affectedObject := multiple "User" "Multiple Users";
         si_description := "Multiple user accounts have been flagged as risky";
         si_impact := Some "Potential account compromise or suspicious activity";
         si_remediation :=
           Some "Review user activity and reset credentials if necessary";
         si_details := None;
         si_status := Some "Open";
         si_affectedItems :=
           Some (List.map (fun user => orDefault (userPrincipalName user) "Unknown User")
                          (elements (riskyUsers realData)));
         si_isRealData := Some true |}) s
  else s.

(** [!user.isMfaEnabled] *)
Definition mfaDisabled (user : GraphObject) : bool :=
  match isMfaEnabled user with
  | Some true => false
  | _ => true
  end.

(** Users without MFA, grouped into one issue. *)
Definition detectUsersWithoutMFA (h : Host) (realData : GraphResult) (s : GenState)
  : GenState :=
  if lengthGt0 (mfaStatus realData) then
    let usersWithoutMFA := List.filter mfaDisabled (elements (mfaStatus realData)) in
    if (0 <? length usersWithoutMFA)%nat then
      push h (fun now =>
        {| si_id := "mfa_disabled_" +:+ numberToString 10 now;
           si_type := "MFA Not Configured";
           si_severity := High;
           si_affectedObject := multiple "User" "Multiple Users";
           si_description :=
             "Multiple user accounts do not have Multi-Factor Authentication enabled";
           si_impact := Some "Increased risk of account compromise";
           si_remediation := Some "Enable Multi-Factor Authentication for these users";
           si_details := None;
           si_status := Some "Open";
           si_affectedItems :=
             Some (List.map (fun user => orDefault (userPrincipalName user) "Unknown User")
                            usersWithoutMFA);
           si_isRealData := Some true |}) s
    else s
  else s.

(** Inactive users, grouped into one issue. *)
Definition detectInactiveUsers (h : Host) (realData : GraphResult) (s : GenState)
  : GenState :=
  if lengthGt0 (inactiveUsers realData) then
    push h (fun now =>
      {| si_id := "inactive_users_" +:+ numberToString 10 now;
         si_type := "Inactive Accounts";
         si_severity := Medium;
         si_affectedObject := multiple "User" "Multiple Users";
         si_description :=
           "Multiple user accounts have been inactive for an extended period";
         si_impact := Some "Potential security risk from unused accounts";
         si_remediation := Some "Review and disable or delete inactive accounts";
         si_details := None;
         si_status := Some "Open";
         si_affectedItems :=
           Some (List.map (fun user => orDefault (userPrincipalName user) "Unknown User")
                          (elements (inactiveUsers realData)));
         si_isRealData := Some true |}) s
  else s.

(** [rule.forwardTo && !rule.forwardTo.endsWith(tenantName || '')] *)
Definition isExternalForwarding (tenantName : option string) (rule : GraphObject)
  : bool :=
  match forwardTo rule with
  | Some target =>
      negb (String.eqb target "") && negb (endsWith target (orDefault tenantName ""))
  | None => false
  end.

(** Forwarding rules to external addresses, grouped into one issue. *)
Definition detectEmailForwarding (h : Host) (tenantName : option string)
    (realData : GraphResult) (s : GenState) : GenState :=
  if lengthGt0 (emailForwarding realData) then
    let externalForwarding :=
      List.filter (isExternalForwarding tenantName) (elements (emailForwarding realData)) in
    if (0 <? length externalForwarding)%nat then
      push h (fun now =>
        {| si_id := "forwarding_rules_" +:+ numberToString 10 now;
           si_type := "External Email Forwarding";
           si_severity := Medium;
           si_affectedObject := multiple "Mailbox" "Multiple Mailboxes";
           si_description :=
             "Multiple mailboxes have rules forwarding emails to external addresses";
           si_impact := Some "Potential data leakage through email forwarding";
           si_remediation := Some "Review and remove unauthorized forwarding rules";
           si_details := None;
           si_status := Some "Open";
           si_affectedItems :=
             Some (List.map (fun rule => orDefault (mailbox rule) "Unknown Mailbox")
                            externalForwarding);
           si_isRealData := Some true |}) s
    else s
  else s.

(** The keyword classifier of failed endpoints. *)
Definition errorTypeOf (error : string) : string :=
  if includes error "identityProtection" then "Identity Protection"
  else if includes error "mailFolders" then "Mail Settings"
  else if includes error "security" then "Security Settings"
  else if includes error "subscribedSkus" then "License Management"
  else "API Access".

(** [if (!acc[errorType]) acc[errorType] = []; acc[errorType].push(error)] on
    an object whose keys keep their insertion order. *)
Fixpoint accPush (errorType error : string) (acc : list (string * list string))
  : list (string * list string) :=
  match acc with
  | [] => [(errorType, [error])]
  | (k, endpoints) :: rest =>
      if String.eqb errorType k then (k, (endpoints ++ [error])%list) :: rest
      else (k, endpoints) :: accPush errorType error rest
  end.

(** [realData.apiErrors.reduce(..., {})] *)
Definition errorsByType (apiErrors : list string) : list (string * list string) :=
  fold_left (fun acc error => accPush (errorTypeOf error) error acc) apiErrors [].

(** The issue pushed for one error type and its endpoints. *)
Definition apiErrorIssue (errorType : string) (endpoints : list string) (now : Z)
  : SecurityIssue :=
  {| si_id := "api_error_" +:+ replaceSpaces false (toLowerCase errorType)
              +:+ "_" +:+ numberToString 10 now;
     si_type := errorType +:+ " Access Required";
     si_severity := Medium;
     si_affectedObject := multiple "Policy" errorType;
     si_description :=
       "Unable to access " +:+ toLowerCase errorType
       +:+ " settings due to insufficient permissions";
     si_impact :=
       Some "Limited visibility into security settings and potential risks";
     si_remediation :=
       Some "Grant necessary permissions to access these security settings";
     si_details := None;
     si_status := Some "Open";
     si_affectedItems := Some endpoints;
     si_isRealData := Some true |}.

(** Failed endpoints, one issue per error type. *)
Definition detectApiErrors (h : Host) (realData : GraphResult) (s : GenState)
  : GenState :=
  if (0 <? length (gr_apiErrors realData))%nat then
    fold_left (fun st entry => push h (apiErrorIssue (fst entry) (snd entry)) st)
              (errorsByType (gr_apiErrors realData)) s
  else s.

(** Guest users, grouped into one issue. *)
Definition detectGuestUsers (h : Host) (realData : GraphResult) (s : GenState)
  : GenState :=
  if lengthGt0 (guestUsers realData) then
    push h (fun now =>
      {| si_id := "guest_users_" +:+ numberToString 10 now;
         si_type := "Guest User Access";
         si_severity := Low;
         si_affectedObject := multiple "User" "Multiple Guest Users";
         si_description :=
           "Multiple external guest users have access to tenant resources";
         si_impact := Some "Potential security risk from external access";
         si_remediation := Some "Review guest user access and remove if unnecessary";
         si_details := None;
         si_status := Some "Open";
         si_affectedItems :=
           Some (List.map (fun user => orDefault (userPrincipalName user) "Unknown Guest")
                          (elements (guestUsers realData)));
         si_isRealData := Some true |}) s
  else s.

(** [issues.filter(i => i.severity === sev).length] *)
Definition countSeverity (sev : Severity) (l : list SecurityIssue) : Z :=
  Z.of_nat (length (List.filter (fun i => Severity_eqb (si_severity i) sev) l)).

(** [categoryCount[category] = (categoryCount[category] || 0) + 1] *)
Fixpoint bumpCategory (category : string) (acc : list (string * Z))
  : list (string * Z) :=
  match acc with
  | [] => [(category, 1%Z)]
  | (k, n) :: rest =>
      if String.eqb category k then (k, (n + 1)%Z) :: rest
      else (k, n) :: bumpCategory category rest
  end.

(** The category counts of an issue list. *)
Definition categoryCountOf (l : list SecurityIssue) : list (string * Z) :=
  fold_left (fun acc issue => bumpCategory (ao_type (si_affectedObject issue)) acc) l [].

(** The risk score computed from the severity counts (High: -15, Medium: -7,
    Low: -3). *)
Definition riskScore (severityCount : SeverityCount) : Z :=
  let highIssueCount := cnt_High severityCount in
  let mediumIssueCount := cnt_Medium severityCount in
  let lowIssueCount := cnt_Low severityCount in
  let highImpact := (-15 * highIssueCount)%Z in
  let mediumImpact := (-7 * mediumIssueCount)%Z in
  let lowImpact := (-3 * lowIssueCount)%Z in
  if ((0 <? highIssueCount) || (0 <? mediumIssueCount) || (0 <? lowIssueCount))%Z
  then Z.max (Z.min (100 + highImpact + mediumImpact + lowImpact) 100) 0
  else 100%Z.

(** The severity counts of an issue list. *)
Definition severityCountOf (l : list SecurityIssue) : SeverityCount :=
  {| cnt_High := countSeverity High l;
     cnt_Medium := countSeverity Medium l;
     cnt_Low := countSeverity Low l |}.

(** The issue list built by the detectors, in source order, starting after
    the clock reading taken for the scan id. *)
Definition detectAll (h : Host) (tenantName : option string)
    (realData : option GraphResult) (s : GenState) : GenState :=
  match realData with
  | Some rd =>
      detectGuestUsers h rd
        (detectApiErrors h rd
          (detectEmailForwarding h tenantName rd
            (detectInactiveUsers h rd
              (detectUsersWithoutMFA h rd
                (detectRiskyUsers h rd s)))))
  | None => s
  end.

(** [generateScan]; [t] is the number of clock readings taken before the
    run, [realData] is [None] for [null]. *)
Definition generateScan (h : Host) (t : nat) (accessToken tenantId : string)
    (tenantName : option string) (realData : option GraphResult) : ScanData :=
  let scanId := "scan_" +:+ numberToString 36 (clock h t) in
  let final := detectAll h tenantName realData {| tick := S t; issues := [] |} in
  let issues := issues final in
  let severityCount := severityCountOf issues in
  let categoryCount := categoryCountOf issues in
  let overallRiskScore := riskScore severityCount in
  let summary :=
    {| sum_id := scanId;
       sum_timestamp := toISOString h (clock h (tick final));
       sum_tenantId := tenantId;
       sum_tenantName := orDefault tenantName "Your Microsoft 365 Tenant";
       sum_overallRiskScore := overallRiskScore;
       sum_issueCountsByCategory := categoryCount;
       sum_issueCountsBySeverity := severityCount;
       sum_totalAccountsScanned := lengthOr0 (realData ≫= users);
       sum_totalGroupsScanned := lengthOr0 (realData ≫= groups);
       sum_totalPoliciesScanned := lengthOr0 (realData ≫= conditionalAccess);
       sum_totalDevicesScanned := lengthOr0 (realData ≫= deviceCompliance);
       sum_totalMailboxesScanned :=
         (lengthOr0 (realData ≫= sharedMailboxes)
          + lengthOr0 (realData ≫= emailForwarding))%Z |} in
  {| sd_summary := summary;
     sd_issues := issues;
     sd_apiErrors := match realData with Some rd => gr_apiErrors rd | None => [] end;
     sd_usesRealData := true;
     sd_rawData :=
       {| raw_users := realData ≫= users;
          raw_groups := realData ≫= groups;
          raw_policies := realData ≫= conditionalAccess;
          raw_mailRules := realData ≫= emailForwarding;
          raw_devices := realData ≫= deviceCompliance;
          raw_licenses := realData ≫= unusedLicenses;
          raw_roles := realData ≫= privilegedRoles |} |}.

(* ------------------------------------------------------------------------- *)
(** ** Graph client (graphApi.ts) *)

(** What [fetch] is called with. *)
Record Request : Type := {
  req_url : string;
  req_method : string;
  req_authorization : string;
  req_contentType : string;
  req_body : option jsval
}.

(** What [response.json()] settles to: a rejection, or the parsed body
    ([None] is JSON [null]). *)
Inductive JsonBody : Type :=
| BodyInvalid (msg : string)
| BodyJson (b : option GraphBody).

(** The part of a [fetch] response the client reads. *)
Record Response : Type := {
  status : Z;
  json : JsonBody
}.

(** [response.ok]: the status is in the range 200-299. *)
Definition ok (r : Response) : bool :=
  ((200 <=? status r) && (status r <=? 299))%Z.

(** How [fetch] settles: it rejects, or it resolves to a response. *)
Inductive FetchOutcome : Type :=
| NetworkError (msg : string)
| Responded (r : Response).

(** The network: how the [k]-th request is answered, and the requests sent
    so far. *)
Record World : Type := {
  net : nat -> Request -> FetchOutcome;
  sent : list Request
}.

(** [{ success: false, error: msg, statusCode: code }] *)
Definition failed (msg : string) (code : Z) : GraphApiResponse :=
  {| success := false; data := None; error := Some msg; statusCode := Some code |}.

(** [{ success: true, data: d }] *)
Definition succeeded (d : option GraphBody) : GraphApiResponse :=
  {| success := true; data := d; error := None; statusCode := None |}.

(** [{}] *)
Definition emptyBody : GraphBody := {| value := None; body_error := None |}.

(** [method === "POST" || method === "PATCH" || method === "PUT"] *)
Definition isWriteMethod (method : string) : bool :=
  String.eqb method "POST" || String.eqb method "PATCH" || String.eqb method "PUT".

(** [errorData.error?.message || "Unknown Graph API error"]; raises when
    [errorData] is [null]. *)
Definition errorMessageOf (errorData : option GraphBody) : result string :=
  match errorData with
  | None => Throw "TypeError: Cannot read properties of null (reading 'error')"
  | Some b =>
      Ok (orDefault (body_error b ≫= message) "Unknown Graph API error")
  end.

(** The request built for a call. *)
Definition requestOptionsOf (endpoint accessToken method : string) (body : jsval)
  : Request :=
  {| req_url := "https://graph.microsoft.com/beta" +:+ endpoint;
     req_method := method;
     req_authorization := "Bearer " +:+ accessToken;
     req_contentType := "application/json";
     req_body :=
       if truthy body && isWriteMethod method then Some (jsonRoundTrip body)
       else None |}.

(** [callGraphApi]: the response returned and the network afterwards. Every
    raise inside the [try] block ends in the [catch] branch. *)
Definition callGraphApi (endpoint accessToken method : string) (body : jsval)
    (w : World) : GraphApiResponse * World :=
  if String.eqb accessToken "" then
    (failed "No access token provided" 401, w)
  else
    let requestOptions := requestOptionsOf endpoint accessToken method body in
    let w' := {| net := net w; sent := (sent w ++ [requestOptions])%list |} in
    match net w (length (sent w)) requestOptions with
    | NetworkError msg => (failed msg 500, w')
    | Responded response =>
        if negb (ok response) then
          match json response with
          | BodyInvalid msg => (failed msg 500, w')
          | BodyJson errorData =>
              match errorMessageOf errorData with
              | Ok errorMessage => (failed errorMessage (status response), w')
              | Throw msg => (failed msg 500, w')
              end
          end
        else if (status response =? 204)%Z || String.eqb method "DELETE" then
          (succeeded (Some emptyBody), w')
        else
          match json response with
          | BodyInvalid msg => (failed msg 500, w')
          | BodyJson d => (succeeded d, w')
          end
    end.

(** [r.data.value] *)
Definition valueOf (r : GraphApiResponse) : result (option (list GraphObject)) :=
  match data r with
  | None => Throw "TypeError: Cannot read properties of undefined (reading 'value')"
  | Some b => Ok (value b)
  end.

(** [r.success ? r.data.value : []] *)
Definition valueOrEmpty (r : GraphApiResponse) : result (option (list GraphObject)) :=
  if success r then valueOf r else Ok (Some []).

(** [checkOrganizationSettings]: two calls, combined into one response; the
    combined body has no [value] member. *)
Definition checkOrganizationSettings (accessToken : string) (w : World)
  : GraphApiResponse * World :=
  let '(mdmResponse, w1) :=
    callGraphApi "/deviceManagement/mobileThreatDefenseConnectors" accessToken "GET"
                 JUndefined w in
  let '(securityResponse, w2) :=
    callGraphApi "/security/secureScoreControlProfiles" accessToken "GET"
                 JUndefined w1 in
  match (let* mobileDefenseSettings := valueOrEmpty mdmResponse in
         let* securitySettings := valueOrEmpty securityResponse in
         Ok (succeeded (Some emptyBody))) with
  | Ok r => (r, w2)
  | Throw msg => (failed msg 500, w2)
  end.

(* ------------------------------------------------------------------------- *)
(** ** Parallel collector (ScanContext.tsx, [fetchMicrosoftGraphData]) *)

(** Endpoint names and the positions of their responses. *)
Definition endpointMap : list (string * list nat) :=
  [ ("users", [0; 2; 3]%nat);
    ("organization", [1]%nat);
    ("groups", [4]%nat);
    ("users/passwordPolicies", [5]%nat);
    ("identityProtection/riskyUsers", [6]%nat);
    ("users/mailFolders/messageRules", [7]%nat);
    ("directoryRoles", [8]%nat);
    ("users/guestUsers", [9]%nat);
    ("users/mailboxSettings", [10]%nat);
    ("deviceManagement/mobileThreatDefenseConnectors", [11]%nat);
    ("identity/conditionalAccess/policies", [12]%nat);
    ("subscribedSkus", [13]%nat);
    ("policies/identitySecurityDefaultsEnforcementPolicy", [14]%nat);
    ("identity/authenticationStrengthPolicies", [15]%nat);
    ("identity/conditionalAccess/namedLocations", [16]%nat);
    ("policies/authenticationMethodsPolicy", [17; 18]%nat);
    ("administrativeUnits", [19]%nat);
    ("roleManagement/directory/roleSettings", [20]%nat);
    ("admin/sharepoint/settings", [21]%nat);
    ("security/dataLossPreventionPolicies", [22]%nat);
    ("security/informationProtection/policy/labels", [23]%nat);
    ("security/threatIntelligence/antiphishPolicies", [25]%nat);
    ("deviceManagement/deviceCompliancePolicies", [26]%nat);
    ("admin/exchange/transportRules", [27]%nat);
    ("domains", [28]%nat) ].

(** [responses[index]], for a following member read. *)
Definition responseAt (responses : list GraphApiResponse) (index : nat)
  : result GraphApiResponse :=
  match nth_error responses index with
  | Some r => Ok r
  | None => Throw "TypeError: Cannot read properties of undefined (reading 'success')"
  end.

(** The inner [indices.forEach] of the error check. *)
Fixpoint checkIndices (responses : list GraphApiResponse) (endpoint : string)
    (indices : list nat) (apiErrors : list string) : result (list string) :=
  match indices with
  | [] => Ok apiErrors
  | index :: rest =>
      let* r := responseAt responses index in
      checkIndices responses endpoint rest
        (if negb (success r)
         then (apiErrors ++ ["graph.microsoft.com/beta/" +:+ endpoint])%list
         else apiErrors)
  end.

(** The outer [Object.entries(endpointMap).forEach]. *)
Fixpoint checkEndpoints (responses : list GraphApiResponse)
    (entries : list (string * list nat)) (apiErrors : list string)
  : result (list string) :=
  match entries with
  | [] => Ok apiErrors
  | (endpoint, indices) :: rest =>
      let* apiErrors' := checkIndices responses endpoint indices apiErrors in
      checkEndpoints responses rest apiErrors'
  end.

(** [r.success ? r.data : null] *)
Definition dataOrNull (r : GraphApiResponse) : option GraphBody :=
  if success r then data r else None.

(** [r.success ? r.data.value[0] : null] *)
Definition firstOrNull (r : GraphApiResponse) : result (option GraphObject) :=
  if success r then
    match data r ≫= value with
    | Some l => Ok (head l)
    | None => Throw "TypeError: Cannot read properties of undefined (reading '0')"
    end
  else Ok None.

(** The [try] block once [Promise.all] has settled to [responses]. *)
Definition collect (responses : list GraphApiResponse) : result GraphResult :=
  let* apiErrors := checkEndpoints responses endpointMap [] in
  let* usersResponse := responseAt responses 0 in
  let* tenantResponse := responseAt responses 1 in
  let* inactiveUsersResponse := responseAt responses 2 in
  let* mfaStatusResponse := responseAt responses 3 in
  let* groupsResponse := responseAt responses 4 in
  let* passwordNeverExpiresResponse := responseAt responses 5 in
  let* riskyUsersResponse := responseAt responses 6 in
  let* emailForwardingResponse := responseAt responses 7 in
  let* privilegedRolesResponse := responseAt responses 8 in
  let* guestUsersResponse := responseAt responses 9 in
  let* sharedMailboxesResponse := responseAt responses 10 in
  let* deviceComplianceResponse := responseAt responses 11 in
  let* conditionalAccessResponse := responseAt responses 12 in
  let* unusedLicensesResponse := responseAt responses 13 in
  let* securityDefaultsResponse := responseAt responses 14 in
  let* authStrengthPoliciesResponse := responseAt responses 15 in
  let* namedLocationsResponse := responseAt responses 16 in
  let* legacyAuthStatusResponse := responseAt responses 17 in
  let* selfServicePasswordResetResponse := responseAt responses 18 in
  let* adminUnitsResponse := responseAt responses 19 in
  let* pimConfigResponse := responseAt responses 20 in
  let* sharePointSharingResponse := responseAt responses 21 in
  let* dlpPoliciesResponse := responseAt responses 22 in
  let* retentionPoliciesResponse := responseAt responses 23 in
  let* organizationSettingsResponse := responseAt responses 24 in
  let* defenderForOfficeResponse := responseAt responses 25 in
  let* intuneCompliancePoliciesResponse := responseAt responses 26 in
  let* exchangeTransportRulesResponse := responseAt responses 27 in
  let* emailAuthenticationResponse := responseAt responses 28 in
  let* users_ := valueOrEmpty usersResponse in
  let* tenantInfo_ := firstOrNull tenantResponse in
  let* inactiveUsers_ := valueOrEmpty inactiveUsersResponse in
  let* mfaStatus_ := valueOrEmpty mfaStatusResponse in
  let* groups_ := valueOrEmpty groupsResponse in
  let* passwordNeverExpires_ := valueOrEmpty passwordNeverExpiresResponse in
  let* riskyUsers_ := valueOrEmpty riskyUsersResponse in
  let* emailForwarding_ := valueOrEmpty emailForwardingResponse in
  let* privilegedRoles_ := valueOrEmpty privilegedRolesResponse in
  let* guestUsers_ := valueOrEmpty guestUsersResponse in
  let* sharedMailboxes_ := valueOrEmpty sharedMailboxesResponse in
  let* deviceCompliance_ := valueOrEmpty deviceComplianceResponse in
  let* conditionalAccess_ := valueOrEmpty conditionalAccessResponse in
  let* unusedLicenses_ := valueOrEmpty unusedLicensesResponse in
  let* namedLocations_ := valueOrEmpty namedLocationsResponse in
  let* administrativeUnits_ := valueOrEmpty adminUnitsResponse in
  let* dlpPolicies_ := valueOrEmpty dlpPoliciesResponse in
  let* retentionPolicies_ := valueOrEmpty retentionPoliciesResponse in
  let* intuneCompliancePolicies_ := valueOrEmpty intuneCompliancePoliciesResponse in
  let* exchangeTransportRules_ := valueOrEmpty exchangeTransportRulesResponse in
  Ok {| gr_success := existsb success responses;
        gr_apiErrors := apiErrors;
        gr_error := None;
        users := users_;
        tenantInfo := tenantInfo_;
        inactiveUsers := inactiveUsers_;
        mfaStatus := mfaStatus_;
        groups := groups_;
        passwordNeverExpires := passwordNeverExpires_;
        riskyUsers := riskyUsers_;
        emailForwarding := emailForwarding_;
        privilegedRoles := privilegedRoles_;
        guestUsers := guestUsers_;
        sharedMailboxes := sharedMailboxes_;
        deviceCompliance := deviceCompliance_;
        conditionalAccess := conditionalAccess_;
        unusedLicenses := unusedLicenses_;
        securityDefaults := dataOrNull securityDefaultsResponse;
        authStrengthPolicies := dataOrNull authStrengthPoliciesResponse;
        namedLocations := namedLocations_;
        legacyAuthStatus := dataOrNull legacyAuthStatusResponse;
        passwordResetPolicy := dataOrNull selfServicePasswordResetResponse;
        administrativeUnits := administrativeUnits_;
        pimConfiguration := dataOrNull pimConfigResponse;
        sharePointSharing := dataOrNull sharePointSharingResponse;
        dlpPolicies := dlpPolicies_;
        retentionPolicies := retentionPolicies_;
        organizationSettings := dataOrNull organizationSettingsResponse;
        defenderForOffice := dataOrNull defenderForOfficeResponse;
        intuneCompliancePolicies := intuneCompliancePolicies_;
        exchangeTransportRules := exchangeTransportRules_;
        emailAuthentication := dataOrNull emailAuthenticationResponse |}.

(** The object returned from the [catch] block. *)
Definition collectFailed (msg : string) : GraphResult :=
  {| gr_success := false; gr_apiErrors := []; gr_error := Some msg;
     users := None; tenantInfo := None; inactiveUsers := None; mfaStatus := None;
     groups := None; passwordNeverExpires := None; riskyUsers := None;
     emailForwarding := None; privilegedRoles := None; guestUsers := None;
     sharedMailboxes := None; deviceCompliance := None; conditionalAccess := None;
     unusedLicenses := None; securityDefaults := None; authStrengthPolicies := None;
     namedLocations := None; legacyAuthStatus := None; passwordResetPolicy := None;
     administrativeUnits := None; pimConfiguration := None; sharePointSharing := None;
     dlpPolicies := None; retentionPolicies := None; organizationSettings := None;
     defenderForOffice := None; intuneCompliancePolicies := None;
     exchangeTransportRules := None; emailAuthentication := None |}.

(** [fetchMicrosoftGraphData], from the point where the 29 parallel calls
    have settled to [responses] (none of them rejects: each check catches its
    own errors). *)
Definition fetchMicrosoftGraphData (responses : list GraphApiResponse) : GraphResult :=
  match collect responses with
  | Ok bag => bag
  | Throw msg => collectFailed msg
  end.

(* ------------------------------------------------------------------------- *)
(** ** Snapshot store (ScanContext.tsx) *)

(** *** In-memory JavaScript objects of the typed records.
    An optional member that is absent reads as [undefined]. *)

(** An optional member as a JavaScript value. *)
Definition optJS {A} (f : A -> jsval) (o : option A) : jsval :=
  match o with
  | Some a => f a
  | None => JUndefined
  end.

(** An array of strings. *)
Definition stringsJS (l : list string) : jsval := JArr (List.map JStr l).

(** The object of an [affectedObject]. *)
Definition AffectedObject_toJS (o : AffectedObject) : jsval :=
  JObj [ ("type", JStr (ao_type o)); ("id", JStr (ao_id o)); ("name", JStr (ao_name o)) ].

(** The object of an issue, members in the order the detectors write them. *)
Definition SecurityIssue_toJS (i : SecurityIssue) : jsval :=
  JObj [ ("id", JStr (si_id i));
         ("type", JStr (si_type i));
         ("severity", JStr (Severity_toString (si_severity i)));
         ("affectedObject", AffectedObject_toJS (si_affectedObject i));
         ("description", JStr (si_description i));
         ("impact", optJS JStr (si_impact i));
         ("remediation", optJS JStr (si_remediation i));
         ("details", optJS (fun v => v) (si_details i));
         ("status", optJS JStr (si_status i));
         ("isRealData", optJS JBool (si_isRealData i));
         ("affectedItems", optJS stringsJS (si_affectedItems i)) ].

(** The object of the severity counts. *)
Definition SeverityCount_toJS (c : SeverityCount) : jsval :=
  JObj [ ("High", JNum (cnt_High c)); ("Medium", JNum (cnt_Medium c));
         ("Low", JNum (cnt_Low c)) ].

(** The object of a summary. *)
Definition ScanSummary_toJS (m : ScanSummary) : jsval :=
  JObj [ ("id", JStr (sum_id m));
         ("timestamp", JStr (sum_timestamp m));
         ("tenantId", JStr (sum_tenantId m));
         ("tenantName", JStr (sum_tenantName m));
         ("overallRiskScore", JNum (sum_overallRiskScore m));
         ("issueCountsByCategory",
            JObj (List.map (fun kv => (fst kv, JNum (snd kv)))
                           (sum_issueCountsByCategory m)));
         ("issueCountsBySeverity", SeverityCount_toJS (sum_issueCountsBySeverity m));
         ("totalAccountsScanned", JNum (sum_totalAccountsScanned m));
         ("totalGroupsScanned", JNum (sum_totalGroupsScanned m));
         ("totalPoliciesScanned", JNum (sum_totalPoliciesScanned m));
         ("totalDevicesScanned", JNum (sum_totalDevicesScanned m));
         ("totalMailboxesScanned", JNum (sum_totalMailboxesScanned m)) ].

(** The object of a Graph element. *)
Definition GraphObject_toJS (o : GraphObject) : jsval :=
  JObj [ ("userPrincipalName", optJS JStr (userPrincipalName o));
         ("isMfaEnabled", optJS JBool (isMfaEnabled o));
         ("forwardTo", optJS JStr (forwardTo o));
         ("mailbox", optJS JStr (mailbox o));
         ("displayName", optJS JStr (displayName o)) ].

(** A dataset: an array, or [undefined]. *)
Definition datasetJS (d : option (list GraphObject)) : jsval :=
  optJS (fun l => JArr (List.map GraphObject_toJS l)) d.

(** The object of [rawData]. *)
Definition RawData_toJS (r : RawData) : jsval :=
  JObj [ ("users", datasetJS (raw_users r));
         ("groups", datasetJS (raw_groups r));
         ("policies", datasetJS (raw_policies r));
         ("mailRules", datasetJS (raw_mailRules r));
         ("devices", datasetJS (raw_devices r));
         ("licenses", datasetJS (raw_licenses r));
         ("roles", datasetJS (raw_roles r)) ].

(** The object of a scan. *)
Definition ScanData_toJS (d : ScanData) : jsval :=
  JObj [ ("summary", ScanSummary_toJS (sd_summary d));
         ("issues", JArr (List.map SecurityIssue_toJS (sd_issues d)));
         ("apiErrors", stringsJS (sd_apiErrors d));
         ("usesRealData", JBool (sd_usesRealData d));
         ("rawData", RawData_toJS (sd_rawData d)) ].

(** *** What [getScanById] returns *)

(** An element of the returned [issues]. *)
Record IssueView : Type := {
  iv_id : jsval;
  iv_title : jsval;
  iv_severity : jsval;
  iv_description : jsval;
  iv_impact : jsval;
  iv_recommendation : jsval;
  iv_details : jsval;
  iv_status : jsval;
  iv_canAutoFix : bool;
  iv_category : string;
  iv_affectedItems : list jsval;
  iv_isRealData : jsval
}.

(** The object returned by [getScanById]. *)
Record ScanView : Type := {
  sv_id : jsval;
  sv_date : string;
  sv_securityScore : jsval;
  sv_highRiskIssues : jsval;
  sv_mediumRiskIssues : jsval;
  sv_lowRiskIssues : jsval;
  sv_issuesFixed : Z;
  sv_usesRealData : jsval;
  sv_apiErrors : jsval;
  sv_issues : list IssueView
}.

(** The object of a returned issue. *)
Definition IssueView_toJS (i : IssueView) : jsval :=
  JObj [ ("id", iv_id i);
         ("title", iv_title i);
         ("severity", iv_severity i);
         ("description", iv_description i);
         ("impact", iv_impact i);
         ("recommendation", iv_recommendation i);
         ("details", iv_details i);
         ("status", iv_status i);
         ("canAutoFix", JBool (iv_canAutoFix i));
         ("category", JStr (iv_category i));
         ("affectedItems", JArr (iv_affectedItems i));
         ("isRealData", iv_isRealData i) ].

(** The members of a returned scan, as [{ ...scan }] copies them. *)
Definition ScanView_fields (v : ScanView) : list (string * jsval) :=
  [ ("id", sv_id v);
    ("date", JStr (sv_date v));
    ("securityScore", sv_securityScore v);
    ("highRiskIssues", sv_highRiskIssues v);
    ("mediumRiskIssues", sv_mediumRiskIssues v);
    ("lowRiskIssues", sv_lowRiskIssues v);
    ("issuesFixed", JNum (sv_issuesFixed v));
    ("usesRealData", sv_usesRealData v);
    ("apiErrors", sv_apiErrors v);
    ("issues", JArr (List.map IssueView_toJS (sv_issues v))) ].

(** Dashboard-specific scan data ([interface LatestScanData]). *)
Record LatestScanData : Type := {
  lsd_id : string;
  lsd_date : string;
  lsd_securityScore : Z;
  lsd_highRiskIssues : Z;
  lsd_mediumRiskIssues : Z;
  lsd_lowRiskIssues : Z;
  lsd_issuesFixed : Z;
  lsd_securityPostureScore : Z;
  lsd_identityAccessScore : Z;
  lsd_deviceAppScore : Z;
  lsd_dataProtectionScore : Z;
  lsd_licenseManagementScore : Z;
  lsd_securityPostureIssues : Z;
  lsd_identityAccessIssues : Z;
  lsd_deviceAppIssues : Z;
  lsd_dataProtectionIssues : Z;
  lsd_licenseManagementIssues : Z;
  lsd_usesRealData : jsval;
  lsd_issues : list jsval
}.

(** The state of the scan provider: the auth context values it reads, its
    React state, and the browser storage. A value in [localStorage] is kept
    as the JSON value its text parses to. *)
Record AppState : Type := {
  accessToken : option string;
  tenantId : option string;
  isScanning : bool;
  isFixing : option string;
  currentScan : option ScanData;
  scanHistory : list ScanSummary;
  latestScan : option LatestScanData;
  localStorage : gmap string jsval
}.

(** [!x] for [string | null]. *)
Definition missing (x : option string) : bool :=
  match x with
  | Some s => String.eqb s ""
  | None => true
  end.

(** [localStorage.setItem(key, JSON.stringify(v))] *)
Definition setItem (key : string) (v : jsval) (st : gmap string jsval)
  : gmap string jsval :=
  <[ key := jsonRoundTrip v ]> st.

(** The four titles for which a fix is offered. *)
Definition canAutoFixTitle (ty : jsval) : bool :=
  strictEqStr ty "MFA Disabled" || strictEqStr ty "Inactive Account"
  || strictEqStr ty "Weak Spam Filter" || strictEqStr ty "MFA Not Configured".

(** The in-memory branch: an element of [currentScan.issues.map(...)]. *)
Definition issueViewOfCurrent (issue : SecurityIssue) : IssueView :=
  {| iv_id := JStr (si_id issue);
     iv_title := JStr (si_type issue);
     iv_severity := JStr (Severity_toString (si_severity issue));
     iv_description := JStr (si_description issue);
     iv_impact := JStr (orDefault (si_impact issue) "Potential security risk");
     iv_recommendation := optJS JStr (si_remediation issue);
     iv_details := optJS (fun v => v) (si_details issue);
     iv_status := JStr (orDefault (si_status issue) "Open");
     iv_canAutoFix := canAutoFixTitle (JStr (si_type issue));
     iv_category := toLowerCase (ao_type (si_affectedObject issue));
     iv_affectedItems :=
       JStr (ao_name (si_affectedObject issue))
       :: List.map JStr (match si_affectedItems issue with Some l => l | None => [] end);
     iv_isRealData := optJS JBool (si_isRealData issue) |}.

(** [i.status === "Fixed"] on a typed issue. *)
Definition isFixedStatus (status : option string) : bool :=
  match status with
  | Some s => String.eqb s "Fixed"
  | None => false
  end.

(** The in-memory branch of [getScanById]. *)
Definition viewOfCurrent (h : Host) (currentScan : ScanData) : ScanView :=
  let summary := sd_summary currentScan in
  {| sv_id := JStr (sum_id summary);
     sv_date := toLocaleString h (JStr (sum_timestamp summary));
     sv_securityScore := or_else (JNum (sum_overallRiskScore summary)) (JNum 0);
     sv_highRiskIssues := JNum (cnt_High (sum_issueCountsBySeverity summary));
     sv_mediumRiskIssues := JNum (cnt_Medium (sum_issueCountsBySeverity summary));
     sv_lowRiskIssues := JNum (cnt_Low (sum_issueCountsBySeverity summary));
     sv_issuesFixed :=
       Z.of_nat (length (List.filter (fun i => isFixedStatus (si_status i))
                                     (sd_issues currentScan)));
     sv_usesRealData := JBool (sd_usesRealData currentScan);
     sv_apiErrors := stringsJS (sd_apiErrors currentScan);
     sv_issues := List.map issueViewOfCurrent (sd_issues currentScan) |}.

(** [...(issue.affectedItems || [])] *)
Definition spreadOrEmpty (v : jsval) : result (list jsval) :=
  if truthy v then
    match v with
    | JArr l => Ok l
    | JStr s => Ok (List.map (fun c => JStr (String c EmptyString)) (list_ascii_of_string s))
    | _ => Throw "TypeError: issue.affectedItems is not iterable"
    end
  else Ok [].

(** The storage branch: an element of [parsedScan.issues.map(...)]. *)
Definition issueViewOfParsed (issue : jsval) : result IssueView :=
  let* id := get issue "id" in
  let* title := get issue "type" in
  let* severity := get issue "severity" in
  let* description := get issue "description" in
  let* impact := get issue "impact" in
  let* recommendation := get issue "remediation" in
  let* details := get issue "details" in
  let* status := get issue "status" in
  let* affectedObject := get issue "affectedObject" in
  let* category := get affectedObject "type" in
  let* categoryText := asString "issue.affectedObject.type.toLowerCase" category in
  let* name := get affectedObject "name" in
  let* affectedItems := get issue "affectedItems" in
  let* items := spreadOrEmpty affectedItems in
  let* isRealData := get issue "isRealData" in
  Ok {| iv_id := id;
        iv_title := title;
        iv_severity := severity;
        iv_description := description;
        iv_impact := or_else impact (JStr "Potential security risk");
        iv_recommendation := recommendation;
        iv_details := details;
        iv_status := or_else status (JStr "Open");
        iv_canAutoFix := canAutoFixTitle title;
        iv_category := toLowerCase categoryText;
        iv_affectedItems := name :: items;
        iv_isRealData := isRealData |}.

(** [i.status === "Fixed"] on a parsed issue. *)
Definition isFixedParsed (i : jsval) : result bool :=
  let* status := get i "status" in Ok (strictEqStr status "Fixed").

(** [typeof v === 'number'] *)
Definition isNumber (v : jsval) : bool :=
  match v with JNum _ => true | _ => false end.

(** The storage branch of [getScanById], on the parsed snapshot. The
    [try]/[catch] around the date formatting does not change the outcome:
    when reading [parsedScan.summary.timestamp] raises, so does the read of
    [parsedScan.summary.overallRiskScore] that follows it. *)
Definition viewOfParsed (h : Host) (parsedScan : jsval) : result ScanView :=
  let* summary := get parsedScan "summary" in
  let* id := get summary "id" in
  let* timestamp := get summary "timestamp" in
  let formattedDate := toLocaleString h timestamp in
  let* overallRiskScore := get summary "overallRiskScore" in
  let securityScore := if isNumber overallRiskScore then overallRiskScore else JNum 0 in
  let* counts := get summary "issueCountsBySeverity" in
  let* high := get counts "High" in
  let* medium := get counts "Medium" in
  let* low := get counts "Low" in
  let* issuesValue := get parsedScan "issues" in
  let* issues := asArray "parsedScan.issues.filter" issuesValue in
  let* fixed := filterM isFixedParsed issues in
  let* usesRealData := get parsedScan "usesRealData" in
  let* apiErrors := get parsedScan "apiErrors" in
  let* views := mapM issueViewOfParsed issues in
  Ok {| sv_id := id;
        sv_date := formattedDate;
        sv_securityScore := securityScore;
        sv_highRiskIssues := or_else high (JNum 0);
        sv_mediumRiskIssues := or_else medium (JNum 0);
        sv_lowRiskIssues := or_else low (JNum 0);
        sv_issuesFixed := Z.of_nat (length fixed);
        sv_usesRealData := usesRealData;
        sv_apiErrors := or_else apiErrors (JArr []);
        sv_issues := views |}.

(** [getScanById] once the "latest" alias is resolved. *)
Definition getScanByIdDirect (h : Host) (s : AppState) (scanId : string)
  : result (option ScanView) :=
  match currentScan s with
  | Some current =>
      if String.eqb (sum_id (sd_summary current)) scanId
      then Ok (Some (viewOfCurrent h current))
      else
        match localStorage s !! ("scan_" +:+ scanId) with
        | Some parsedScan => let* v := viewOfParsed h parsedScan in Ok (Some v)
        | None => Ok None
        end
  | None =>
      match localStorage s !! ("scan_" +:+ scanId) with
      | Some parsedScan => let* v := viewOfParsed h parsedScan in Ok (Some v)
      | None => Ok None
      end
  end.

(** [getScanById]. A [latestScan] whose own id is "latest" makes the call
    recurse without end, which the engine turns into a RangeError. *)
Definition getScanById (h : Host) (s : AppState) (scanId : string)
  : result (option ScanView) :=
  if missing (tenantId s) then Ok None
  else
    match latestScan s with
    | Some latest =>
        if String.eqb scanId "latest" then
          if String.eqb (lsd_id latest) "latest"
          then Throw "RangeError: Maximum call stack size exceeded"
          else getScanByIdDirect h s (lsd_id latest)
        else getScanByIdDirect h s scanId
    | None => getScanByIdDirect h s scanId
    end.

(** The notification shown by an operation. *)
Inductive Toast : Type :=
| ToastError (msg : string)
| ToastSuccess (msg : string).

(** [issue.id === issueId ? { ...issue, status: "Fixed" } : issue] *)
Definition markFixed (issueId : string) (issue : IssueView) : IssueView :=
  if strictEqStr (iv_id issue) issueId then
    {| iv_id := iv_id issue; iv_title := iv_title issue;
       iv_severity := iv_severity issue; iv_description := iv_description issue;
       iv_impact := iv_impact issue; iv_recommendation := iv_recommendation issue;
       iv_details := iv_details issue; iv_status := JStr "Fixed";
       iv_canAutoFix := iv_canAutoFix issue; iv_category := iv_category issue;
       iv_affectedItems := iv_affectedItems issue;
       iv_isRealData := iv_isRealData issue |}
  else issue.

(** The object written back by [fixIssue]. *)
Definition fixedSnapshot (scan : ScanView) (updatedIssues : list IssueView) : jsval :=
  JObj [ ("summary",
          JObj (setField "overallRiskScore" (sv_securityScore scan)
                 (setField "timestamp" (JStr (sv_date scan))
                   (setField "id" (sv_id scan) (ScanView_fields scan)))));
         ("issues", JArr (List.map IssueView_toJS updatedIssues)) ].

(** [fixIssue]: the remediation is simulated by a delay; the local
    [updatedScan] (with [issuesFixed + 1]) is built and never used. *)
Definition fixIssue (h : Host) (s : AppState) (scanId issueId : string)
  : AppState * Toast :=
  let done (st : gmap string jsval) : AppState :=
    {| accessToken := accessToken s; tenantId := tenantId s;
       isScanning := isScanning s; isFixing := None;
       currentScan := currentScan s; scanHistory := scanHistory s;
       latestScan := latestScan s; localStorage := st |} in
  match getScanById h s scanId with
  | Throw _ => (done (localStorage s), ToastError "Failed to fix issue")
  | Ok None => (done (localStorage s), ToastError "Scan data not found")
  | Ok (Some scan) =>
      match List.find (fun issue => strictEqStr (iv_id issue) issueId) (sv_issues scan) with
      | None => (done (localStorage s), ToastError "Issue not found")
      | Some issueToFix =>
          let updatedIssues := List.map (markFixed issueId) (sv_issues scan) in
          (done (setItem ("scan_" +:+ scanId) (fixedSnapshot scan updatedIssues)
                         (localStorage s)),
           ToastSuccess "Issue fixed successfully")
      end
  end.

(** *** Dashboard conversion ([convertToLatestScanData]) *)

(** One entry of [categoryMappings]: its keyword list, running score and
    issue count. *)
Record CategoryMapping : Type := {
  cm_key : string;
  cm_types : list string;
  cm_score : Z;
  cm_issues : Z
}.

(** The five categories, in the order of the object literal. *)
Definition categoryMappings : list CategoryMapping :=
  [ {| cm_key := "securityPosture";
       cm_types := ["Policy"; "SecurityDefaults"; "ComplianceScore"; "SecureScore";
                    "Organization"];
       cm_score := 100; cm_issues := 0 |};
    {| cm_key := "identityAccess";
       cm_types := ["User"; "Role"; "Authentication"; "MFA"; "Guest"; "Admin";
                    "Identity"];
       cm_score := 100; cm_issues := 0 |};
    {| cm_key := "deviceApp";
       cm_types := ["Device"; "Application"; "Intune"; "Endpoint"];
       cm_score := 100; cm_issues := 0 |};
    {| cm_key := "dataProtection";
       cm_types := ["Mailbox"; "SharePoint"; "DLP"; "Exchange"; "Email"; "Domain"];
       cm_score := 100; cm_issues := 0 |};
    {| cm_key := "licenseManagement";
       cm_types := ["License"; "Subscription"];
       cm_score := 100; cm_issues := 0 |} ].

(** [types.some(t => ...)] with a callback that may raise. *)
Fixpoint someM {A} (f : A -> result bool) (l : list A) : result bool :=
  match l with
  | [] => Ok false
  | x :: xs => let* b := f x in if b then Ok true else someM f xs
  end.

(** [category.toLowerCase().includes(t.toLowerCase()) ||
     (issue.type && issue.type.toLowerCase().includes(t.toLowerCase()))] *)
Definition matchesType (category issueType : jsval) (t : string) : result bool :=
  let* c := asString "category.toLowerCase" category in
  if includes (toLowerCase c) (toLowerCase t) then Ok true
  else if truthy issueType then
    let* ty := asString "issue.type.toLowerCase" issueType in
    Ok (includes (toLowerCase ty) (toLowerCase t))
  else Ok false.

(** The [for ... of Object.entries(categoryMappings)] loop with its [break]:
    the first matching category is charged. *)
Fixpoint chargeFirstMatch (category issueType : jsval) (impactScore : Z)
    (ms : list CategoryMapping) : result (list CategoryMapping) :=
  match ms with
  | [] => Ok []
  | m :: rest =>
      let* hit := someM (matchesType category issueType) (cm_types m) in
      if hit then
        Ok ({| cm_key := cm_key m; cm_types := cm_types m;
               cm_score := Z.max 0 (cm_score m - impactScore);
               cm_issues := (cm_issues m + 1)%Z |} :: rest)
      else
        let* rest' := chargeFirstMatch category issueType impactScore rest in
        Ok (m :: rest')
  end.

(** The body of [issues.forEach]. *)
Definition chargeIssue (ms : list CategoryMapping) (issue : jsval)
  : result (list CategoryMapping) :=
  let* affectedObject := get issue "affectedObject" in
  let* category := get affectedObject "type" in
  let* severity := get issue "severity" in
  let impactScore :=
    if strictEqStr severity "High" then 15%Z
    else if strictEqStr severity "Medium" then 7%Z else 3%Z in
  let* issueType := get issue "type" in
  chargeFirstMatch category issueType impactScore ms.

(** [l.forEach] updating [a], with a callback that may raise. *)
Fixpoint foldM {A B} (f : A -> B -> result A) (l : list B) (a : A) : result A :=
  match l with
  | [] => Ok a
  | x :: xs => let* a' := f a x in foldM f xs a'
  end.

(** [issues.filter(i => i.member === lit).length] on parsed issues. *)
Definition countWhere (member lit : string) (issues : list jsval) : result Z :=
  let* hits := filterM (fun i => let* v := get i member in Ok (strictEqStr v lit)) issues in
  Ok (Z.of_nat (length hits)).

(** [categoryMappings[key].score] *)
Definition scoreOf (key : string) (ms : list CategoryMapping) : Z :=
  match List.find (fun m => String.eqb (cm_key m) key) ms with
  | Some m => cm_score m
  | None => 0
  end.

(** [categoryMappings[key].issues] *)
Definition issuesOf (key : string) (ms : list CategoryMapping) : Z :=
  match List.find (fun m => String.eqb (cm_key m) key) ms with
  | Some m => cm_issues m
  | None => 0
  end.

(** [convertToLatestScanData], reading the snapshot of the summary from the
    storage [st]. *)
Definition convertToLatestScanData (st : gmap string jsval) (summary : ScanSummary)
  : result LatestScanData :=
  let parsedData :=
    match st !! ("scan_" +:+ sum_id summary) with
    | Some v => v
    | None => JNull
    end in
  let* issuesValue :=
    if truthy parsedData then get parsedData "issues" else Ok (JArr []) in
  let* issues := asArray "issues.forEach" issuesValue in
  let* mappings := foldM chargeIssue issues categoryMappings in
  let* highRiskIssues := countWhere "severity" "High" issues in
  let* mediumRiskIssues := countWhere "severity" "Medium" issues in
  let* lowRiskIssues := countWhere "severity" "Low" issues in
  let securityScore :=
    if ((0 <? highRiskIssues) || (0 <? mediumRiskIssues) || (0 <? lowRiskIssues))%Z
    then
      let totalImpact :=
        (highRiskIssues * 15 + mediumRiskIssues * 7 + lowRiskIssues * 3)%Z in
      Z.max 0 (Z.min 100 (100 - totalImpact))
    else sum_overallRiskScore summary in
  let* issuesFixed := countWhere "status" "Fixed" issues in
  let* usesRealData :=
    match parsedData with
    | JUndefined | JNull => Ok JUndefined
    | _ => get parsedData "usesRealData"
    end in
  Ok {| lsd_id := sum_id summary;
        lsd_date := sum_timestamp summary;
        lsd_securityScore := securityScore;
        lsd_highRiskIssues := highRiskIssues;
        lsd_mediumRiskIssues := mediumRiskIssues;
        lsd_lowRiskIssues := lowRiskIssues;
        lsd_issuesFixed := issuesFixed;
        lsd_securityPostureScore := scoreOf "securityPosture" mappings;
        lsd_identityAccessScore := scoreOf "identityAccess" mappings;
        lsd_deviceAppScore := scoreOf "deviceApp" mappings;
        lsd_dataProtectionScore := scoreOf "dataProtection" mappings;
        lsd_licenseManagementScore := scoreOf "licenseManagement" mappings;
        lsd_securityPostureIssues := issuesOf "securityPosture" mappings;
        lsd_identityAccessIssues := issuesOf "identityAccess" mappings;
        lsd_deviceAppIssues := issuesOf "deviceApp" mappings;
        lsd_dataProtectionIssues := issuesOf "dataProtection" mappings;
        lsd_licenseManagementIssues := issuesOf "licenseManagement" mappings;
        lsd_usesRealData := or_else usesRealData (JBool false);
        lsd_issues := issues |}.

(** *** Scan pipeline ([startScan]) *)

(** [startScan], from the point where the parallel calls of the collector
    have settled to [responses]; [t] is the number of clock readings taken
    before. Returns the next state and the returned scan id or [null]. *)
Definition startScan (h : Host) (t : nat) (s : AppState)
    (responses : list GraphApiResponse) : AppState * option string :=
  match accessToken s, tenantId s with
  | Some token, Some tenant =>
      if String.eqb token "" || String.eqb tenant "" then (s, None)
      else
        let graphResult := fetchMicrosoftGraphData responses in
        let scanData :=
          generateScan h t token tenant
            (if gr_success graphResult
             then tenantInfo graphResult ≫= displayName else None)
            (if gr_success graphResult then Some graphResult else None) in
        let updatedHistory := firstn 10 (sd_summary scanData :: scanHistory s) in
        let storage :=
          setItem ("scan_" +:+ sum_id (sd_summary scanData)) (ScanData_toJS scanData)
            (setItem ("scanHistory_" +:+ tenant)
                     (JArr (List.map ScanSummary_toJS updatedHistory))
                     (localStorage s)) in
        match convertToLatestScanData storage (sd_summary scanData) with
        | Ok latestScanData =>
            ({| accessToken := accessToken s; tenantId := tenantId s;
                isScanning := false; isFixing := isFixing s;
                currentScan := Some scanData;
                scanHistory := updatedHistory;
                latestScan :=
                  Some {| lsd_id := lsd_id latestScanData;
                          lsd_date := lsd_date latestScanData;
                          lsd_securityScore := lsd_securityScore latestScanData;
                          lsd_highRiskIssues := lsd_highRiskIssues latestScanData;
                          lsd_mediumRiskIssues := lsd_mediumRiskIssues latestScanData;
                          lsd_lowRiskIssues := lsd_lowRiskIssues latestScanData;
                          lsd_issuesFixed := lsd_issuesFixed latestScanData;
                          lsd_securityPostureScore :=
                            lsd_securityPostureScore latestScanData;
                          lsd_identityAccessScore :=
                            lsd_identityAccessScore latestScanData;
                          lsd_deviceAppScore := lsd_deviceAppScore latestScanData;
                          lsd_dataProtectionScore :=
                            lsd_dataProtectionScore latestScanData;
                          lsd_licenseManagementScore :=
                            lsd_licenseManagementScore latestScanData;
                          lsd_securityPostureIssues :=
                            lsd_securityPostureIssues latestScanData;
                          lsd_identityAccessIssues :=
                            lsd_identityAccessIssues latestScanData;
                          lsd_deviceAppIssues := lsd_deviceAppIssues latestScanData;
                          lsd_dataProtectionIssues :=
                            lsd_dataProtectionIssues latestScanData;
                          lsd_licenseManagementIssues :=
                            lsd_licenseManagementIssues latestScanData;
                          lsd_usesRealData := JBool (sd_usesRealData scanData);
                          lsd_issues :=
                            List.map SecurityIssue_toJS (sd_issues scanData) |};
                localStorage := storage |},
             Some (sum_id (sd_summary scanData)))
        | Throw _ =>
            ({| accessToken := accessToken s; tenantId := tenantId s;
                isScanning := false; isFixing := isFixing s;
                currentScan := Some scanData;
                scanHistory := updatedHistory;
                latestScan := latestScan s;
                localStorage := storage |},
             None)
        end
  | _, _ => (s, None)
  end.

(* ------------------------------------------------------------------------- *)
(** ** Result page helpers (ScanResults.tsx) *)

(** [hasApiError(errorKeys)] for a scan with the given [apiErrors]. *)
Definition hasApiError (apiErrors : list string) (errorKeys : list string) : bool :=
  existsb (fun key =>
    existsb (fun error =>
      includes (toLowerCase error) (toLowerCase key)
      || includes (toLowerCase error)
                  ("graph.microsoft.com/beta/" +:+ toLowerCase key)
      || includes (toLowerCase error)
                  ("graph.microsoft.com/v1.0/" +:+ toLowerCase key))
      apiErrors) errorKeys.

(** The checks listed under "Security Posture", each with the endpoint keys
    whose failure turns its mark into a warning. *)
Definition securityPostureChecks : list (string * list string) :=
  [ ("Microsoft Secure Score",
       ["security/secureScores"; "security/secureScoreControlProfiles"]);
    ("Compliance Score",
       ["security/complianceScores"; "security/complianceProfiles"]);
    ("Defender Exposure Score",
       ["security/secureScores/defender"; "security/alerts"]) ].

(** The Security Posture checks that show the "unable to fetch" warning. *)
Definition securityPostureWarnings (apiErrors : list string) : list string :=
  List.map fst (List.filter (fun c => hasApiError apiErrors (snd c)) securityPostureChecks).

(* ------------------------------------------------------------------------- *)
(** ** Result page score (ScanResults.tsx, [calculateSecurityScore]) *)

(** [i.severity === sev && i.status !== "Fixed"] *)
Definition openWith (sev : string) (i : IssueView) : bool :=
  strictEqStr (iv_severity i) sev && negb (strictEqStr (iv_status i) "Fixed").

(** [calculateSecurityScore] for the scan the page shows ([None] for
    [null]): the score over the issues that are not fixed. *)
Definition calculateSecurityScore (scan : option ScanView) : Z :=
  match scan with
  | None => 100%Z
  | Some scan =>
      let highIssueCount :=
        Z.of_nat (length (List.filter (openWith "High") (sv_issues scan))) in
      let mediumIssueCount :=
        Z.of_nat (length (List.filter (openWith "Medium") (sv_issues scan))) in
      let lowIssueCount :=
        Z.of_nat (length (List.filter (openWith "Low") (sv_issues scan))) in
      let highImpact := (-15 * highIssueCount)%Z in
      let mediumImpact := (-7 * mediumIssueCount)%Z in
      let lowImpact := (-3 * lowIssueCount)%Z in
      if ((0 <? highIssueCount) || (0 <? mediumIssueCount) || (0 <? lowIssueCount))%Z
      then Z.max (Z.min (100 + highImpact + mediumImpact + lowImpact) 100) 0
      else 100%Z
  end.

(* ------------------------------------------------------------------------- *)
(** ** Real-data test (graphApi.ts, [hasRealGraphData]) *)

(** [v && v.value && v.value.length > 0] as a condition; [gt0] is the
    engine's comparison [x > 0] on an arbitrary value. *)
Definition hasValues (gt0 : jsval -> bool) (v : jsval) : result bool :=
  if truthy v then
    let* value := get v "value" in
    if truthy value then
      let* len := get value "length" in Ok (gt0 len)
    else Ok false
  else Ok false.

(** [hasRealGraphData(scanData)] *)
Definition hasRealGraphData (gt0 : jsval -> bool) (scanData : jsval) : result bool :=
  if truthy scanData then
    let* rawData := get scanData "rawData" in
    if truthy rawData then
      let* users := get rawData "users" in
      let* populatedUsers := hasValues gt0 users in
      if populatedUsers then Ok true
      else
        let* tenantInfo := get rawData "tenantInfo" in
        hasValues gt0 tenantInfo
    else Ok false
  else Ok false.

(* ------------------------------------------------------------------------- *)
(** ** Clearing and signing out (ScanContext.tsx, AuthContext.tsx) *)

(** [s.startsWith(prefix)] *)
Definition startsWith (s prefix : string) : bool := String.prefix prefix s.

(** [localStorage.removeItem(key)] *)
Definition removeItem (key : string) (st : gmap string jsval) : gmap string jsval :=
  delete key st.

(** [Object.keys(localStorage)] *)
Definition keysOf (st : gmap string jsval) : list string :=
  List.map fst (map_to_list st).

(** [clearScanHistory]: the next state and the notification shown, if any. *)
Definition clearScanHistory (s : AppState) : AppState * option Toast :=
  match tenantId s with
  | Some tenant =>
      if String.eqb tenant "" then (s, None)
      else
        let withoutHistory := removeItem ("scanHistory_" +:+ tenant) (localStorage s) in
        let scanKeys :=
          List.filter (fun key => startsWith key "scan_") (keysOf withoutHistory) in
        ({| accessToken := accessToken s; tenantId := tenantId s;
            isScanning := isScanning s; isFixing := isFixing s;
            currentScan := currentScan s;
            scanHistory := [];
            latestScan := None;
            localStorage :=
              fold_left (fun st key => removeItem key st) scanKeys withoutHistory |},
         Some (ToastSuccess "Scan history cleared successfully"))
  | None => (s, None)
  end.

(** [logout], as far as the scan provider sees it: the six sign-in entries
    are removed from the storage and the token and tenant become [null]. *)
Definition logout (s : AppState) : AppState :=
  {| accessToken := None; tenantId := None;
     isScanning := isScanning s; isFixing := isFixing s;
     currentScan := currentScan s; scanHistory := scanHistory s;
     latestScan := latestScan s;
     localStorage :=
       removeItem "codeVerifier"
         (removeItem "tenantId"
           (removeItem "expiresAt"
             (removeItem "idToken"
               (removeItem "refreshToken"
                 (removeItem "accessToken" (localStorage s)))))) |}.

(* ------------------------------------------------------------------------- *)
(** ** PKCE code verifier (AuthContext.tsx, [generateCodeVerifier]) *)

(** [s.charAt(i)] *)
Definition charAt (s : string) (i : nat) : string :=
  match String.get i s with
  | Some c => String c EmptyString
  | None => EmptyString
  end.

(** The characters a verifier is drawn from. *)
Definition verifierChars : string :=
  "ABCDEFGHIJKLMNOPQRSTUVWXYZabcdefghijklmnopqrstuvwxyz0123456789-._~".

(** [generateCodeVerifier]; [floored] is the value of
    [Math.floor(Math.random() * 43)] and [randValues i] the [i]-th byte that
    [crypto.getRandomValues] wrote. *)
Definition generateCodeVerifier (floored : nat) (randValues : nat -> nat) : string :=
  let length := (43 + floored)%nat in
  fold_left (fun result i =>
               result +:+ charAt verifierChars (randValues i mod String.length verifierChars))
            (List.seq 0 length) EmptyString.

(* ------------------------------------------------------------------------- *)
(** ** CSV export (ScanContext.tsx, [convertToCSV], [exportScanResults]) *)

(** The double quote, the comma and the line feed. *)
Definition quoteChar : ascii := "034"%char.
Definition commaChar : ascii := ","%char.
Definition newlineChar : ascii := "010"%char.

(** [String(v)]; an array is joined with commas, its [null] and [undefined]
    elements giving the empty string. *)
Fixpoint toText (v : jsval) : string :=
  match v with
  | JUndefined => "undefined"
  | JNull => "null"
  | JBool true => "true"
  | JBool false => "false"
  | JNum n => numberToString 10 n
  | JStr s => s
  | JArr l =>
      String.concat ","
        (List.map (fun x => match x with
                            | JUndefined | JNull => ""
                            | _ => toText x
                            end) l)
  | JObj _ => "[object Object]"
  end.

(** The text of an array element in [join]. *)
Definition joinElement (v : jsval) : string :=
  match v with
  | JUndefined | JNull => ""
  | _ => toText v
  end.

(** [s.replace] of every double quote by two double quotes. *)
Fixpoint escapeQuotes (s : string) : string :=
  match s with
  | EmptyString => EmptyString
  | String c s' =>
      if Ascii.eqb c quoteChar
      then String quoteChar (String quoteChar (escapeQuotes s'))
      else String c (escapeQuotes s')
  end.

(** The escaped text of [v?.replace(...)], or the empty string; only a
    string has [replace]. *)
Definition escapedOrEmpty (v : jsval) : result string :=
  match v with
  | JUndefined | JNull => Ok ""
  | JStr s => Ok (escapeQuotes s)
  | _ => Throw "TypeError: replace is not a function"
  end.

(** The escaped text of [v.replace(...)] when [v] is truthy, else the empty
    string. *)
Definition escapedIfTruthy (v : jsval) : result string :=
  if truthy v then
    match v with
    | JStr s => Ok (escapeQuotes s)
    | _ => Throw "TypeError: replace is not a function"
    end
  else Ok "".

(** The template that puts [s] between two double quotes. *)
Definition inQuotes (s : string) : string :=
  String quoteChar (s +:+ String quoteChar EmptyString).

(** The header line. *)
Definition csvHeader : list string :=
  [ "ID"; "Title"; "Severity"; "Category"; "Description"; "Impact";
    "Recommendation"; "Status"; "Data Source" ].

(** The line written for one issue. *)
Definition csvRow (issue : IssueView) : result string :=
  let* title := escapedOrEmpty (iv_title issue) in
  let* description := escapedOrEmpty (iv_description issue) in
  let* impact := escapedIfTruthy (iv_impact issue) in
  let* recommendation := escapedIfTruthy (iv_recommendation issue) in
  Ok (String.concat ","
        [ joinElement (iv_id issue);
          inQuotes title;
          joinElement (iv_severity issue);
          iv_category issue;
          inQuotes description;
          inQuotes impact;
          inQuotes recommendation;
          joinElement (iv_status issue);
          if truthy (iv_isRealData issue) then "Real-time scan" else "Simulated" ]).

(** [convertToCSV] *)
Definition convertToCSV (issues : list IssueView) : result string :=
  let* rows := mapM csvRow issues in
  Ok (String.concat (String newlineChar EmptyString)
                    (String.concat "," csvHeader :: rows)).

(** The export formats, [pdf] and [csv]. *)
Inductive ExportFormat : Type := Pdf | Csv.

(** What an export leads to: a file download followed by a notification, a
    notification alone ([NothingToExport] is [toast.info]), or the scan
    handed to the PDF renderer. *)
Inductive ExportOutcome : Type :=
| Downloaded (filename content : string) (toast : Toast)
| NotExported (toast : Toast)
| NothingToExport (message : string)
| HandedToPdf (scan : ScanView).

(** [exportScanResults]; a raise of [getScanById] is not caught here. *)
Definition exportScanResults (h : Host) (s : AppState) (scanId : string)
    (format : ExportFormat) : result ExportOutcome :=
  let* found := getScanById h s scanId in
  match found with
  | None => Ok (NotExported (ToastError "Scan data not found"))
  | Some scan =>
      match format with
      | Pdf => Ok (HandedToPdf scan)
      | Csv =>
          match convertToCSV (sv_issues scan) with
          | Ok csvContent =>
              Ok (Downloaded ("supervision-scan-" +:+ scanId +:+ ".csv") csvContent
                             (ToastSuccess "CSV file downloaded successfully"))
          | Throw _ => Ok (NotExported (ToastError "Failed to export as CSV"))
          end
      end
  end.

(** The [for ... of summaries] loop of [exportAllScanResults]: the issues of
    every scan that is found, in the order of the history. The members
    [scanId] and [scanDate] added to each copied issue are not read by
    [convertToCSV]. *)
Fixpoint collectAllIssues (h : Host) (s : AppState) (summaries : list ScanSummary)
    (allIssues : list IssueView) : result (list IssueView) :=
  match summaries with
  | [] => Ok allIssues
  | summary :: rest =>
      let* found := getScanById h s (sum_id summary) in
      collectAllIssues h s rest
        (match found with
         | Some scan => (allIssues ++ sv_issues scan)%list
         | None => allIssues
         end)
  end.

(** [exportAllScanResults]: every raise ends in the [catch] branch. *)
Definition exportAllScanResults (h : Host) (s : AppState) : ExportOutcome :=
  match scanHistory s with
  | [] => NothingToExport "No scan data to export"
  | summaries =>
      match (let* allIssues := collectAllIssues h s summaries [] in
             convertToCSV allIssues) with
      | Ok csvContent =>
          Downloaded "supervision-all-scans.csv" csvContent
                     (ToastSuccess "All scan results exported successfully")
      | Throw _ => NotExported (ToastError "Failed to export all scan results")
      end
  end.

(* ------------------------------------------------------------------------- *)
(** ** Vocabulary of the properties *)

(** [clamp(x, lo, hi)] as the specification writes it. *)
Definition clamp (x lo hi : Z) : Z := Z.max lo (Z.min x hi).

(** What distinguishes the issues of one detector. *)
Definition issueKind (i : SecurityIssue) : string * Severity * string :=
  (si_type i, si_severity i, ao_type (si_affectedObject i)).

(** The five names the classifier of failed endpoints can return. *)
Definition errorTypes : list string :=
  [ "Identity Protection"; "Mail Settings"; "Security Settings";
    "License Management"; "API Access" ].

(** The secure score endpoint, as the collector would spell it. *)
Definition secureScoresEndpoint : string :=
  "graph.microsoft.com/beta/security/secureScores".

(** Every endpoint of a group is classified under the name of the group. *)
Definition groupedByType (entry : string * list string) : Prop :=
  Forall (fun e => errorTypeOf e = fst entry) (snd entry).

(** [error] sits in the group of its own type. *)
Definition filedIn (acc : list (string * list string)) (error : string) : Prop :=
  exists endpoints, In (errorTypeOf error, endpoints) acc /\ In error endpoints.

(** A browser whose clock starts at 2024-10-27T03:33:20Z and advances by one
    millisecond per reading. *)
Definition sampleHost : Host :=
  {| clock := fun k => (1730000000000 + Z.of_nat k)%Z;
     toISOString := fun _ => "2024-10-27T03:33:20.000Z";
     toLocaleString := fun v => match v with
                                | JStr s => s
                                | _ => "Invalid Date"
                                end |}.

(** A network that answers every request the same way. *)
Definition answering (outcome : FetchOutcome) : World :=
  {| net := fun _ _ => outcome; sent := [] |}.

(** The behaviour of [callGraphApi] as the specification states it. *)
Definition callGraphApiContract : Prop :=
  forall (endpoint token method : string) (body : jsval) (w : World),
    let request := requestOptionsOf endpoint token method body in
    let r := fst (callGraphApi endpoint token method body w) in
    let w' := snd (callGraphApi endpoint token method body w) in
    (token = "" -> success r = false /\ statusCode r = Some 401%Z /\ sent w' = sent w)
    /\ (forall response,
          token <> "" ->
          net w (length (sent w)) request = Responded response ->
          ok response = false ->
          success r = false /\ statusCode r = Some (status response))
    /\ (forall msg,
          token <> "" ->
          net w (length (sent w)) request = NetworkError msg ->
          success r = false /\ statusCode r = Some 500%Z)
    /\ (forall response msg,
          token <> "" ->
          net w (length (sent w)) request = Responded response ->
          ok response = true ->
          status response <> 204%Z -> method <> "DELETE" ->
          json response = BodyInvalid msg ->
          success r = false /\ statusCode r = Some 500%Z).

(** The issue list [convertToLatestScanData] reads for a summary: the
    [issues] of the stored snapshot, or the empty list when nothing usable is
    stored under the scan's key. *)
Definition storedIssuesOf (st : gmap string jsval) (summary : ScanSummary)
  : result jsval :=
  let parsedData :=
    match st !! ("scan_" +:+ sum_id summary) with
    | Some v => v
    | None => JNull
    end in
  if truthy parsedData then get parsedData "issues" else Ok (JArr []).

(** The members of an object after [JSON.stringify] and [JSON.parse]. *)
Fixpoint storedFields (fs : list (string * jsval)) : list (string * jsval) :=
  match fs with
  | [] => []
  | (k, JUndefined) :: rest => storedFields rest
  | (k, x) :: rest => (k, jsonRoundTrip x) :: storedFields rest
  end.

(** No property name occurs twice. *)
Fixpoint distinctKeys (fs : list (string * jsval)) : bool :=
  match fs with
  | [] => true
  | (k, _) :: rest =>
      negb (existsb (fun kv => String.eqb k (fst kv)) rest) && distinctKeys rest
  end.

(** The stored form of an issue, and of the issue list of a scan. *)
Definition storedIssue (i : SecurityIssue) : jsval := jsonRoundTrip (SecurityIssue_toJS i).

(** What [getScanById] shows of an issue read back from storage. *)
Definition storedIssueView (issue : SecurityIssue) : IssueView :=
  {| iv_id := JStr (si_id issue);
     iv_title := JStr (si_type issue);
     iv_severity := JStr (Severity_toString (si_severity issue));
     iv_description := JStr (si_description issue);
     iv_impact := JStr (orDefault (si_impact issue) "Potential security risk");
     iv_recommendation := optJS JStr (si_remediation issue);
     iv_details := optJS jsonRoundTrip (si_details issue);
     iv_status := JStr (orDefault (si_status issue) "Open");
     iv_canAutoFix := canAutoFixTitle (JStr (si_type issue));
     iv_category := toLowerCase (ao_type (si_affectedObject issue));
     iv_affectedItems :=
       JStr (ao_name (si_affectedObject issue))
       :: List.map JStr (match si_affectedItems issue with Some l => l | None => [] end);
     iv_isRealData := optJS JBool (si_isRealData issue) |}.

(** The snapshot of a scan as stored by the pipeline. *)
Definition storedScan (d : ScanData) : jsval := jsonRoundTrip (ScanData_toJS d).

(** What [getScanById] returns for a snapshot read back from storage. *)
Definition storedScanView (h : Host) (d : ScanData) : ScanView :=
  let summary := sd_summary d in
  {| sv_id := JStr (sum_id summary);
     sv_date := toLocaleString h (JStr (sum_timestamp summary));
     sv_securityScore := JNum (sum_overallRiskScore summary);
     sv_highRiskIssues := JNum (cnt_High (sum_issueCountsBySeverity summary));
     sv_mediumRiskIssues := JNum (cnt_Medium (sum_issueCountsBySeverity summary));
     sv_lowRiskIssues := JNum (cnt_Low (sum_issueCountsBySeverity summary));
     sv_issuesFixed :=
       Z.of_nat (length (List.filter (fun i => isFixedStatus (si_status i)) (sd_issues d)));
     sv_usesRealData := JBool (sd_usesRealData d);
     sv_apiErrors := stringsJS (sd_apiErrors d);
     sv_issues := List.map storedIssueView (sd_issues d) |}.

(** The stored form of a summary. *)
Definition storedSummary (m : ScanSummary) : jsval := jsonRoundTrip (ScanSummary_toJS m).

(** [issues.filter(i => i.severity === sev).length] on a returned scan. *)
Definition viewSeverityCount (sev : Severity) (view : ScanView) : Z :=
  Z.of_nat (length (List.filter
                      (fun i => strictEqStr (iv_severity i) (Severity_toString sev))
                      (sv_issues view))).

(** The scan data [startScan] generates from the settled responses. *)
Definition pipelineScan (h : Host) (t : nat) (token tenant : string)
    (responses : list GraphApiResponse) : ScanData :=
  let graphResult := fetchMicrosoftGraphData responses in
  generateScan h t token tenant
    (if gr_success graphResult then tenantInfo graphResult ≫= displayName else None)
    (if gr_success graphResult then Some graphResult else None).

(** A successful response whose body is [{ value: l }]. *)
Definition collection (l : list GraphObject) : GraphApiResponse :=
  succeeded (Some {| value := Some l; body_error := None |}).

(** Twenty-nine settled responses: a tenant named Contoso, one risky user,
    two users of which one has no MFA, one rule forwarding to an outside
    address, and a refused call to the data loss prevention endpoint. *)
Definition sampleResponses : list GraphApiResponse :=
  [ collection [];
    collection [ {| userPrincipalName := None; isMfaEnabled := None;
                    forwardTo := None; mailbox := None;
                    displayName := Some "Contoso" |} ];
    collection [];
    collection [ {| userPrincipalName := Some "ann@contoso.com";
                    isMfaEnabled := Some true; forwardTo := None; mailbox := None;
                    displayName := None |};
                 {| userPrincipalName := Some "bob@contoso.com";
                    isMfaEnabled := Some false; forwardTo := None; mailbox := None;
                    displayName := None |} ];
    collection []; collection [];
    collection [ {| userPrincipalName := Some "bob@contoso.com";
                    isMfaEnabled := None; forwardTo := None; mailbox := None;
                    displayName := None |} ];
    collection [ {| userPrincipalName := None; isMfaEnabled := None;
                    forwardTo := Some "eve@example.org";
                    mailbox := Some "bob@contoso.com"; displayName := None |} ];
    collection []; collection []; collection []; collection []; collection [];
    collection []; collection []; collection []; collection []; collection [];
    collection []; collection []; collection []; collection [];
    failed "Forbidden" 403;
    collection []; collection []; collection []; collection []; collection [];
    collection [] ].

(** Twenty-nine settled responses without any finding. *)
Definition quietResponses : list GraphApiResponse := List.repeat (collection []) 29.

(** A signed-in provider with nothing stored yet. *)
Definition signedIn : AppState :=
  {| accessToken := Some "token"; tenantId := Some "tenant-1";
     isScanning := false; isFixing := None; currentScan := None;
     scanHistory := []; latestScan := None; localStorage := ∅ |}.

(** Twenty-nine settled responses, all successful with empty collections,
    except the one of [checkOrganizationSettings] (position 24), which
    failed. *)
Definition organizationSettingsFailed : list GraphApiResponse :=
  (List.repeat (collection []) 24
   ++ [failed "Cannot read properties of null (reading 'value')" 500]
   ++ List.repeat (collection []) 4)%list.

(** The response at [index] failed and some endpoint name of [endpointMap]
    stands for it in [apiErrors]. *)
Definition failureRecorded (apiErrors : list string) (index : nat) : Prop :=
  exists endpoint indices,
    In (endpoint, indices) endpointMap /\ In index indices
    /\ In ("graph.microsoft.com/beta/" +:+ endpoint) apiErrors.

(** A network that answers the mobile threat defense request with status 200
    and the JSON body [null], and every other request with an empty
    collection. *)
Definition nullBodyNetwork : World :=
  {| net := fun _ request =>
              if includes (req_url request) "mobileThreatDefenseConnectors"
              then Responded {| status := 200; json := BodyJson None |}
              else Responded {| status := 200;
                                json := BodyJson (Some {| value := Some [];
                                                          body_error := None |}) |};
     sent := [] |}.

(** The sum of the counts of a counting object. *)
Definition totalOf (acc : list (string * Z)) : Z :=
  fold_right Z.add 0%Z (List.map snd acc).

(** An issue as a grouping detector files it: the id is the detector's prefix
    followed by a clock reading, and the issue is open and marked as real
    data. *)
Definition filedBy (prefix : string) (sev : Severity) (category : string)
    (i : SecurityIssue) : Prop :=
  (exists now, si_id i = prefix +:+ numberToString 10 now)
  /\ si_severity i = sev
  /\ ao_type (si_affectedObject i) = category
  /\ si_status i = Some "Open"
  /\ si_isRealData i = Some true.

(** An issue filed for one group of failed endpoints. *)
Definition filedForGroup (entry : string * list string) (i : SecurityIssue) : Prop :=
  exists now, i = apiErrorIssue (fst entry) (snd entry) now.

(** The issue is one raised for failed endpoints. *)
Definition isFailureIssue (i : SecurityIssue) : bool :=
  String.eqb (ao_type (si_affectedObject i)) "Policy".

(** The first character of an issue id. *)
Definition idHead (i : SecurityIssue) : option ascii := String.get 0 (si_id i).

(** The response at [index] is there and failed. *)
Definition failedAt (responses : list GraphApiResponse) (index : nat) : bool :=
  match nth_error responses index with
  | Some r => negb (success r)
  | None => false
  end.

(** What the error check records for one entry of the endpoint map: the
    endpoint name, once for each of its positions that failed. *)
Definition recordedFor (responses : list GraphApiResponse) (entry : string * list nat)
  : list string :=
  List.map (fun _ => "graph.microsoft.com/beta/" +:+ fst entry)
           (List.filter (failedAt responses) (snd entry)).

(** The positions whose response is read as [r.data.value]. *)
Definition valuePositions : list nat :=
  [0; 1; 2; 3; 4; 5; 6; 7; 8; 9; 10; 11; 12; 13; 16; 19; 22; 23; 26; 27]%nat.

(** Twenty-nine settled responses, all refused. *)
Definition refusedResponses : list GraphApiResponse :=
  List.repeat (failed "Forbidden" 403) 29.

(** The numbers of issues charged to the categories, added up. *)
Definition chargedIssues (ms : list CategoryMapping) : Z :=
  fold_right Z.add 0%Z (List.map cm_issues ms).

(** Every category score lies between 0 and 100 and no count is negative. *)
Definition saneMappings (ms : list CategoryMapping) : Prop :=
  Forall (fun m => (0 <= cm_score m <= 100)%Z /\ (0 <= cm_issues m)%Z) ms.

(** The five scores and five issue counts of the dashboard cards. *)
Definition cardScores (l : LatestScanData) : list Z :=
  [ lsd_securityPostureScore l; lsd_identityAccessScore l; lsd_deviceAppScore l;
    lsd_dataProtectionScore l; lsd_licenseManagementScore l ].

Definition cardIssues (l : LatestScanData) : list Z :=
  [ lsd_securityPostureIssues l; lsd_identityAccessIssues l; lsd_deviceAppIssues l;
    lsd_dataProtectionIssues l; lsd_licenseManagementIssues l ].

(** [severity === "High" ? 15 : severity === "Medium" ? 7 : 3] on a typed
    severity. *)
Definition impactOf (sev : Severity) : Z :=
  match sev with High => 15%Z | Medium => 7%Z | Low => 3%Z end.

(** The category mappings with the given running scores and counts. *)
Definition withCharges (charges : list (Z * Z)) : list CategoryMapping :=
  List.map (fun mc => {| cm_key := cm_key (fst mc); cm_types := cm_types (fst mc);
                         cm_score := fst (snd mc); cm_issues := snd (snd mc) |})
           (List.combine categoryMappings charges).

(** The three sorts of issue the detectors file, by affected object and
    title. *)
Definition onPolicy (i : SecurityIssue) : Prop :=
  ao_type (si_affectedObject i) = "Policy".

Definition onUser (i : SecurityIssue) : Prop :=
  ao_type (si_affectedObject i) = "User"
  /\ In (si_type i) [ "Risky Users Detected"; "MFA Not Configured";
                      "Inactive Accounts"; "Guest User Access" ].

Definition onMailbox (i : SecurityIssue) : Prop :=
  ao_type (si_affectedObject i) = "Mailbox" /\ si_type i = "External Email Forwarding".

(** The strings the collector can put into apiErrors. *)
Definition endpointNames : list string :=
  List.map (fun entry => "graph.microsoft.com/beta/" +:+ fst entry) endpointMap.

(** An unreserved character: a letter, a digit, or one of "-", ".", "_",
    "~". *)
Definition isUnreserved (c : ascii) : bool :=
  let n := nat_of_ascii c in
  (((65 <=? n) && (n <=? 90)) || ((97 <=? n) && (n <=? 122))
   || ((48 <=? n) && (n <=? 57))
   || (n =? 45) || (n =? 46) || (n =? 95) || (n =? 126))%nat.

(** *** Reading a CSV text back (RFC 4180) *)

(** Where the reader is: at the start of a field, inside an unquoted field,
    inside a quoted field, or just after a quote met inside a quoted field. *)
Inductive ReaderMode : Type := FieldStart | Unquoted | Quoted | AfterQuote.

(** The records of a CSV text. [field] and [record] hold what was read of
    the current field and record. Inside quotes a comma or line feed is
    data and a doubled quote stands for one quote. *)
Fixpoint readCsvFrom (mode : ReaderMode) (field : string) (record : list string)
    (text : string) : list (list string) :=
  match text with
  | EmptyString => [(record ++ [field])%list]
  | String c rest =>
      let plain :=
        if Ascii.eqb c commaChar
        then readCsvFrom FieldStart EmptyString (record ++ [field])%list rest
        else if Ascii.eqb c newlineChar
        then (record ++ [field])%list :: readCsvFrom FieldStart EmptyString [] rest
        else readCsvFrom Unquoted (field +:+ String c EmptyString) record rest in
      match mode with
      | FieldStart =>
          if Ascii.eqb c quoteChar then readCsvFrom Quoted field record rest else plain
      | Unquoted => plain
      | Quoted =>
          if Ascii.eqb c quoteChar then readCsvFrom AfterQuote field record rest
          else readCsvFrom Quoted (field +:+ String c EmptyString) record rest
      | AfterQuote =>
          if Ascii.eqb c quoteChar
          then readCsvFrom Quoted (field +:+ String c EmptyString) record rest
          else plain
      end
  end.

(** The records of a CSV text. *)
Definition readCsv (text : string) : list (list string) :=
  readCsvFrom FieldStart EmptyString [] text.

(** A text that can stand unquoted in a CSV line: no comma, quote or line
    feed. *)
Fixpoint plainText (s : string) : bool :=
  match s with
  | EmptyString => true
  | String c s' =>
      negb (Ascii.eqb c commaChar) && negb (Ascii.eqb c quoteChar)
      && negb (Ascii.eqb c newlineChar) && plainText s'
  end.

(** The text of a free-text member: the string, or nothing. *)
Definition textOf (v : jsval) : string :=
  match v with
  | JStr s => s
  | _ => EmptyString
  end.

(** A free-text member that [convertToCSV] can write: a string or nothing
    at all. *)
Definition isText (v : jsval) : bool :=
  match v with
  | JStr _ | JUndefined | JNull => true
  | _ => false
  end.

(** The nine values of an issue that go into its line. *)
Definition csvValues (issue : IssueView) : list string :=
  [ joinElement (iv_id issue);
    textOf (iv_title issue);
    joinElement (iv_severity issue);
    iv_category issue;
    textOf (iv_description issue);
    textOf (iv_impact issue);
    textOf (iv_recommendation issue);
    joinElement (iv_status issue);
    if truthy (iv_isRealData issue) then "Real-time scan" else "Simulated" ].

(** An issue whose line can be written and read back: its id, severity,
    category and status can stand unquoted, and its free-text members are
    strings or missing. *)
Definition exportable (issue : IssueView) : Prop :=
  plainText (joinElement (iv_id issue)) = true
  /\ plainText (joinElement (iv_severity issue)) = true
  /\ plainText (iv_category issue) = true
  /\ plainText (joinElement (iv_status issue)) = true
  /\ isText (iv_title issue) = true
  /\ isText (iv_description issue) = true
  /\ isText (iv_impact issue) = true
  /\ isText (iv_recommendation issue) = true.

(** A value as it stands in a line: between quotes with its quotes doubled,
    or as it is. *)
Definition csvField (quoted : bool) (value : string) : string :=
  if quoted then inQuotes (escapeQuotes value) else value.

(** Reading on after a field has ended. *)
Definition afterField (field : string) (record : list string) (tail : string)
  : list (list string) :=
  match tail with
  | EmptyString => [(record ++ [field])%list]
  | String c rest =>
      if Ascii.eqb c commaChar
      then readCsvFrom FieldStart EmptyString (record ++ [field])%list rest
      else (record ++ [field])%list :: readCsvFrom FieldStart EmptyString [] rest
  end.

(** A tail that begins where a field may end: at the end of the text, at a
    comma or at a line feed. *)
Definition endsField (tail : string) : Prop :=
  match tail with
  | EmptyString => True
  | String c _ => c = commaChar \/ c = newlineChar
  end.

(** The values of a line and whether each is written between quotes. *)
Definition csvLine (fields : list (bool * string)) : string :=
  String.concat "," (List.map (fun f => csvField (fst f) (snd f)) fields).

(** How the nine values of an issue are written. *)
Definition csvFieldsOf (issue : IssueView) : list (bool * string) :=
  List.combine [false; true; false; false; true; true; true; false; false]
               (csvValues issue).

(** The issues of the scans of the history that [getScanById] finds, in the
    order of the history; [None] when one of the reads raises. *)
Fixpoint issuesOfHistory (h : Host) (s : AppState) (summaries : list ScanSummary)
  : option (list IssueView) :=
  match summaries with
  | [] => Some []
  | summary :: rest =>
      match getScanById h s (sum_id summary), issuesOfHistory h s rest with
      | Ok (Some scan), Some later => Some (sv_issues scan ++ later)%list
      | Ok None, Some later => Some later
      | _, _ => None
      end
  end.

(** What an issue reports: its kind and the items it lists. *)
Definition reportOf (i : SecurityIssue)
  : (string * Severity * string) * option (list string) :=
  (issueKind i, si_affectedItems i).

(** The issue has this title. *)
Definition hasType (ty : string) (i : SecurityIssue) : bool :=
  String.eqb (si_type i) ty.

(** The names listed for a dataset, with the default for a record without
    a principal name. *)
Definition namesOf (dflt : string) (d : option (list GraphObject)) : list string :=
  List.map (fun user => orDefault (userPrincipalName user) dflt) (elements d).

(** The report has this title. *)
Definition reportHasType (ty : string)
    (r : (string * Severity * string) * option (list string)) : bool :=
  String.eqb (fst (fst (fst r))) ty.

(** The reports of the issues with this title, in a scan. *)
Definition reportsTitled (ty : string) (scan : ScanData)
  : list ((string * Severity * string) * option (list string)) :=
  List.map reportOf (List.filter (hasType ty) (sd_issues scan)).

(** The titles of the five grouping detectors. *)
Definition detectorTitles : list string :=
  [ "Risky Users Detected"; "MFA Not Configured"; "Inactive Accounts";
    "External Email Forwarding"; "Guest User Access" ].

(** The scan shown on the page with another issue list. *)
Definition withIssues (scan : ScanView) (issues : list IssueView) : ScanView :=
  {| sv_id := sv_id scan; sv_date := sv_date scan;
     sv_securityScore := sv_securityScore scan;
     sv_highRiskIssues := sv_highRiskIssues scan;
     sv_mediumRiskIssues := sv_mediumRiskIssues scan;
     sv_lowRiskIssues := sv_lowRiskIssues scan;
     sv_issuesFixed := sv_issuesFixed scan;
     sv_usesRealData := sv_usesRealData scan;
     sv_apiErrors := sv_apiErrors scan;
     sv_issues := issues |}.

(** The number of issues of a list that have the severity [sev]. *)
Fixpoint issuesWithSeverity (sev : Severity) (l : list SecurityIssue) : Z :=
  match l with
  | [] => 0%Z
  | i :: rest =>
      match si_severity i, sev with
      | High, High | Medium, Medium | Low, Low => (1 + issuesWithSeverity sev rest)%Z
      | _, _ => issuesWithSeverity sev rest
      end
  end.

(** The name a record is listed by: its principal name, or [dflt] for a
    record that has none or an empty one. *)
Definition listedName (dflt : string) (record : GraphObject) : string :=
  match userPrincipalName record with
  | Some (String c rest) => String c rest
  | _ => dflt
  end.

(** The record does not have isMfaEnabled set to true. *)
Definition mfaNotEnabled (record : GraphObject) : bool :=
  negb (bool_decide (isMfaEnabled record = Some true)).

(** What follows the last "@" of an address; [found] when there is none. *)
Fixpoint afterLastAt (address found : string) : string :=
  match address with
  | EmptyString => found
  | String c rest =>
      if Ascii.eqb c "@" then afterLastAt rest rest else afterLastAt rest found
  end.

(** The domain of an address, in lower case. *)
Definition domainOf (address : string) : string :=
  toLowerCase (afterLastAt address EmptyString).

(** The rule forwards to an address outside the domain. *)
Definition targetsOutside (tenantDomain : string) (rule : GraphObject) : Prop :=
  exists target,
    forwardTo rule = Some target /\ target <> ""
    /\ domainOf target <> toLowerCase tenantDomain.

(** A forwarding rule of a mailbox. *)
Definition forwardingRule (from to : string) : GraphObject :=
  {| userPrincipalName := None; isMfaEnabled := None; forwardTo := Some to;
     mailbox := Some from; displayName := None |}.

(** Twenty-nine settled responses with nothing collected but the answer of
    the tenant call and the forwarding rules. *)
Definition responsesWith (tenantResponse : GraphApiResponse) (rules : list GraphObject)
  : list GraphApiResponse :=
  ([collection []; tenantResponse] ++ List.repeat (collection []) 5
   ++ [collection rules] ++ List.repeat (collection []) 21)%list.

(** An organization with this display name. *)
Definition organizationNamed (name : string) : GraphApiResponse :=
  collection [ {| userPrincipalName := None; isMfaEnabled := None;
                  forwardTo := None; mailbox := None; displayName := Some name |} ].

(** The tenant Contoso, whose addresses are at contoso.com, with one rule
    that forwards the mail of bob@contoso.com to ann@contoso.com. *)
Definition forwardWithinTenant : list GraphApiResponse :=
  responsesWith (organizationNamed "Contoso")
                [forwardingRule "bob@contoso.com" "ann@contoso.com"].

(** A tenant whose organization call was refused, with rules that forward
    to example.org and to example.net. *)
Definition forwardWithoutTenantName : list GraphApiResponse :=
  responsesWith (failed "Forbidden" 403)
                [ forwardingRule "bob@contoso.com" "eve@example.org";
                  forwardingRule "ann@contoso.com" "mal@example.net" ].

(** A tenant whose display name is its domain, with a rule that forwards to
    a look-alike domain. *)
Definition forwardToLookAlike : list GraphApiResponse :=
  responsesWith (organizationNamed "contoso.com")
                [forwardingRule "bob@contoso.com" "eve@evilcontoso.com"].

(** What a reader finds in a record of a stored history: its id, timestamp,
    tenant id and overall risk score. *)
Definition readSummary (record : jsval) : result (jsval * jsval * jsval * jsval) :=
  let* id := get record "id" in
  let* timestamp := get record "timestamp" in
  let* tenant := get record "tenantId" in
  let* score := get record "overallRiskScore" in
  Ok (id, timestamp, tenant, score).

(** The same four members of a summary. *)
Definition summaryRead (m : ScanSummary) : jsval * jsval * jsval * jsval :=
  (JStr (sum_id m), JStr (sum_timestamp m), JStr (sum_tenantId m),
   JNum (sum_overallRiskScore m)).

(** The provider after [n] scans of the sample tenant, the scan number [k]
    (from 0) starting at clock reading [10 * k]. *)
Fixpoint afterScans (n : nat) (s : AppState) : AppState :=
  match n with
  | O => s
  | S n' => fst (startScan sampleHost (10 * n') (afterScans n' s) sampleResponses)
  end.

(** A signed-in provider of "tenant-1" whose storage already holds the
    sign-in token, the history of another tenant and an older snapshot. *)
Definition signedInWithData : AppState :=
  {| accessToken := Some "token"; tenantId := Some "tenant-1";
     isScanning := false; isFixing := None; currentScan := None;
     scanHistory := []; latestScan := None;
     localStorage :=
       {[ "accessToken" := JStr "token";
          "scanHistory_tenant-2" := JArr [JObj [("id", JStr "scan_m2q0aaaa")]];
          "scan_scan_m2q0aaaa" := JObj [("issues", JArr [])] ]} |}.

(** A member on which [replace] is only called when it is truthy: a string,
    or a falsy value. *)
Definition textOrFalsy (v : jsval) : bool :=
  match v with
  | JStr _ => true
  | _ => negb (truthy v)
  end.

(** An issue whose line [convertToCSV] can write: title and description are
    strings or missing, impact and recommendation strings or falsy. *)
Definition writable (issue : IssueView) : bool :=
  isText (iv_title issue) && isText (iv_description issue)
  && textOrFalsy (iv_impact issue) && textOrFalsy (iv_recommendation issue).

(** The scan stored under [scanId] holds an issue with the id [issueId]
    whose status is "Fixed". *)
Definition persistedAsFixed (st : gmap string jsval) (scanId issueId : string) : Prop :=
  exists snapshot issues issue,
    st !! ("scan_" +:+ scanId) = Some snapshot
    /\ get snapshot "issues" = Ok (JArr issues)
    /\ In issue issues
    /\ get issue "id" = Ok (JStr issueId)
    /\ get issue "status" = Ok (JStr "Fixed").

(** The issuesFixed count reported for a scan: the member of the object
    [getScanById] returns, when it returns one. *)
Definition reportedIssuesFixed (h : Host) (s : AppState) (scanId : string)
  : result (option Z) :=
  let* found := getScanById h s scanId in Ok (option_map sv_issuesFixed found).

(** The states the scan provider can be in. It starts without a scan in
    memory and without a snapshot in the storage; its operations are the
    scan, the fix, clearing the history and signing out. Between them the
    surroundings may change everything but the snapshots: a sign-in or a
    token refresh changes the sign-in data and their entries in the storage,
    the loading effects set the history and the dashboard data, and a page
    load starts the memory anew, without a current scan. *)
Inductive reachable : AppState -> Prop :=
| reach_fresh (token tenant : option string) (st : gmap string jsval) :
    (forall key, startsWith key "scan_" = true -> st !! key = None) ->
    reachable {| accessToken := token; tenantId := tenant;
                 isScanning := false; isFixing := None; currentScan := None;
                 scanHistory := []; latestScan := None; localStorage := st |}
| reach_startScan (h : Host) (t : nat) (s : AppState)
    (responses : list GraphApiResponse) :
    reachable s -> reachable (fst (startScan h t s responses))
| reach_fixIssue (h : Host) (s : AppState) (scanId issueId : string) :
    reachable s -> reachable (fst (fixIssue h s scanId issueId))
| reach_clearScanHistory (s : AppState) :
    reachable s -> reachable (fst (clearScanHistory s))
| reach_logout (s : AppState) :
    reachable s -> reachable (logout s)
| reach_surroundings (s : AppState) (token tenant : option string)
    (scanning : bool) (fixing : option string) (current : option ScanData)
    (history : list ScanSummary) (latest : option LatestScanData)
    (st : gmap string jsval) :
    reachable s ->
    (forall key, startsWith key "scan_" = true -> st !! key = localStorage s !! key) ->
    current = currentScan s \/ current = None ->
    reachable {| accessToken := token; tenantId := tenant;
                 isScanning := scanning; isFixing := fixing; currentScan := current;
                 scanHistory := history; latestScan := latest; localStorage := st |}.

(** A snapshot as one of the two writers leaves it: the scan data of a scan
    whose issues are all open, or the object written by [fixIssue]. *)
Definition appWritten (v : jsval) : Prop :=
  (exists d, v = storedScan d
             /\ Forall (fun i => si_status i = Some "Open") (sd_issues d))
  \/ (exists scan updatedIssues, v = jsonRoundTrip (fixedSnapshot scan updatedIssues)).

(** Every snapshot of the storage is as a writer left it. *)
Definition snapshotsWritten (st : gmap string jsval) : Prop :=
  forall key v, startsWith key "scan_" = true -> st !! key = Some v -> appWritten v.

(* ========================================================================= *)
(** * Properties *)

(** ** Risk scoring *)

Lemma countSeverity_nonneg sev l : (0 <= countSeverity sev l)%Z.
Proof. unfold countSeverity. lia. Qed.

Lemma countSeverity_app sev l1 l2 :
  countSeverity sev (l1 ++ l2)%list
  = (countSeverity sev l1 + countSeverity sev l2)%Z.
Proof.
  unfold countSeverity.
  rewrite List.filter_app, List.length_app. lia.
Qed.

Lemma countSeverity_cons sev i l :
  countSeverity sev (i :: l)
  = ((if Severity_eqb (si_severity i) sev then 1 else 0) + countSeverity sev l)%Z.
Proof.
  unfold countSeverity. simpl.
  destruct (Severity_eqb (si_severity i) sev); simpl length; lia.
Qed.

(** The guarded form of the source equals the plain clamp once the counts
    are known to be non-negative. *)
Lemma riskScore_clamp c :
  (0 <= cnt_High c)%Z -> (0 <= cnt_Medium c)%Z -> (0 <= cnt_Low c)%Z ->
  riskScore c
  = clamp (100 - 15 * cnt_High c - 7 * cnt_Medium c - 3 * cnt_Low c) 0 100.
Proof.
  intros Hh Hm Hl. unfold riskScore, clamp.
  destruct ((0 <? cnt_High c) || (0 <? cnt_Medium c) || (0 <? cnt_Low c))%Z eqn:E.
  - lia.
  - apply orb_false_elim in E as [E E3]. apply orb_false_elim in E as [E1 E2].
    apply Z.ltb_ge in E1, E2, E3. lia.
Qed.

Lemma countSeverity_tally sev l : countSeverity sev l = issuesWithSeverity sev l.
Proof.
  induction l as [|i l IH]; [reflexivity|].
  rewrite countSeverity_cons, IH. cbn [issuesWithSeverity].
  destruct (si_severity i), sev; cbn [Severity_eqb]; lia.
Qed.

(** C1. For every generated scan the summary's overallRiskScore is
    clamp(100 - 15*high - 7*medium - 3*low, 0, 100), the three counts being
    the numbers of High, Medium and Low issues of that scan's issue list. *)
Theorem generateScan_overallRiskScore_formula :
  forall (h : Host) (t : nat) (token tenant : string)
         (tenantName : option string) (realData : option GraphResult),
    let scan := generateScan h t token tenant tenantName realData in
    sum_overallRiskScore (sd_summary scan)
    = clamp (100 - 15 * issuesWithSeverity High (sd_issues scan)
                 - 7 * issuesWithSeverity Medium (sd_issues scan)
                 - 3 * issuesWithSeverity Low (sd_issues scan)) 0 100.
Proof.
  intros h t token tenant tenantName realData scan.
  rewrite <- !countSeverity_tally.
  subst scan. unfold generateScan. cbn [sd_summary sd_issues sum_overallRiskScore].
  rewrite riskScore_clamp; unfold severityCountOf; cbn [cnt_High cnt_Medium cnt_Low];
    auto using countSeverity_nonneg.
Qed.

(** C2. The score of any issue list lies in [0,100], and inserting one more
    issue of any severity, anywhere in the list, never raises it. *)
Theorem riskScore_bounded_and_monotone :
  forall (before after : list SecurityIssue) (extra : SecurityIssue),
    (0 <= riskScore (severityCountOf (before ++ after)) <= 100)%Z
    /\ (riskScore (severityCountOf (before ++ extra :: after))
        <= riskScore (severityCountOf (before ++ after)))%Z.
Proof.
  intros before after extra.
  pose proof (countSeverity_nonneg High (before ++ after)) as Hh.
  pose proof (countSeverity_nonneg Medium (before ++ after)) as Hm.
  pose proof (countSeverity_nonneg Low (before ++ after)) as Hl.
  pose proof (countSeverity_nonneg High (before ++ extra :: after)) as Hh'.
  pose proof (countSeverity_nonneg Medium (before ++ extra :: after)) as Hm'.
  pose proof (countSeverity_nonneg Low (before ++ extra :: after)) as Hl'.
  rewrite !riskScore_clamp by (unfold severityCountOf; cbn; assumption).
  unfold severityCountOf, clamp. cbn [cnt_High cnt_Medium cnt_Low].
  rewrite !countSeverity_app, !countSeverity_cons in *.
  destruct (si_severity extra); cbn [Severity_eqb]; lia.
Qed.

(** ** The issue list built by the detectors *)

Lemma errorTypeOf_known error : In (errorTypeOf error) errorTypes.
Proof.
  unfold errorTypeOf, errorTypes.
  repeat match goal with |- context [if ?b then _ else _] => destruct b end;
    simpl; auto 10.
Qed.

Lemma filter_nothing {A} (p : A -> bool) (l : list A) :
  Forall (fun x => p x = false) l -> List.filter p l = [].
Proof.
  induction 1 as [|x l Hx _ IH]; simpl; [reflexivity|]. now rewrite Hx.
Qed.

Lemma push_issues h mk s :
  issues (push h mk s) = (issues s ++ [mk (clock h (tick s))])%list.
Proof. reflexivity. Qed.

Lemma detectRiskyUsers_issues h rd s :
  exists added,
    issues (detectRiskyUsers h rd s) = (issues s ++ added)%list
    /\ Forall (fun i => issueKind i = ("Risky Users Detected", High, "User")) added.
Proof.
  unfold detectRiskyUsers. destruct (lengthGt0 (riskyUsers rd)).
  - eexists. split; [apply push_issues|]. repeat constructor.
  - exists []. split; [now rewrite app_nil_r | constructor].
Qed.

Lemma detectUsersWithoutMFA_issues h rd s :
  exists added,
    issues (detectUsersWithoutMFA h rd s) = (issues s ++ added)%list
    /\ Forall (fun i => issueKind i = ("MFA Not Configured", High, "User")) added.
Proof.
  unfold detectUsersWithoutMFA.
  destruct (lengthGt0 (mfaStatus rd));
    [destruct (0 <? length _)%nat|];
    try (exists []; split; [now rewrite app_nil_r | constructor]).
  eexists. split; [apply push_issues|]. repeat constructor.
Qed.

Lemma detectInactiveUsers_issues h rd s :
  exists added,
    issues (detectInactiveUsers h rd s) = (issues s ++ added)%list
    /\ Forall (fun i => issueKind i = ("Inactive Accounts", Medium, "User")) added.
Proof.
  unfold detectInactiveUsers. destruct (lengthGt0 (inactiveUsers rd)).
  - eexists. split; [apply push_issues|]. repeat constructor.
  - exists []. split; [now rewrite app_nil_r | constructor].
Qed.

Lemma detectGuestUsers_issues h rd s :
  exists added,
    issues (detectGuestUsers h rd s) = (issues s ++ added)%list
    /\ Forall (fun i => issueKind i = ("Guest User Access", Low, "User")) added.
Proof.
  unfold detectGuestUsers. destruct (lengthGt0 (guestUsers rd)).
  - eexists. split; [apply push_issues|]. repeat constructor.
  - exists []. split; [now rewrite app_nil_r | constructor].
Qed.

(** The forwarding detector adds one Medium issue listing the mailboxes of
    the external rules, or nothing. *)
Lemma detectEmailForwarding_issues h tenantName rd s :
  let external :=
    List.filter (isExternalForwarding tenantName) (elements (emailForwarding rd)) in
  exists added,
    issues (detectEmailForwarding h tenantName rd s) = (issues s ++ added)%list
    /\ Forall (fun i => issueKind i = ("External Email Forwarding", Medium, "Mailbox"))
              added
    /\ List.map si_affectedItems added
       = if (0 <? length external)%nat
         then [Some (List.map (fun rule => orDefault (mailbox rule) "Unknown Mailbox")
                              external)]
         else [].
Proof.
  intros external. subst external. unfold detectEmailForwarding.
  destruct (emailForwarding rd) as [[|r rules]|]; cbn [lengthGt0 elements].
  - exists []. cbn. now rewrite app_nil_r.
  - destruct (0 <? length _)%nat.
    + eexists. split; [apply push_issues|]. split; [repeat constructor|reflexivity].
    + exists []. cbn. now rewrite app_nil_r.
  - exists []. cbn. now rewrite app_nil_r.
Qed.

(** Issues pushed for the groups of failed endpoints, one clock reading each. *)
Lemma fold_push_issues h (entries : list (string * list string)) s :
  exists added,
    issues (fold_left (fun st entry => push h (apiErrorIssue (fst entry) (snd entry)) st)
                      entries s)
    = (issues s ++ added)%list
    /\ List.map (fun i => (issueKind i, si_affectedItems i)) added
       = List.map (fun entry =>
                     ((fst entry +:+ " Access Required", Medium, "Policy"),
                      Some (snd entry))) entries.
Proof.
  revert s. induction entries as [|e entries IH]; intros s; cbn [fold_left].
  - exists []. split; [now rewrite app_nil_r | reflexivity].
  - destruct (IH (push h (apiErrorIssue (fst e) (snd e)) s)) as (added & Hi & Hk).
    exists (apiErrorIssue (fst e) (snd e) (clock h (tick s)) :: added). split.
    + rewrite Hi, push_issues, <- app_assoc. reflexivity.
    + cbn [List.map]. now rewrite Hk.
Qed.

Lemma detectApiErrors_issues h rd s :
  exists added,
    issues (detectApiErrors h rd s) = (issues s ++ added)%list
    /\ List.map (fun i => (issueKind i, si_affectedItems i)) added
       = List.map (fun entry =>
                     ((fst entry +:+ " Access Required", Medium, "Policy"),
                      Some (snd entry)))
                  (errorsByType (gr_apiErrors rd)).
Proof.
  unfold detectApiErrors.
  destruct (gr_apiErrors rd) as [|e errs] eqn:E; cbn [length Nat.ltb Nat.leb].
  - exists []. split; [now rewrite app_nil_r | reflexivity].
  - apply fold_push_issues.
Qed.

(** The issue list of a run over collected data, detector by detector. *)
Lemma detectAll_issues h tenantName rd s0 :
  let external :=
    List.filter (isExternalForwarding tenantName) (elements (emailForwarding rd)) in
  exists risky mfa inactive forwarding failures guests,
    issues (detectAll h tenantName (Some rd) s0)
    = (issues s0 ++ risky ++ mfa ++ inactive ++ forwarding ++ failures ++ guests)%list
    /\ Forall (fun i => issueKind i = ("Risky Users Detected", High, "User")) risky
    /\ Forall (fun i => issueKind i = ("MFA Not Configured", High, "User")) mfa
    /\ Forall (fun i => issueKind i = ("Inactive Accounts", Medium, "User")) inactive
    /\ (Forall (fun i => issueKind i = ("External Email Forwarding", Medium, "Mailbox"))
               forwarding
        /\ List.map si_affectedItems forwarding
           = if (0 <? length external)%nat
             then [Some (List.map (fun rule => orDefault (mailbox rule) "Unknown Mailbox")
                                  external)]
             else [])
    /\ List.map (fun i => (issueKind i, si_affectedItems i)) failures
       = List.map (fun entry =>
                     ((fst entry +:+ " Access Required", Medium, "Policy"),
                      Some (snd entry)))
                  (errorsByType (gr_apiErrors rd))
    /\ Forall (fun i => issueKind i = ("Guest User Access", Low, "User")) guests.
Proof.
  intros external. cbn [detectAll].
  set (s1 := detectRiskyUsers h rd s0).
  set (s2 := detectUsersWithoutMFA h rd s1).
  set (s3 := detectInactiveUsers h rd s2).
  set (s4 := detectEmailForwarding h tenantName rd s3).
  set (s5 := detectApiErrors h rd s4).
  destruct (detectRiskyUsers_issues h rd s0) as (risky & E1 & K1).
  destruct (detectUsersWithoutMFA_issues h rd s1) as (mfa & E2 & K2).
  destruct (detectInactiveUsers_issues h rd s2) as (inactive & E3 & K3).
  destruct (detectEmailForwarding_issues h tenantName rd s3)
    as (forwarding & E4 & K4 & M4).
  destruct (detectApiErrors_issues h rd s4) as (failures & E5 & K5).
  destruct (detectGuestUsers_issues h rd s5) as (guests & E6 & K6).
  exists risky, mfa, inactive, forwarding, failures, guests.
  fold s1 s2 s3 s4 s5 in E1, E2, E3, E4, E5, E6.
  rewrite E6, E5, E4, E3, E2, E1, <- !app_assoc.
  repeat split; assumption.
Qed.

Lemma string_length_app a b :
  String.length (a +:+ b) = (String.length a + String.length b)%nat.
Proof. induction a as [|c a IH]; simpl; [reflexivity | now f_equal]. Qed.

Lemma map_kind_in {A} (g : A -> (string * Severity * string) * option (list string))
    (failures : list SecurityIssue) (entries : list A) :
  List.map (fun i => (issueKind i, si_affectedItems i)) failures = List.map g entries ->
  Forall (fun i => exists entry, In entry entries
                                 /\ (issueKind i, si_affectedItems i) = g entry) failures.
Proof.
  revert entries. induction failures as [|i l IH]; intros entries H; [constructor|].
  destruct entries as [|e entries]; [discriminate|].
  cbn in H. injection H as Hi Hl. constructor.
  - exists e. split; [now left | exact Hi].
  - eapply List.Forall_impl; [|apply (IH entries Hl)].
    cbn. intros x (entry & Hin & Hx). exists entry. split; [now right | exact Hx].
Qed.

Lemma accPush_keys errorType error acc :
  Forall (fun entry => In (fst entry) errorTypes) acc ->
  In errorType errorTypes ->
  Forall (fun entry => In (fst entry) errorTypes) (accPush errorType error acc).
Proof.
  intros Hacc Hk. induction Hacc as [|[k eps] acc Hx Hacc IH]; cbn [accPush].
  - constructor; [exact Hk | constructor].
  - destruct (String.eqb errorType k); constructor; auto.
Qed.

Lemma errorsByType_keys apiErrors :
  Forall (fun entry => In (fst entry) errorTypes) (errorsByType apiErrors).
Proof.
  unfold errorsByType.
  assert (forall acc, Forall (fun entry => In (fst entry) errorTypes) acc ->
            Forall (fun entry => In (fst entry) errorTypes)
              (fold_left (fun acc error => accPush (errorTypeOf error) error acc)
                         apiErrors acc)) as H.
  { induction apiErrors as [|e errs IH]; intros acc Hacc; cbn; [exact Hacc|].
    apply IH. apply accPush_keys; [exact Hacc | apply errorTypeOf_known]. }
  apply H. constructor.
Qed.

(** ** External forwarding *)

(** C6, at the failing input. The tenant Contoso has its addresses at
    contoso.com and one rule, forwarding the mail of bob@contoso.com to
    ann@contoso.com: no rule targets an address outside the domain, and the
    scan holds an "External Email Forwarding" issue listing bob@contoso.com.
    When the organization call was refused, rules forwarding to example.org
    and example.net give no issue, although one of them targets an address
    outside the tenant's domain whatever that domain is. When the display
    name is the domain itself, a rule forwarding to evilcontoso.com gives no
    issue either. *)
Theorem forwarding_detector_ignores_domain :
  let scanOf := pipelineScan sampleHost 0 "token" "tenant-1" in
  let rulesOf responses :=
    default [] (emailForwarding (fetchMicrosoftGraphData responses)) in
  (length forwardWithinTenant = 29%nat
   /\ rulesOf forwardWithinTenant = [forwardingRule "bob@contoso.com" "ann@contoso.com"]
   /\ Forall (fun rule => ~ targetsOutside "contoso.com" rule) (rulesOf forwardWithinTenant)
   /\ reportsTitled "External Email Forwarding" (scanOf forwardWithinTenant)
      = [ (("External Email Forwarding", Medium, "Mailbox"),
           Some ["bob@contoso.com"]) ])
  /\ (length forwardWithoutTenantName = 29%nat
      /\ (forall tenantDomain,
            exists rule, In rule (rulesOf forwardWithoutTenantName)
                         /\ targetsOutside tenantDomain rule)
      /\ reportsTitled "External Email Forwarding" (scanOf forwardWithoutTenantName) = [])
  /\ (length forwardToLookAlike = 29%nat
      /\ Forall (targetsOutside "contoso.com") (rulesOf forwardToLookAlike)
      /\ reportsTitled "External Email Forwarding" (scanOf forwardToLookAlike) = []).
Proof.
  intros scanOf rulesOf. split; [|split].
  - split; [reflexivity|]. split; [reflexivity|]. split; [|vm_compute; reflexivity].
    change (rulesOf forwardWithinTenant)
      with [forwardingRule "bob@contoso.com" "ann@contoso.com"].
    constructor; [|constructor].
    intros (target & [= <-] & _ & Hout). apply Hout. reflexivity.
  - split; [reflexivity|]. split; [|vm_compute; reflexivity].
    intros tenantDomain.
    change (rulesOf forwardWithoutTenantName)
      with [ forwardingRule "bob@contoso.com" "eve@example.org";
             forwardingRule "ann@contoso.com" "mal@example.net" ].
    destruct (String.eqb_spec (toLowerCase tenantDomain) "example.org") as [E|Hne].
    + exists (forwardingRule "ann@contoso.com" "mal@example.net").
      split; [right; now left|]. eexists. split; [reflexivity|].
      split; [discriminate|]. rewrite E. vm_compute. discriminate.
    + exists (forwardingRule "bob@contoso.com" "eve@example.org").
      split; [now left|]. eexists. split; [reflexivity|].
      split; [discriminate|]. intros E. apply Hne. rewrite <- E. reflexivity.
  - split; [reflexivity|]. split; [|vm_compute; reflexivity].
    change (rulesOf forwardToLookAlike)
      with [forwardingRule "bob@contoso.com" "eve@evilcontoso.com"].
    constructor; [|constructor]. eexists. split; [reflexivity|].
    split; [discriminate|]. vm_compute. discriminate.
Qed.

(** ** Failed endpoints *)

Lemma accPush_In_keys errorType error acc k :
  In k (List.map fst (accPush errorType error acc))
  <-> k = errorType \/ In k (List.map fst acc).
Proof.
  induction acc as [|[k' eps] acc IH]; cbn [accPush List.map fst In].
  - intuition.
  - destruct (String.eqb_spec errorType k') as [->|Hne]; cbn [List.map fst In].
    + intuition.
    + rewrite IH. intuition.
Qed.

Lemma accPush_NoDup errorType error acc :
  List.NoDup (List.map fst acc) -> List.NoDup (List.map fst (accPush errorType error acc)).
Proof.
  induction acc as [|[k' eps] acc IH]; cbn [accPush List.map fst]; intros Hnd.
  - constructor; [intros [] | constructor].
  - inversion Hnd as [|? ? Hnotin Hnd']; subst.
    destruct (String.eqb_spec errorType k') as [->|Hne]; cbn [List.map fst].
    + constructor; assumption.
    + constructor; [|auto].
      rewrite accPush_In_keys. intros [->|Hin]; [now apply Hne | now apply Hnotin].
Qed.

Lemma accPush_grouped error acc :
  Forall groupedByType acc -> Forall groupedByType (accPush (errorTypeOf error) error acc).
Proof.
  induction 1 as [|[k' eps] acc Hx Hacc IH]; cbn [accPush].
  - repeat constructor.
  - destruct (String.eqb_spec (errorTypeOf error) k') as [E|Hne].
    + constructor; [|exact Hacc]. unfold groupedByType in *. cbn [fst snd] in *.
      apply List.Forall_app. split; [exact Hx | repeat constructor; exact E].
    + constructor; assumption.
Qed.

Lemma accPush_files error acc : filedIn (accPush (errorTypeOf error) error acc) error.
Proof.
  unfold filedIn. induction acc as [|[k' eps] acc IH]; cbn [accPush].
  - exists [error]. split; now left.
  - destruct (String.eqb_spec (errorTypeOf error) k') as [->|Hne].
    + exists (eps ++ [error])%list. split; [now left|].
      apply List.in_or_app. right. now left.
    + destruct IH as (endpoints & Hin & He). exists endpoints. split; [now right | exact He].
Qed.

Lemma accPush_keeps errorType error acc earlier :
  filedIn acc earlier -> filedIn (accPush errorType error acc) earlier.
Proof.
  unfold filedIn. intros (endpoints & Hin & He).
  induction acc as [|[k' eps] acc IH]; cbn [accPush]; [contradiction|].
  destruct Hin as [[= -> ->]|Hin].
  - destruct (String.eqb errorType (errorTypeOf earlier)).
    + exists (endpoints ++ [error])%list. split; [now left|].
      apply List.in_or_app. now left.
    + exists endpoints. split; [now left | exact He].
  - destruct (IH Hin) as (endpoints' & Hin' & He').
    destruct (String.eqb errorType k').
    + exists endpoints. split; [now right | exact He].
    + exists endpoints'. split; [now right | exact He'].
Qed.

Lemma errorsByType_spec apiErrors :
  List.NoDup (List.map fst (errorsByType apiErrors))
  /\ Forall groupedByType (errorsByType apiErrors)
  /\ forall error, In error apiErrors -> filedIn (errorsByType apiErrors) error.
Proof.
  unfold errorsByType.
  assert (forall acc,
            List.NoDup (List.map fst acc) -> Forall groupedByType acc ->
            let final := fold_left (fun acc error => accPush (errorTypeOf error) error acc)
                                   apiErrors acc in
            List.NoDup (List.map fst final) /\ Forall groupedByType final
            /\ forall error, In error apiErrors \/ filedIn acc error -> filedIn final error)
    as H.
  { induction apiErrors as [|e errs IH]; intros acc Hnd Hg; cbn [fold_left].
    - repeat split; try assumption. intros error [[]|H]; exact H.
    - destruct (IH (accPush (errorTypeOf e) e acc)) as (Hnd' & Hg' & Hf').
      + now apply accPush_NoDup.
      + now apply accPush_grouped.
      + repeat split; try assumption.
        intros error [[->|Hin]|Hfiled]; apply Hf'.
        * right. apply accPush_files.
        * now left.
        * right. now apply accPush_keeps. }
  destruct (H [] ltac:(constructor) ltac:(constructor)) as (Hnd & Hg & Hf).
  repeat split; try assumption. intros error Hin. apply Hf. now left.
Qed.

(** ** Graph client *)

(** C10, counterexample. A 502 answer whose body is not JSON (a gateway
    error page): reading the error body raises, and the call reports status
    code 500, not the 502 of the response. *)
Lemma callGraphApiContract_fails : ~ callGraphApiContract.
Proof.
  intros H.
  destruct (H "/users" "token" "GET" JUndefined
              (answering (Responded {| status := 502;
                                       json := BodyInvalid "Unexpected token <" |})))
    as (_ & Hstatus & _).
  specialize (Hstatus _ ltac:(discriminate) eq_refl eq_refl).
  destruct Hstatus as [_ Hcode]. vm_compute in Hcode. discriminate Hcode.
Qed.

(** C10, amended. [callGraphApi] always returns a response carrying a
    success flag. With an empty access token it returns success=false with
    status code 401 and sends no request. A non-2xx answer yields
    success=false, with the status code of the answer when its error body
    parses to a JSON object. A network error, a body that does not parse
    (also the error body of a non-2xx answer) or an error body that is JSON
    null yields success=false with status code 500. *)
Theorem callGraphApi_outcomes :
  forall (endpoint token method : string) (body : jsval) (w : World),
    let request := requestOptionsOf endpoint token method body in
    let r := fst (callGraphApi endpoint token method body w) in
    let w' := snd (callGraphApi endpoint token method body w) in
    (token = "" -> success r = false /\ statusCode r = Some 401%Z /\ sent w' = sent w)
    /\ (forall response,
          token <> "" ->
          net w (length (sent w)) request = Responded response ->
          ok response = false ->
          success r = false
          /\ (forall errorData, json response = BodyJson (Some errorData) ->
                statusCode r = Some (status response))
          /\ (forall msg, json response = BodyInvalid msg -> statusCode r = Some 500%Z)
          /\ (json response = BodyJson None -> statusCode r = Some 500%Z))
    /\ (forall msg,
          token <> "" ->
          net w (length (sent w)) request = NetworkError msg ->
          success r = false /\ statusCode r = Some 500%Z)
    /\ (forall response msg,
          token <> "" ->
          net w (length (sent w)) request = Responded response ->
          ok response = true ->
          status response <> 204%Z -> method <> "DELETE" ->
          json response = BodyInvalid msg ->
          success r = false /\ statusCode r = Some 500%Z).
Proof.
  intros endpoint token method body w request r w'.
  subst r w'. unfold callGraphApi. fold request.
  destruct (String.eqb_spec token "") as [->|Hne].
  - split; [intros _; cbn; auto|].
    repeat split; intros; congruence.
  - split; [intros ->; congruence|].
    split; [|split].
    + intros response _ Hnet Hok. rewrite Hnet, Hok. cbn [negb].
      destruct (json response) as [msg|[errorData|]]; cbn; repeat split;
        intros; try congruence; reflexivity.
    + intros msg _ Hnet. rewrite Hnet. cbn. auto.
    + intros response msg _ Hnet Hok H204 Hdel Hjson.
      rewrite Hnet, Hok, Hjson. cbn [negb].
      apply Z.eqb_neq in H204. apply String.eqb_neq in Hdel.
      rewrite H204, Hdel. cbn. auto.
Qed.

(** A 403 answer with a Graph error object: the call reports 403. *)
Lemma callGraphApi_outcomes_witness :
  let forbidden :=
    {| status := 403;
       json := BodyJson (Some {| value := None;
                                 body_error := Some {| message := Some "Forbidden" |} |}) |} in
  let r := fst (callGraphApi "/users" "token" "GET" JUndefined
                             (answering (Responded forbidden))) in
  success r = false /\ statusCode r = Some 403%Z.
Proof.
  intros forbidden r.
  destruct (callGraphApi_outcomes "/users" "token" "GET" JUndefined
              (answering (Responded forbidden)))
    as (_ & Hnon2xx & _).
  destruct (Hnon2xx forbidden ltac:(discriminate) eq_refl eq_refl) as (Hs & Hcode & _).
  split; [exact Hs | exact (Hcode _ eq_refl)].
Defined.

(** ** Dashboard conversion *)

(** C7. For a scan whose issue list is empty, the conversion for the
    dashboard succeeds and each of the five category scores (security
    posture, identity and access, device and app, data protection, license
    management) is 100. *)
Theorem empty_scan_category_scores :
  forall (st : gmap string jsval) (summary : ScanSummary),
    storedIssuesOf st summary = Ok (JArr []) ->
    exists latest,
      convertToLatestScanData st summary = Ok latest
      /\ lsd_securityPostureScore latest = 100%Z
      /\ lsd_identityAccessScore latest = 100%Z
      /\ lsd_deviceAppScore latest = 100%Z
      /\ lsd_dataProtectionScore latest = 100%Z
      /\ lsd_licenseManagementScore latest = 100%Z.
Proof.
  intros st summary H. unfold storedIssuesOf in H. unfold convertToLatestScanData.
  destruct (st !! ("scan_" +:+ sum_id summary)) as [parsedData|].
  - destruct (truthy parsedData) eqn:T.
    + rewrite H. destruct parsedData; try discriminate; cbn;
        eexists; repeat split; reflexivity.
    + destruct parsedData; try discriminate; cbn;
        eexists; repeat split; reflexivity.
  - cbn. eexists. repeat split; reflexivity.
Qed.

(** ** Stored snapshots *)

Lemma jsonRoundTrip_obj fs : jsonRoundTrip (JObj fs) = JObj (storedFields fs).
Proof.
  destruct fs; reflexivity.
Qed.

Lemma jsonRoundTrip_arr (l : list jsval) :
  Forall (fun x => x <> JUndefined) l ->
  jsonRoundTrip (JArr l) = JArr (List.map jsonRoundTrip l).
Proof.
  intros H. cbn [jsonRoundTrip]. f_equal.
  induction H as [|x l Hx _ IH]; cbn [List.map]; [reflexivity|].
  rewrite IH. destruct x; try reflexivity. now contradiction Hx.
Qed.

Lemma lookupField_absent k fs :
  existsb (fun kv => String.eqb k (fst kv)) fs = false -> lookupField k fs = JUndefined.
Proof.
  induction fs as [|[k' v] fs IH]; cbn; [reflexivity|].
  intros H. apply orb_false_elim in H as [H1 H2]. now rewrite H1, IH.
Qed.

Lemma existsb_storedFields k fs :
  existsb (fun kv => String.eqb k (fst kv)) fs = false ->
  existsb (fun kv => String.eqb k (fst kv)) (storedFields fs) = false.
Proof.
  induction fs as [|[k' v] fs IH]; cbn [existsb storedFields fst]; [reflexivity|].
  intros H. apply orb_false_elim in H as [H1 H2].
  destruct v; cbn [existsb fst]; rewrite ?H1; auto.
Qed.

(** Reading a member of a stored object gives the stored form of the member
    written. *)
Lemma lookupField_stored k fs :
  distinctKeys fs = true ->
  lookupField k (storedFields fs) = jsonRoundTrip (lookupField k fs).
Proof.
  induction fs as [|[k' v] fs IH]; cbn [distinctKeys]; [reflexivity|].
  intros H. apply andb_prop in H as [Hfresh Hrest]. apply negb_true_iff in Hfresh.
  specialize (IH Hrest). cbn [lookupField].
  destruct (String.eqb_spec k k') as [->|Hne].
  - destruct v; cbn [storedFields lookupField]; rewrite ?String.eqb_refl; try reflexivity.
    rewrite lookupField_absent; [reflexivity | now apply existsb_storedFields].
  - apply String.eqb_neq in Hne.
    destruct v; cbn [storedFields lookupField]; rewrite ?Hne; exact IH.
Qed.

Lemma get_stored k fs :
  distinctKeys fs = true ->
  get (jsonRoundTrip (JObj fs)) k = Ok (jsonRoundTrip (lookupField k fs)).
Proof.
  intros H. rewrite jsonRoundTrip_obj. cbn [get]. now rewrite lookupField_stored.
Qed.

Lemma jsonRoundTrip_strings l : jsonRoundTrip (stringsJS l) = stringsJS l.
Proof.
  unfold stringsJS. cbn [jsonRoundTrip]. f_equal. rewrite List.map_map.
  apply List.map_ext. reflexivity.
Qed.

Lemma jsonRoundTrip_optStr o : jsonRoundTrip (optJS JStr o) = optJS JStr o.
Proof. destruct o; reflexivity. Qed.

Lemma jsonRoundTrip_optBool o : jsonRoundTrip (optJS JBool o) = optJS JBool o.
Proof. destruct o; reflexivity. Qed.

Lemma jsonRoundTrip_issues l :
  jsonRoundTrip (JArr (List.map SecurityIssue_toJS l)) = JArr (List.map storedIssue l).
Proof.
  unfold storedIssue. rewrite jsonRoundTrip_arr.
  - rewrite List.map_map. apply f_equal, List.map_ext. intros i. exact eq_refl.
  - apply List.Forall_forall. intros x Hx.
    apply List.in_map_iff in Hx as (i & <- & _). discriminate.
Qed.

Lemma get_storedIssue k i :
  get (storedIssue i) k
  = Ok (jsonRoundTrip (lookupField k
          [ ("id", JStr (si_id i));
            ("type", JStr (si_type i));
            ("severity", JStr (Severity_toString (si_severity i)));
            ("affectedObject", AffectedObject_toJS (si_affectedObject i));
            ("description", JStr (si_description i));
            ("impact", optJS JStr (si_impact i));
            ("remediation", optJS JStr (si_remediation i));
            ("details", optJS (fun v => v) (si_details i));
            ("status", optJS JStr (si_status i));
            ("isRealData", optJS JBool (si_isRealData i));
            ("affectedItems", optJS stringsJS (si_affectedItems i)) ])).
Proof. unfold storedIssue, SecurityIssue_toJS. now rewrite get_stored. Qed.

Lemma or_else_optStr o dflt :
  or_else (optJS JStr o) (JStr dflt) = JStr (orDefault o dflt).
Proof.
  destruct o as [s|]; cbn; [|reflexivity].
  unfold or_else. cbn. now destruct (String.eqb s "").
Qed.

Lemma isFixedParsed_stored i :
  isFixedParsed (storedIssue i) = Ok (isFixedStatus (si_status i)).
Proof.
  unfold isFixedParsed. rewrite get_storedIssue. cbn [lookupField String.eqb Ascii.eqb Bool.eqb].
  rewrite jsonRoundTrip_optStr. now destruct (si_status i).
Qed.

Ltac read_members :=
  cbn [lookupField String.eqb Ascii.eqb Bool.eqb bind jsonRoundTrip];
  rewrite ?jsonRoundTrip_optStr, ?jsonRoundTrip_optBool, ?jsonRoundTrip_strings.

Lemma get_stored_affectedObject o k :
  get (jsonRoundTrip (AffectedObject_toJS o)) k
  = Ok (lookupField k [ ("type", JStr (ao_type o)); ("id", JStr (ao_id o));
                        ("name", JStr (ao_name o)) ]).
Proof. reflexivity. Qed.

Lemma issueViewOfParsed_stored i :
  issueViewOfParsed (storedIssue i) = Ok (storedIssueView i).
Proof.
  unfold issueViewOfParsed, storedIssueView.
  rewrite !get_storedIssue. read_members.
  change (jsonRoundTrip (AffectedObject_toJS (si_affectedObject i)))
    with (JObj [ ("type", JStr (ao_type (si_affectedObject i)));
                 ("id", JStr (ao_id (si_affectedObject i)));
                 ("name", JStr (ao_name (si_affectedObject i))) ]).
  cbn [get lookupField String.eqb Ascii.eqb Bool.eqb bind asString].
  rewrite !or_else_optStr.
  destruct (si_affectedItems i) as [items|]; cbn [optJS];
    rewrite ?jsonRoundTrip_strings;
    destruct (si_details i) as [d|]; cbn [optJS]; reflexivity.
Qed.

Lemma mapM_stored (l : list SecurityIssue) :
  mapM issueViewOfParsed (List.map storedIssue l) = Ok (List.map storedIssueView l).
Proof.
  induction l as [|i l IH]; cbn [List.map mapM]; [reflexivity|].
  now rewrite issueViewOfParsed_stored, IH.
Qed.

Lemma filterM_stored (l : list SecurityIssue) :
  filterM isFixedParsed (List.map storedIssue l)
  = Ok (List.map storedIssue (List.filter (fun i => isFixedStatus (si_status i)) l)).
Proof.
  induction l as [|i l IH]; cbn [List.map filterM List.filter]; [reflexivity|].
  rewrite isFixedParsed_stored, IH. cbn [bind].
  now destruct (isFixedStatus (si_status i)).
Qed.

Lemma get_storedScan k d :
  get (storedScan d) k
  = Ok (jsonRoundTrip (lookupField k
          [ ("summary", ScanSummary_toJS (sd_summary d));
            ("issues", JArr (List.map SecurityIssue_toJS (sd_issues d)));
            ("apiErrors", stringsJS (sd_apiErrors d));
            ("usesRealData", JBool (sd_usesRealData d));
            ("rawData", RawData_toJS (sd_rawData d)) ])).
Proof. unfold storedScan, ScanData_toJS. now rewrite get_stored. Qed.

Lemma get_storedSummary k m :
  get (jsonRoundTrip (ScanSummary_toJS m)) k
  = Ok (jsonRoundTrip (lookupField k
          [ ("id", JStr (sum_id m));
            ("timestamp", JStr (sum_timestamp m));
            ("tenantId", JStr (sum_tenantId m));
            ("tenantName", JStr (sum_tenantName m));
            ("overallRiskScore", JNum (sum_overallRiskScore m));
            ("issueCountsByCategory",
               JObj (List.map (fun kv => (fst kv, JNum (snd kv)))
                              (sum_issueCountsByCategory m)));
            ("issueCountsBySeverity", SeverityCount_toJS (sum_issueCountsBySeverity m));
            ("totalAccountsScanned", JNum (sum_totalAccountsScanned m));
            ("totalGroupsScanned", JNum (sum_totalGroupsScanned m));
            ("totalPoliciesScanned", JNum (sum_totalPoliciesScanned m));
            ("totalDevicesScanned", JNum (sum_totalDevicesScanned m));
            ("totalMailboxesScanned", JNum (sum_totalMailboxesScanned m)) ])).
Proof. unfold ScanSummary_toJS. now rewrite get_stored. Qed.

Lemma or_else_num n : or_else (JNum n) (JNum 0) = JNum n.
Proof.
  unfold or_else. cbn. destruct (Z.eqb_spec n 0) as [->|]; reflexivity.
Qed.

Lemma viewOfParsed_stored h d : viewOfParsed h (storedScan d) = Ok (storedScanView h d).
Proof.
  unfold viewOfParsed, storedScanView.
  rewrite !get_storedScan. cbn [lookupField String.eqb Ascii.eqb Bool.eqb].
  rewrite jsonRoundTrip_issues, jsonRoundTrip_strings. cbn [bind].
  rewrite !get_storedSummary. read_members.
  change (jsonRoundTrip (SeverityCount_toJS (sum_issueCountsBySeverity (sd_summary d))))
    with (JObj [ ("High", JNum (cnt_High (sum_issueCountsBySeverity (sd_summary d))));
                 ("Medium", JNum (cnt_Medium (sum_issueCountsBySeverity (sd_summary d))));
                 ("Low", JNum (cnt_Low (sum_issueCountsBySeverity (sd_summary d)))) ]).
  cbn [get lookupField String.eqb Ascii.eqb Bool.eqb bind isNumber asArray].
  rewrite filterM_stored, mapM_stored. cbn [bind].
  rewrite !or_else_num, List.length_map.
  unfold or_else, stringsJS. cbn [truthy]. reflexivity.
Qed.

(** ** The pipeline completes *)

Lemma someM_total {A} (f : A -> result bool) (l : list A) :
  (forall x, exists b, f x = Ok b) -> exists b, someM f l = Ok b.
Proof.
  intros Hf. induction l as [|x l [b IH]]; cbn [someM]; [eauto|].
  destruct (Hf x) as [bx ->]. cbn [bind]. destruct bx; eauto.
Qed.

Lemma matchesType_total c ty t : exists b, matchesType (JStr c) (JStr ty) t = Ok b.
Proof.
  unfold matchesType. cbn [asString bind].
  destruct (includes (toLowerCase c) (toLowerCase t)); [eauto|].
  destruct (truthy (JStr ty)); cbn [bind]; eauto.
Qed.

Lemma chargeFirstMatch_total c ty impactScore ms :
  exists ms', chargeFirstMatch (JStr c) (JStr ty) impactScore ms = Ok ms'.
Proof.
  induction ms as [|m ms [ms' IH]]; cbn [chargeFirstMatch]; [eauto|].
  destruct (someM_total (matchesType (JStr c) (JStr ty)) (cm_types m)
              (matchesType_total c ty)) as [hit ->].
  cbn [bind]. destruct hit; [eauto|]. rewrite IH. cbn [bind]. eauto.
Qed.

Lemma chargeIssue_stored ms i : exists ms', chargeIssue ms (storedIssue i) = Ok ms'.
Proof.
  unfold chargeIssue. rewrite !get_storedIssue.
  cbn [lookupField String.eqb Ascii.eqb Bool.eqb bind].
  change (jsonRoundTrip (AffectedObject_toJS (si_affectedObject i)))
    with (JObj [ ("type", JStr (ao_type (si_affectedObject i)));
                 ("id", JStr (ao_id (si_affectedObject i)));
                 ("name", JStr (ao_name (si_affectedObject i))) ]).
  cbn [get lookupField String.eqb Ascii.eqb Bool.eqb bind jsonRoundTrip].
  apply chargeFirstMatch_total.
Qed.

Lemma foldM_stored (l : list SecurityIssue) ms :
  exists ms', foldM chargeIssue (List.map storedIssue l) ms = Ok ms'.
Proof.
  revert ms. induction l as [|i l IH]; intros ms; cbn [List.map foldM]; [eauto|].
  destruct (chargeIssue_stored ms i) as [ms1 ->]. cbn [bind]. apply IH.
Qed.

Lemma countWhere_stored member lit (l : list SecurityIssue) :
  exists n, countWhere member lit (List.map storedIssue l) = Ok n.
Proof.
  unfold countWhere.
  assert (exists hits,
            filterM (fun i => let* v := get i member in Ok (strictEqStr v lit))
                    (List.map storedIssue l) = Ok hits) as [hits ->].
  { induction l as [|i l [hits IH]]; cbn [List.map filterM]; [eauto|].
    rewrite get_storedIssue. cbn [bind]. rewrite IH. cbn [bind]. eauto. }
  cbn [bind]. eauto.
Qed.

Lemma storedScan_obj d : exists fs, storedScan d = JObj fs.
Proof. unfold storedScan, ScanData_toJS. rewrite jsonRoundTrip_obj. eauto. Qed.

Lemma convertToLatestScanData_stored (st : gmap string jsval) d :
  st !! ("scan_" +:+ sum_id (sd_summary d)) = Some (storedScan d) ->
  exists latest, convertToLatestScanData st (sd_summary d) = Ok latest.
Proof.
  intros Hst. unfold convertToLatestScanData. rewrite Hst.
  destruct (storedScan_obj d) as [fs Hfs].
  assert (truthy (storedScan d) = true) as -> by now rewrite Hfs.
  rewrite !get_storedScan. cbn [lookupField String.eqb Ascii.eqb Bool.eqb].
  rewrite jsonRoundTrip_issues. cbn [bind asArray].
  destruct (foldM_stored (sd_issues d) categoryMappings) as [ms ->].
  destruct (countWhere_stored "severity" "High" (sd_issues d)) as [nh ->].
  destruct (countWhere_stored "severity" "Medium" (sd_issues d)) as [nm ->].
  destruct (countWhere_stored "severity" "Low" (sd_issues d)) as [nl ->].
  destruct (countWhere_stored "status" "Fixed" (sd_issues d)) as [nf ->].
  cbn [bind]. destruct (storedScan d); try discriminate Hfs.
  cbn [get bind]. eauto.
Qed.

Lemma scan_key_not_history_key a b : "scan_" +:+ a <> "scanHistory_" +:+ b.
Proof. cbn. discriminate. Qed.

Lemma scan_id_not_latest x : String.eqb ("scan_" +:+ x) "latest" = false.
Proof. reflexivity. Qed.

(** An authenticated [startScan] always returns the id of the scan it
    generated, with the snapshot and the trimmed history in storage. *)
Lemma startScan_completes h t s responses token tenant :
  accessToken s = Some token -> tenantId s = Some tenant ->
  token <> "" -> tenant <> "" ->
  exists s',
    startScan h t s responses
    = (s', Some (sum_id (sd_summary (pipelineScan h t token tenant responses))))
    /\ tenantId s' = Some tenant
    /\ currentScan s' = Some (pipelineScan h t token tenant responses)
    /\ scanHistory s'
       = firstn 10 (sd_summary (pipelineScan h t token tenant responses) :: scanHistory s)
    /\ localStorage s'
         !! ("scan_" +:+ sum_id (sd_summary (pipelineScan h t token tenant responses)))
       = Some (storedScan (pipelineScan h t token tenant responses))
    /\ localStorage s' !! ("scanHistory_" +:+ tenant)
       = Some (jsonRoundTrip
                 (JArr (List.map ScanSummary_toJS
                          (firstn 10 (sd_summary (pipelineScan h t token tenant responses)
                                      :: scanHistory s))))).
Proof.
  intros Htok Hten Htok' Hten'.
  unfold startScan. rewrite Htok, Hten.
  apply String.eqb_neq in Htok', Hten'. rewrite Htok', Hten'. cbn [orb].
  change (generateScan h t token tenant _ _) with (pipelineScan h t token tenant responses).
  set (scanData := pipelineScan h t token tenant responses).
  set (storage := setItem _ _ (setItem _ _ _)).
  assert (storage !! ("scan_" +:+ sum_id (sd_summary scanData)) = Some (storedScan scanData))
    as Hscan by (subst storage; unfold setItem; apply lookup_insert_eq).
  destruct (convertToLatestScanData_stored storage scanData Hscan) as [latest ->].
  eexists. split; [reflexivity|]. cbn [tenantId currentScan scanHistory localStorage].
  repeat split; try assumption.
  subst storage. unfold setItem.
  rewrite lookup_insert_ne by apply scan_key_not_history_key.
  apply lookup_insert_eq.
Qed.

Lemma pipelineScan_counts h t token tenant responses :
  sum_issueCountsBySeverity (sd_summary (pipelineScan h t token tenant responses))
  = severityCountOf (sd_issues (pipelineScan h t token tenant responses)).
Proof. reflexivity. Qed.

Lemma pipelineScan_id h t token tenant responses :
  sum_id (sd_summary (pipelineScan h t token tenant responses))
  = "scan_" +:+ numberToString 36 (clock h t).
Proof. reflexivity. Qed.

(** ** History and round trip *)

Lemma jsonRoundTrip_summaries l :
  jsonRoundTrip (JArr (List.map ScanSummary_toJS l)) = JArr (List.map storedSummary l).
Proof.
  unfold storedSummary. rewrite jsonRoundTrip_arr.
  - rewrite List.map_map. apply f_equal, List.map_ext. intros i. exact eq_refl.
  - apply List.Forall_forall. intros x Hx.
    apply List.in_map_iff in Hx as (i & <- & _). discriminate.
Qed.

Lemma startScan_returns h t s responses s' id :
  startScan h t s responses = (s', Some id) ->
  exists token tenant,
    accessToken s = Some token /\ tenantId s = Some tenant
    /\ token <> "" /\ tenant <> "".
Proof.
  unfold startScan. intros H.
  destruct (accessToken s) as [token|]; [|discriminate].
  destruct (tenantId s) as [tenant|]; [|discriminate].
  destruct (String.eqb token "") eqn:Et; [discriminate|].
  destruct (String.eqb tenant "") eqn:En; [discriminate|].
  apply String.eqb_neq in Et, En. exists token, tenant. auto.
Qed.

Lemma readSummary_stored m : readSummary (storedSummary m) = Ok (summaryRead m).
Proof.
  unfold readSummary, storedSummary. rewrite !get_storedSummary. reflexivity.
Qed.

Lemma mapM_readSummary history :
  mapM readSummary (List.map storedSummary history) = Ok (List.map summaryRead history).
Proof.
  induction history as [|m history IH]; cbn [List.map mapM]; [reflexivity|].
  now rewrite readSummary_stored, IH.
Qed.
(** C8. After every completed scan the history persisted for the tenant is
    the new scan's summary followed by the first nine of the previous
    summaries, the older ones dropped from the end: min(10, n + 1) records,
    newest first, each of which reads back with the id, timestamp, tenant
    and score of its scan. *)
Theorem scan_history_bounded_and_ordered :
  forall (h : Host) (t : nat) (s : AppState) (responses : list GraphApiResponse)
         (s' : AppState) (id : string),
    startScan h t s responses = (s', Some id) ->
    exists tenant scanData history stored,
      tenantId s = Some tenant
      /\ currentScan s' = Some scanData
      /\ sum_id (sd_summary scanData) = id
      /\ localStorage s' !! ("scanHistory_" +:+ tenant) = Some (JArr stored)
      /\ stored = List.map storedSummary history
      /\ mapM readSummary stored = Ok (List.map summaryRead history)
      /\ scanHistory s' = history
      /\ history = sd_summary scanData :: firstn 9 (scanHistory s)
      /\ length stored = Nat.min 10 (S (length (scanHistory s)))
      /\ (length stored <= 10)%nat.
Proof.
  intros h t s responses s' id Hrun.
  destruct (startScan_returns _ _ _ _ _ _ Hrun) as (token & tenant & Ha & Hn & Ha' & Hn').
  destruct (startScan_completes h t s responses token tenant Ha Hn Ha' Hn')
    as (s1 & Hrun1 & _ & Hcur & Hhist & _ & Hstored).
  set (scanData := pipelineScan h t token tenant responses) in *.
  assert (s1 = s' /\ sum_id (sd_summary scanData) = id) as [-> Hid]
    by (rewrite Hrun in Hrun1; injection Hrun1; auto).
  exists tenant, scanData, (sd_summary scanData :: firstn 9 (scanHistory s)),
    (List.map storedSummary (sd_summary scanData :: firstn 9 (scanHistory s))).
  assert (length (List.map storedSummary (sd_summary scanData :: firstn 9 (scanHistory s)))
          = Nat.min 10 (S (length (scanHistory s)))) as Hlen.
  { rewrite List.length_map. cbn [length]. rewrite List.length_firstn. lia. }
  repeat split; auto.
  - rewrite Hstored, jsonRoundTrip_summaries. reflexivity.
  - apply mapM_readSummary.
  - rewrite Hlen. lia.
Qed.

Lemma strictEqStr_severity a b :
  strictEqStr (JStr (Severity_toString a)) (Severity_toString b) = Severity_eqb a b.
Proof. destruct a, b; reflexivity. Qed.

Lemma viewSeverityCount_map (f : SecurityIssue -> IssueView) sev v l :
  sv_issues v = List.map f l ->
  (forall i, iv_severity (f i) = JStr (Severity_toString (si_severity i))) ->
  viewSeverityCount sev v = countSeverity sev l.
Proof.
  intros Hv Hf. unfold viewSeverityCount, countSeverity. rewrite Hv. clear Hv. f_equal.
  induction l as [|i l IH]; cbn [List.map List.filter]; [reflexivity|].
  rewrite Hf, strictEqStr_severity.
  destruct (Severity_eqb (si_severity i) sev); cbn [length]; now rewrite IH.
Qed.

(** C4. A scan persisted by the pipeline reads back by its id as an
    equivalent object, from the storage alone (after a reload) as well as
    while it is still the current scan: the same number of issues and the
    same High, Medium and Low counts as the scan that was written. *)
Theorem persisted_scan_round_trip :
  forall (h : Host) (t : nat) (s : AppState) (responses : list GraphApiResponse)
         (s' : AppState) (id : string),
    startScan h t s responses = (s', Some id) ->
    exists scanData,
      currentScan s' = Some scanData
      /\ sum_id (sd_summary scanData) = id
      /\ localStorage s' !! ("scan_" +:+ id) = Some (storedScan scanData)
      /\ forall later : AppState,
           tenantId later = tenantId s' ->
           localStorage later !! ("scan_" +:+ id) = localStorage s' !! ("scan_" +:+ id) ->
           (forall current, currentScan later = Some current ->
                            sum_id (sd_summary current) = id -> current = scanData) ->
           exists view,
             getScanById h later id = Ok (Some view)
             /\ length (sv_issues view) = length (sd_issues scanData)
             /\ sv_highRiskIssues view = JNum (countSeverity High (sd_issues scanData))
             /\ sv_mediumRiskIssues view = JNum (countSeverity Medium (sd_issues scanData))
             /\ sv_lowRiskIssues view = JNum (countSeverity Low (sd_issues scanData))
             /\ forall sev,
                  viewSeverityCount sev view = countSeverity sev (sd_issues scanData).
Proof.
  intros h t s responses s' id Hrun.
  destruct (startScan_returns _ _ _ _ _ _ Hrun) as (token & tenant & Ha & Hn & Ha' & Hn').
  destruct (startScan_completes h t s responses token tenant Ha Hn Ha' Hn')
    as (s1 & Hrun1 & Hten & Hcur & _ & Hscan & _).
  pose proof (pipelineScan_counts h t token tenant responses) as Hcounts.
  pose proof (pipelineScan_id h t token tenant responses) as Hshape.
  set (scanData := pipelineScan h t token tenant responses) in *.
  assert (s1 = s' /\ sum_id (sd_summary scanData) = id) as [-> Hid]
    by (rewrite Hrun in Hrun1; injection Hrun1; auto).
  exists scanData. rewrite <- Hid.
  split; [exact Hcur|]. split; [reflexivity|]. split; [exact Hscan|].
  intros later Hlt Hls Hsame.
  assert (getScanById h later (sum_id (sd_summary scanData))
          = getScanByIdDirect h later (sum_id (sd_summary scanData))) as ->.
  { unfold getScanById. rewrite Hlt, Hten. cbn [missing].
    apply String.eqb_neq in Hn'. rewrite Hn', Hshape, scan_id_not_latest.
    now destruct (latestScan later). }
  assert (forall view,
            (view = viewOfCurrent h scanData \/ view = storedScanView h scanData) ->
            length (sv_issues view) = length (sd_issues scanData)
            /\ sv_highRiskIssues view = JNum (countSeverity High (sd_issues scanData))
            /\ sv_mediumRiskIssues view = JNum (countSeverity Medium (sd_issues scanData))
            /\ sv_lowRiskIssues view = JNum (countSeverity Low (sd_issues scanData))
            /\ forall sev,
                 viewSeverityCount sev view = countSeverity sev (sd_issues scanData))
    as Hview.
  { intros view [-> | ->]; cbn [viewOfCurrent storedScanView sv_issues sv_highRiskIssues
                                 sv_mediumRiskIssues sv_lowRiskIssues];
      rewrite Hcounts, List.length_map; repeat split;
      intros sev; eapply viewSeverityCount_map; reflexivity. }
  unfold getScanByIdDirect. rewrite Hls, Hscan, viewOfParsed_stored. cbn [bind].
  destruct (currentScan later) as [current|] eqn:Hc.
  - destruct (String.eqb_spec (sum_id (sd_summary current)) (sum_id (sd_summary scanData)))
      as [Heq|Hne].
    + rewrite (Hsame current eq_refl Heq). eexists. split; [reflexivity|].
      apply Hview. now left.
    + eexists. split; [reflexivity|]. apply Hview. now right.
  - eexists. split; [reflexivity|]. apply Hview. now right.
Qed.

(** ** A sample run *)

Example sample_run_returns :
  snd (startScan sampleHost 0 signedIn sampleResponses) = Some "scan_m2r1bz7k".
Proof. vm_compute. reflexivity. Qed.

Example sample_run_kinds :
  List.map issueKind (sd_issues (pipelineScan sampleHost 0 "token" "tenant-1" sampleResponses))
  = [ ("Risky Users Detected", High, "User");
      ("MFA Not Configured", High, "User");
      ("External Email Forwarding", Medium, "Mailbox");
      ("Security Settings Access Required", Medium, "Policy") ].
Proof. vm_compute. reflexivity. Qed.

Example sample_run_score :
  sum_overallRiskScore (sd_summary (pipelineScan sampleHost 0 "token" "tenant-1" sampleResponses))
  = 56%Z.
Proof. vm_compute. reflexivity. Qed.

Lemma sample_run_completes :
  startScan sampleHost 0 signedIn sampleResponses
  = (fst (startScan sampleHost 0 signedIn sampleResponses), Some "scan_m2r1bz7k").
Proof.
  pose proof sample_run_returns as R.
  destruct (startScan sampleHost 0 signedIn sampleResponses) as [s' r].
  cbn [fst snd] in *. rewrite R. reflexivity.
Defined.

Example eleventh_run_returns :
  snd (startScan sampleHost 100 (afterScans 10 signedIn) sampleResponses)
  = Some "scan_m2r1bzac".
Proof. vm_compute. reflexivity. Qed.

Lemma eleventh_run_completes :
  startScan sampleHost 100 (afterScans 10 signedIn) sampleResponses
  = (fst (startScan sampleHost 100 (afterScans 10 signedIn) sampleResponses),
     Some "scan_m2r1bzac").
Proof.
  pose proof eleventh_run_returns as R.
  destruct (startScan sampleHost 100 (afterScans 10 signedIn) sampleResponses) as [s' r].
  cbn [fst snd] in *. rewrite R. reflexivity.
Defined.

(** The eleventh scan of the sample tenant: the stored history holds ten
    records, the new scan first, and the first scan has been dropped. *)
Lemma scan_history_bounded_and_ordered_witness :
  exists tenant scanData history stored,
    tenantId (afterScans 10 signedIn) = Some tenant
    /\ currentScan (fst (startScan sampleHost 100 (afterScans 10 signedIn) sampleResponses))
       = Some scanData
    /\ sum_id (sd_summary scanData) = "scan_m2r1bzac"
    /\ localStorage (fst (startScan sampleHost 100 (afterScans 10 signedIn) sampleResponses))
         !! ("scanHistory_" +:+ tenant)
       = Some (JArr stored)
    /\ stored = List.map storedSummary history
    /\ mapM readSummary stored = Ok (List.map summaryRead history)
    /\ scanHistory (fst (startScan sampleHost 100 (afterScans 10 signedIn) sampleResponses))
       = history
    /\ history = sd_summary scanData :: firstn 9 (scanHistory (afterScans 10 signedIn))
    /\ length stored = Nat.min 10 (S (length (scanHistory (afterScans 10 signedIn))))
    /\ (length stored <= 10)%nat.
Proof.
  apply (scan_history_bounded_and_ordered sampleHost 100%nat (afterScans 10 signedIn)
                                          sampleResponses).
  exact eleventh_run_completes.
Defined.

(** The ids of that run: the ten scans before, newest first, and the ids
    read from the history stored after the eleventh. *)
Example eleventh_run_history :
  let s := afterScans 10 signedIn in
  let s' := fst (startScan sampleHost 100 s sampleResponses) in
  List.map sum_id (scanHistory s)
  = [ "scan_m2r1bza2"; "scan_m2r1bz9s"; "scan_m2r1bz9i"; "scan_m2r1bz98";
      "scan_m2r1bz8y"; "scan_m2r1bz8o"; "scan_m2r1bz8e"; "scan_m2r1bz84";
      "scan_m2r1bz7u"; "scan_m2r1bz7k" ]
  /\ match localStorage s' !! "scanHistory_tenant-1" with
     | Some (JArr stored) => mapM (fun record => get record "id") stored
     | _ => Ok []
     end
     = Ok (List.map JStr
             [ "scan_m2r1bzac"; "scan_m2r1bza2"; "scan_m2r1bz9s"; "scan_m2r1bz9i";
               "scan_m2r1bz98"; "scan_m2r1bz8y"; "scan_m2r1bz8o"; "scan_m2r1bz8e";
               "scan_m2r1bz84"; "scan_m2r1bz7u" ]).
Proof. vm_compute. split; reflexivity. Qed.

(** The sample run: its four issues (two High, two Medium) read back. *)
Lemma persisted_scan_round_trip_witness :
  exists scanData,
    currentScan (fst (startScan sampleHost 0 signedIn sampleResponses)) = Some scanData
    /\ sum_id (sd_summary scanData) = "scan_m2r1bz7k"
    /\ localStorage (fst (startScan sampleHost 0 signedIn sampleResponses))
         !! ("scan_" +:+ "scan_m2r1bz7k")
       = Some (storedScan scanData)
    /\ forall later : AppState,
         tenantId later = tenantId (fst (startScan sampleHost 0 signedIn sampleResponses)) ->
         localStorage later !! ("scan_" +:+ "scan_m2r1bz7k")
         = localStorage (fst (startScan sampleHost 0 signedIn sampleResponses))
             !! ("scan_" +:+ "scan_m2r1bz7k") ->
         (forall current, currentScan later = Some current ->
                          sum_id (sd_summary current) = "scan_m2r1bz7k" ->
                          current = scanData) ->
         exists view,
           getScanById sampleHost later "scan_m2r1bz7k" = Ok (Some view)
           /\ length (sv_issues view) = length (sd_issues scanData)
           /\ sv_highRiskIssues view = JNum (countSeverity High (sd_issues scanData))
           /\ sv_mediumRiskIssues view = JNum (countSeverity Medium (sd_issues scanData))
           /\ sv_lowRiskIssues view = JNum (countSeverity Low (sd_issues scanData))
           /\ forall sev,
                viewSeverityCount sev view = countSeverity sev (sd_issues scanData).
Proof.
  apply (persisted_scan_round_trip sampleHost 0%nat signedIn sampleResponses).
  exact sample_run_completes.
Defined.

Example sample_read_back :
  let s' := fst (startScan sampleHost 0 signedIn sampleResponses) in
  match getScanById sampleHost s' "scan_m2r1bz7k" with
  | Ok (Some view) =>
      (length (sv_issues view), sv_highRiskIssues view, sv_mediumRiskIssues view,
       sv_lowRiskIssues view, sv_securityScore view)
      = (4%nat, JNum 2, JNum 2, JNum 0, JNum 56)
  | _ => False
  end.
Proof. vm_compute. reflexivity. Qed.

(** A scan without findings, stored by the pipeline: all five category
    scores are 100. *)
Lemma empty_scan_category_scores_witness :
  let st := localStorage (fst (startScan sampleHost 0 signedIn quietResponses)) in
  let summary := sd_summary (pipelineScan sampleHost 0 "token" "tenant-1" quietResponses) in
  storedIssuesOf st summary = Ok (JArr [])
  /\ exists latest,
       convertToLatestScanData st summary = Ok latest
       /\ lsd_securityPostureScore latest = 100%Z
       /\ lsd_identityAccessScore latest = 100%Z
       /\ lsd_deviceAppScore latest = 100%Z
       /\ lsd_dataProtectionScore latest = 100%Z
       /\ lsd_licenseManagementScore latest = 100%Z.
Proof.
  intros st summary.
  assert (storedIssuesOf st summary = Ok (JArr [])) as H
    by (vm_compute; reflexivity).
  split; [exact H|]. exact (empty_scan_category_scores st summary H).
Defined.

(** ** Parallel collector *)

Lemma bind_Ok {A B} (m : result A) (f : A -> result B) b :
  bind m f = Ok b -> exists a, m = Ok a /\ f a = Ok b.
Proof. destruct m as [a|e]; cbn; [eauto | discriminate]. Qed.

Lemma checkIndices_keeps responses endpoint indices acc errs :
  checkIndices responses endpoint indices acc = Ok errs ->
  forall e, In e acc -> In e errs.
Proof.
  revert acc. induction indices as [|index rest IH]; intros acc H e He; cbn in H.
  - now injection H as <-.
  - destruct (responseAt responses index) as [r|]; cbn [bind] in H; [|discriminate].
    apply (IH _ H). destruct (negb (success r)); [|exact He].
    apply List.in_or_app. now left.
Qed.

Lemma checkIndices_records responses endpoint indices acc errs index r :
  checkIndices responses endpoint indices acc = Ok errs ->
  In index indices -> responseAt responses index = Ok r -> success r = false ->
  In ("graph.microsoft.com/beta/" +:+ endpoint) errs.
Proof.
  revert acc. induction indices as [|i rest IH]; intros acc H Hin Hr Hf; [contradiction|].
  cbn in H. destruct (responseAt responses i) as [ri|] eqn:Ei; cbn [bind] in H;
    [|discriminate].
  destruct Hin as [->|Hin].
  - rewrite Hr in Ei. injection Ei as <-. rewrite Hf in H. cbn [negb] in H.
    apply (checkIndices_keeps _ _ _ _ _ H).
    apply List.in_or_app. right. now left.
  - apply (IH _ H Hin Hr Hf).
Qed.

Lemma checkEndpoints_keeps responses entries acc errs :
  checkEndpoints responses entries acc = Ok errs ->
  forall e, In e acc -> In e errs.
Proof.
  revert acc. induction entries as [|[endpoint indices] rest IH]; intros acc H e He;
    cbn in H.
  - now injection H as <-.
  - destruct (checkIndices responses endpoint indices acc) as [acc'|] eqn:E;
      cbn [bind] in H; [|discriminate].
    apply (IH _ H). apply (checkIndices_keeps _ _ _ _ _ E _ He).
Qed.

(** Every failed response whose position is listed in the endpoint map is
    recorded under the endpoint name of that entry. *)
Lemma checkEndpoints_records responses entries acc errs endpoint indices index r :
  checkEndpoints responses entries acc = Ok errs ->
  In (endpoint, indices) entries -> In index indices ->
  responseAt responses index = Ok r -> success r = false ->
  In ("graph.microsoft.com/beta/" +:+ endpoint) errs.
Proof.
  revert acc. induction entries as [|[ep ixs] rest IH]; intros acc H Hent Hin Hr Hf;
    [contradiction|].
  cbn in H. destruct (checkIndices responses ep ixs acc) as [acc'|] eqn:E;
    cbn [bind] in H; [|discriminate].
  destruct Hent as [[= -> ->]|Hent].
  - apply (checkEndpoints_keeps _ _ _ _ H).
    apply (checkIndices_records _ _ _ _ _ _ _ E Hin Hr Hf).
  - apply (IH _ H Hent Hin Hr Hf).
Qed.

(** Whatever the responses, a bag built by the [try] block lists the mapped
    failures and holds the empty default of a failed collection. *)
Lemma collect_records_mapped_failures responses bag endpoint indices index r :
  collect responses = Ok bag ->
  In (endpoint, indices) endpointMap -> In index indices ->
  responseAt responses index = Ok r -> success r = false ->
  In ("graph.microsoft.com/beta/" +:+ endpoint) (gr_apiErrors bag).
Proof.
  unfold collect. intros H Hent Hin Hr Hf.
  destruct (checkEndpoints responses endpointMap []) as [errs|] eqn:E;
    cbn [bind] in H; [|discriminate].
  pose proof (checkEndpoints_records _ _ _ _ _ _ _ _ E Hent Hin Hr Hf) as Hrec.
  repeat (apply bind_Ok in H as (? & _ & H)).
  injection H as <-. exact Hrec.
Qed.

(** A failed call leaves the empty default in the bag: an empty array for a
    collection, [null] for an object or for the tenant. *)
Lemma failed_dataset_defaults r :
  success r = false ->
  valueOrEmpty r = Ok (Some []) /\ dataOrNull r = None /\ firstOrNull r = Ok None.
Proof.
  intros H. unfold valueOrEmpty, dataOrNull, firstOrNull. rewrite H. auto.
Qed.

(** [checkOrganizationSettings] does fail: a 200 answer with body [null]
    makes it raise on [data.value] and return success=false. *)
Lemma checkOrganizationSettings_can_fail :
  success (fst (checkOrganizationSettings "token" nullBodyNetwork)) = false.
Proof. vm_compute. reflexivity. Qed.

(** C9, at the failing input. With every call successful except
    [checkOrganizationSettings], the collector returns a bag whose apiErrors
    list is empty: the failed call is recorded under no endpoint name, because
    position 24 is missing from the endpoint map. *)
Theorem collector_misses_organizationSettings :
  let bag := fetchMicrosoftGraphData organizationSettingsFailed in
  length organizationSettingsFailed = 29%nat
  /\ (exists r, responseAt organizationSettingsFailed 24 = Ok r /\ success r = false)
  /\ gr_success bag = true
  /\ gr_apiErrors bag = []
  /\ organizationSettings bag = None
  /\ ~ failureRecorded (gr_apiErrors bag) 24.
Proof.
  intros bag. split; [reflexivity|]. split; [eexists; split; reflexivity|].
  split; [reflexivity|]. split; [reflexivity|]. split; [reflexivity|].
  intros (endpoint & indices & _ & _ & Hin). exact Hin.
Qed.

(** ** Issue fixer *)

(** A snapshot written by [fixIssue] has no issueCountsBySeverity in its
    summary: the storage branch of [getScanById] raises on it. *)
Lemma fixedSnapshot_unreadable h scan updatedIssues :
  viewOfParsed h (jsonRoundTrip (fixedSnapshot scan updatedIssues))
  = Throw "TypeError: Cannot read properties of undefined".
Proof.
  unfold viewOfParsed, fixedSnapshot.
  rewrite get_stored by reflexivity.
  cbn [lookupField String.eqb Ascii.eqb Bool.eqb bind].
  rewrite !get_stored by reflexivity.
  replace (lookupField "issueCountsBySeverity" _) with JUndefined by reflexivity.
  cbn [bind jsonRoundTrip get]. reflexivity.
Qed.

(** The snapshot of the sample run, first fix after a reload: [fixIssue]
    announces success, and the scan can no longer be read by its id. *)
Example fix_after_reload_unreadable :
  let reloaded :=
    {| accessToken := Some "token"; tenantId := Some "tenant-1";
       isScanning := false; isFixing := None; currentScan := None;
       scanHistory := scanHistory (fst (startScan sampleHost 0 signedIn sampleResponses));
       latestScan := None;
       localStorage := localStorage (fst (startScan sampleHost 0 signedIn sampleResponses)) |} in
  let fixed := fixIssue sampleHost reloaded "scan_m2r1bz7k" "risky_users_1730000000001" in
  isOk (getScanById sampleHost reloaded "scan_m2r1bz7k") = true
  /\ snd fixed = ToastSuccess "Issue fixed successfully"
  /\ isOk (getScanById sampleHost (fst fixed) "scan_m2r1bz7k") = false
  /\ snd (fixIssue sampleHost (fst fixed) "scan_m2r1bz7k" "risky_users_1730000000001")
     = ToastError "Failed to fix issue".
Proof. vm_compute. repeat split; reflexivity. Qed.

(* ========================================================================= *)
(** * Further properties of the code *)

(** ** What a scan can contain *)

Lemma countSeverity_total l :
  (countSeverity High l + countSeverity Medium l + countSeverity Low l
   = Z.of_nat (length l))%Z.
Proof.
  induction l as [|i l IH]; [reflexivity|].
  rewrite !countSeverity_cons. cbn [length].
  destruct (si_severity i); cbn [Severity_eqb]; lia.
Qed.

Lemma bumpCategory_total category acc :
  totalOf (bumpCategory category acc) = (totalOf acc + 1)%Z.
Proof.
  unfold totalOf. induction acc as [|[k n] acc IH]; cbn [bumpCategory]; [reflexivity|].
  destruct (String.eqb category k); cbn [List.map snd fold_right] in *; lia.
Qed.

Lemma bumpCategory_In_keys category acc k :
  In k (List.map fst (bumpCategory category acc))
  <-> k = category \/ In k (List.map fst acc).
Proof.
  induction acc as [|[k' n] acc IH]; cbn [bumpCategory List.map fst In].
  - intuition.
  - destruct (String.eqb_spec category k') as [->|Hne]; cbn [List.map fst In].
    + intuition.
    + rewrite IH. intuition.
Qed.

Lemma bumpCategory_NoDup category acc :
  List.NoDup (List.map fst acc) -> List.NoDup (List.map fst (bumpCategory category acc)).
Proof.
  induction acc as [|[k' n] acc IH]; cbn [bumpCategory List.map fst]; intros Hnd.
  - constructor; [intros [] | constructor].
  - inversion Hnd as [|? ? Hnotin Hnd']; subst.
    destruct (String.eqb_spec category k') as [->|Hne]; cbn [List.map fst].
    + constructor; assumption.
    + constructor; [|auto].
      rewrite bumpCategory_In_keys. intros [->|Hin]; [now apply Hne | now apply Hnotin].
Qed.

Lemma categoryCountOf_spec l :
  totalOf (categoryCountOf l) = Z.of_nat (length l)
  /\ List.NoDup (List.map fst (categoryCountOf l)).
Proof.
  unfold categoryCountOf.
  assert (forall acc,
            List.NoDup (List.map fst acc) ->
            let final :=
              fold_left (fun acc issue =>
                           bumpCategory (ao_type (si_affectedObject issue)) acc) l acc in
            totalOf final = (totalOf acc + Z.of_nat (length l))%Z
            /\ List.NoDup (List.map fst final)) as H.
  { induction l as [|i l IH]; intros acc Hnd; cbn [fold_left length].
    - split; [lia | exact Hnd].
    - destruct (IH (bumpCategory (ao_type (si_affectedObject i)) acc)) as [Ht Hn].
      + now apply bumpCategory_NoDup.
      + split; [|exact Hn]. rewrite Ht, bumpCategory_total. lia. }
  destruct (H [] ltac:(constructor)) as [Ht Hn]. split; [|exact Hn].
  rewrite Ht. reflexivity.
Qed.

(** X1. In every generated scan the three severity counts of the summary
    add up to the number of issues, and so do the category counts, which
    are kept under pairwise different category names. *)
Theorem generateScan_counts_add_up :
  forall (h : Host) (t : nat) (token tenant : string)
         (tenantName : option string) (realData : option GraphResult),
    let scan := generateScan h t token tenant tenantName realData in
    let counts := sum_issueCountsBySeverity (sd_summary scan) in
    let categories := sum_issueCountsByCategory (sd_summary scan) in
    (cnt_High counts + cnt_Medium counts + cnt_Low counts
     = Z.of_nat (length (sd_issues scan)))%Z
    /\ totalOf categories = Z.of_nat (length (sd_issues scan))
    /\ List.NoDup (List.map fst categories).
Proof.
  intros h t token tenant tenantName realData scan counts categories.
  subst counts categories scan. unfold generateScan.
  cbn [sd_summary sd_issues sum_issueCountsBySeverity sum_issueCountsByCategory].
  unfold severityCountOf. cbn [cnt_High cnt_Medium cnt_Low].
  split; [apply countSeverity_total | apply categoryCountOf_spec].
Qed.

(** What the detectors add, one by one. *)

Lemma filed_one h (mk : Z -> SecurityIssue) prefix sev category s (b : bool) :
  (forall now, filedBy prefix sev category (mk now)) ->
  exists added,
    issues (if b then push h mk s else s) = (issues s ++ added)%list
    /\ (length added <= 1)%nat
    /\ Forall (filedBy prefix sev category) added.
Proof.
  intros Hmk. destruct b.
  - eexists. split; [apply push_issues|]. split; [cbn; lia|].
    constructor; [apply Hmk | constructor].
  - exists []. split; [now rewrite app_nil_r|]. split; [cbn; lia | constructor].
Qed.

Ltac filed_literal :=
  intros now; unfold filedBy; cbn [si_id si_severity si_affectedObject si_status
                                   si_isRealData multiple ao_type];
  repeat split; exists now; reflexivity.

Lemma detectRiskyUsers_filed h rd s :
  exists added,
    issues (detectRiskyUsers h rd s) = (issues s ++ added)%list
    /\ (length added <= 1)%nat
    /\ Forall (filedBy "risky_users_" High "User") added.
Proof. unfold detectRiskyUsers. apply filed_one. filed_literal. Qed.

Lemma detectUsersWithoutMFA_filed h rd s :
  exists added,
    issues (detectUsersWithoutMFA h rd s) = (issues s ++ added)%list
    /\ (length added <= 1)%nat
    /\ Forall (filedBy "mfa_disabled_" High "User") added.
Proof.
  unfold detectUsersWithoutMFA.
  destruct (lengthGt0 (mfaStatus rd)).
  - apply filed_one. filed_literal.
  - exists []. split; [now rewrite app_nil_r|]. split; [cbn; lia | constructor].
Qed.

Lemma detectInactiveUsers_filed h rd s :
  exists added,
    issues (detectInactiveUsers h rd s) = (issues s ++ added)%list
    /\ (length added <= 1)%nat
    /\ Forall (filedBy "inactive_users_" Medium "User") added.
Proof. unfold detectInactiveUsers. apply filed_one. filed_literal. Qed.

Lemma detectEmailForwarding_filed h tenantName rd s :
  exists added,
    issues (detectEmailForwarding h tenantName rd s) = (issues s ++ added)%list
    /\ (length added <= 1)%nat
    /\ Forall (filedBy "forwarding_rules_" Medium "Mailbox") added.
Proof.
  unfold detectEmailForwarding.
  destruct (lengthGt0 (emailForwarding rd)).
  - apply filed_one. filed_literal.
  - exists []. split; [now rewrite app_nil_r|]. split; [cbn; lia | constructor].
Qed.

Lemma detectGuestUsers_filed h rd s :
  exists added,
    issues (detectGuestUsers h rd s) = (issues s ++ added)%list
    /\ (length added <= 1)%nat
    /\ Forall (filedBy "guest_users_" Low "User") added.
Proof. unfold detectGuestUsers. apply filed_one. filed_literal. Qed.

Lemma fold_push_filed h (entries : list (string * list string)) s :
  exists added,
    issues (fold_left (fun st entry => push h (apiErrorIssue (fst entry) (snd entry)) st)
                      entries s)
    = (issues s ++ added)%list
    /\ Forall2 filedForGroup entries added.
Proof.
  revert s. induction entries as [|e entries IH]; intros s; cbn [fold_left].
  - exists []. split; [now rewrite app_nil_r | constructor].
  - destruct (IH (push h (apiErrorIssue (fst e) (snd e)) s)) as (added & Hi & Hk).
    exists (apiErrorIssue (fst e) (snd e) (clock h (tick s)) :: added). split.
    + rewrite Hi, push_issues, <- app_assoc. reflexivity.
    + constructor; [now exists (clock h (tick s)) | exact Hk].
Qed.

Lemma detectApiErrors_filed h rd s :
  exists added,
    issues (detectApiErrors h rd s) = (issues s ++ added)%list
    /\ Forall2 filedForGroup (errorsByType (gr_apiErrors rd)) added.
Proof.
  unfold detectApiErrors.
  destruct (gr_apiErrors rd) as [|e errs] eqn:E; cbn [length Nat.ltb Nat.leb].
  - exists []. split; [now rewrite app_nil_r | constructor].
  - apply fold_push_filed.
Qed.

(** The issue list of a run over collected data: at most one issue from each
    grouping detector and one per group of failed endpoints. *)
Lemma detectAll_filed h tenantName rd s0 :
  exists risky mfa inactive forwarding failures guests,
    issues (detectAll h tenantName (Some rd) s0)
    = (issues s0 ++ risky ++ mfa ++ inactive ++ forwarding ++ failures ++ guests)%list
    /\ ((length risky <= 1)%nat /\ Forall (filedBy "risky_users_" High "User") risky)
    /\ ((length mfa <= 1)%nat /\ Forall (filedBy "mfa_disabled_" High "User") mfa)
    /\ ((length inactive <= 1)%nat
        /\ Forall (filedBy "inactive_users_" Medium "User") inactive)
    /\ ((length forwarding <= 1)%nat
        /\ Forall (filedBy "forwarding_rules_" Medium "Mailbox") forwarding)
    /\ Forall2 filedForGroup (errorsByType (gr_apiErrors rd)) failures
    /\ ((length guests <= 1)%nat /\ Forall (filedBy "guest_users_" Low "User") guests).
Proof.
  cbn [detectAll].
  set (s1 := detectRiskyUsers h rd s0).
  set (s2 := detectUsersWithoutMFA h rd s1).
  set (s3 := detectInactiveUsers h rd s2).
  set (s4 := detectEmailForwarding h tenantName rd s3).
  set (s5 := detectApiErrors h rd s4).
  destruct (detectRiskyUsers_filed h rd s0) as (risky & E1 & K1).
  destruct (detectUsersWithoutMFA_filed h rd s1) as (mfa & E2 & K2).
  destruct (detectInactiveUsers_filed h rd s2) as (inactive & E3 & K3).
  destruct (detectEmailForwarding_filed h tenantName rd s3) as (forwarding & E4 & K4).
  destruct (detectApiErrors_filed h rd s4) as (failures & E5 & K5).
  destruct (detectGuestUsers_filed h rd s5) as (guests & E6 & K6).
  exists risky, mfa, inactive, forwarding, failures, guests.
  fold s1 s2 s3 s4 s5 in E1, E2, E3, E4, E5, E6.
  rewrite E6, E5, E4, E3, E2, E1, <- !app_assoc.
  repeat split; tauto.
Qed.

Lemma errorsByType_at_most_five apiErrors :
  (length (errorsByType apiErrors) <= 5)%nat.
Proof.
  destruct (errorsByType_spec apiErrors) as (Hnd & _ & _).
  pose proof (errorsByType_keys apiErrors) as Hk.
  rewrite <- (List.length_map fst).
  change 5%nat with (length errorTypes).
  apply List.NoDup_incl_length; [exact Hnd|].
  intros k Hin. apply List.in_map_iff in Hin as (entry & <- & Hentry).
  rewrite List.Forall_forall in Hk. now apply Hk.
Qed.

Lemma filedBy_countSeverity prefix sev category sev' l :
  Forall (filedBy prefix sev category) l ->
  countSeverity sev' l = if Severity_eqb sev sev' then Z.of_nat (length l) else 0%Z.
Proof.
  induction 1 as [|i l (_ & Hs & _) _ IH]; [now destruct (Severity_eqb sev sev')|].
  rewrite countSeverity_cons, IH, Hs. cbn [length].
  destruct (Severity_eqb sev sev'); lia.
Qed.

Lemma filedForGroup_countSeverity sev entries l :
  Forall2 filedForGroup entries l ->
  countSeverity sev l = if Severity_eqb Medium sev then Z.of_nat (length l) else 0%Z.
Proof.
  induction 1 as [|e i entries l [now ->] _ IH]; [now destruct (Severity_eqb Medium sev)|].
  rewrite countSeverity_cons, IH. cbn [length apiErrorIssue si_severity].
  destruct (Severity_eqb Medium sev); lia.
Qed.

(** X2. A scan holds at most ten issues: at most two of severity High,
    seven of severity Medium and one of severity Low. Its overall risk score
    is therefore never below 18. *)
Theorem generateScan_at_most_ten_issues :
  forall (h : Host) (t : nat) (token tenant : string)
         (tenantName : option string) (realData : option GraphResult),
    let scan := generateScan h t token tenant tenantName realData in
    (length (sd_issues scan) <= 10)%nat
    /\ (countSeverity High (sd_issues scan) <= 2)%Z
    /\ (countSeverity Medium (sd_issues scan) <= 7)%Z
    /\ (countSeverity Low (sd_issues scan) <= 1)%Z
    /\ (18 <= sum_overallRiskScore (sd_summary scan) <= 100)%Z.
Proof.
  intros h t token tenant tenantName realData scan.
  assert ((length (sd_issues scan) <= 10)%nat
          /\ (countSeverity High (sd_issues scan) <= 2)%Z
          /\ (countSeverity Medium (sd_issues scan) <= 7)%Z
          /\ (countSeverity Low (sd_issues scan) <= 1)%Z) as (Hn & Hh & Hm & Hl).
  { subst scan. unfold generateScan. cbn [sd_issues].
    destruct realData as [rd|];
      [|cbn [detectAll issues]; unfold countSeverity; cbn; repeat split; lia].
    destruct (detectAll_filed h tenantName rd {| tick := S t; issues := [] |})
      as (risky & mfa & inactive & forwarding & failures & guests
          & E & (Lr & Kr) & (Lm & Km) & (Li & Ki) & (Lf & Kf) & Ka & (Lg & Kg)).
    rewrite E. cbn [issues app].
    pose proof (errorsByType_at_most_five (gr_apiErrors rd)) as L5.
    rewrite (Forall2_length _ _ _ Ka) in L5.
    rewrite !countSeverity_app, !List.length_app.
    rewrite !(filedBy_countSeverity _ _ _ _ _ Kr), !(filedBy_countSeverity _ _ _ _ _ Km),
      !(filedBy_countSeverity _ _ _ _ _ Ki), !(filedBy_countSeverity _ _ _ _ _ Kf),
      !(filedBy_countSeverity _ _ _ _ _ Kg), !(filedForGroup_countSeverity _ _ _ Ka).
    cbn [Severity_eqb]. repeat split; lia. }
  repeat split; try assumption.
  - subst scan. unfold generateScan in *. cbn [sd_summary sum_overallRiskScore sd_issues] in *.
    rewrite riskScore_clamp; unfold severityCountOf; cbn [cnt_High cnt_Medium cnt_Low];
      auto using countSeverity_nonneg.
    pose proof (countSeverity_nonneg High (issues
      (detectAll h tenantName realData {| tick := S t; issues := [] |}))).
    pose proof (countSeverity_nonneg Medium (issues
      (detectAll h tenantName realData {| tick := S t; issues := [] |}))).
    pose proof (countSeverity_nonneg Low (issues
      (detectAll h tenantName realData {| tick := S t; issues := [] |}))).
    unfold clamp. lia.
  - subst scan. unfold generateScan in *. cbn [sd_summary sum_overallRiskScore sd_issues] in *.
    rewrite riskScore_clamp; unfold severityCountOf; cbn [cnt_High cnt_Medium cnt_Low];
      auto using countSeverity_nonneg.
    unfold clamp. lia.
Qed.

(** Issue ids. *)

Lemma filedBy_idHead c prefix sev category i :
  filedBy (String c prefix) sev category i -> idHead i = Some c.
Proof. intros ([now E] & _). unfold idHead. now rewrite E. Qed.

Lemma filedForGroup_idHead entry i : filedForGroup entry i -> idHead i = Some "a"%char.
Proof. intros [now ->]. reflexivity. Qed.

(** The character after "api_error_" is the initial of the error type. *)
Lemma apiErrorIssue_id_initial t e n :
  In t errorTypes ->
  String.get 10 (si_id (apiErrorIssue t e n)) = String.get 0 (toLowerCase t).
Proof.
  unfold apiErrorIssue. cbn [si_id].
  generalize (numberToString 10 n) as digits. intros digits.
  unfold errorTypes. cbn [In]. intros H.
  repeat destruct H as [<-|H]; try contradiction; vm_compute; reflexivity.
Qed.

Lemma errorType_initial_injective t1 t2 :
  In t1 errorTypes -> In t2 errorTypes ->
  String.get 0 (toLowerCase t1) = String.get 0 (toLowerCase t2) -> t1 = t2.
Proof.
  unfold errorTypes. cbn [In]. intros H1 H2.
  repeat destruct H1 as [<-|H1]; try contradiction;
    repeat destruct H2 as [<-|H2]; try contradiction;
    try reflexivity; vm_compute; discriminate.
Qed.

Lemma apiErrorIssue_id_injective t1 e1 n1 t2 e2 n2 :
  In t1 errorTypes -> In t2 errorTypes ->
  si_id (apiErrorIssue t1 e1 n1) = si_id (apiErrorIssue t2 e2 n2) -> t1 = t2.
Proof.
  intros H1 H2 E. apply (f_equal (String.get 10)) in E.
  rewrite !apiErrorIssue_id_initial in E by assumption.
  now apply errorType_initial_injective.
Qed.

Lemma Forall2_In_r {A B} (R : A -> B -> Prop) l1 l2 b :
  Forall2 R l1 l2 -> In b l2 -> exists a, In a l1 /\ R a b.
Proof.
  induction 1 as [|x y l1 l2 Hxy _ IH]; intros Hin; [contradiction|].
  destruct Hin as [<-|Hin].
  - exists x. split; [now left | exact Hxy].
  - destruct (IH Hin) as (a & Ha & Hr). exists a. split; [now right | exact Hr].
Qed.

Lemma failures_ids_distinct entries failures :
  Forall2 filedForGroup entries failures ->
  Forall (fun entry => In (fst entry) errorTypes) entries ->
  List.NoDup (List.map fst entries) ->
  List.NoDup (List.map si_id failures).
Proof.
  induction 1 as [|e i entries l [now ->] Hl IH]; intros Hk Hnd; cbn [List.map];
    [constructor|].
  inversion Hk as [|? ? He Hk']; subst. inversion Hnd as [|? ? Hnotin Hnd']; subst.
  constructor; [|now apply IH].
  intros Hin. apply List.in_map_iff in Hin as (i' & Hid & Hi'). apply Hnotin.
  destruct (Forall2_In_r _ _ _ _ Hl Hi') as (e' & He' & [now' ->]).
  rewrite List.Forall_forall in Hk'.
  apply apiErrorIssue_id_injective in Hid; [|now apply Hk' | exact He].
  rewrite <- Hid. now apply List.in_map.
Qed.

Lemma ids_distinct_short (l : list SecurityIssue) :
  (length l <= 1)%nat -> List.NoDup (List.map si_id l).
Proof.
  destruct l as [|i [|j l]]; cbn; intros H; [constructor| |lia].
  constructor; [intros [] | constructor].
Qed.

Lemma ids_distinct_app c (l1 l2 : list SecurityIssue) :
  Forall (fun i => idHead i = Some c) l1 ->
  Forall (fun i => idHead i <> Some c) l2 ->
  List.NoDup (List.map si_id l1) -> List.NoDup (List.map si_id l2) ->
  List.NoDup (List.map si_id (l1 ++ l2)).
Proof.
  intros H1 H2 N1 N2. induction H1 as [|i l1 Hi H1 IH]; cbn [app List.map]; [exact N2|].
  cbn [List.map] in N1. inversion N1 as [|? ? Hnotin N1']; subst.
  constructor; [|now apply IH].
  rewrite List.map_app, List.in_app_iff. intros [Hin|Hin]; [now apply Hnotin|].
  apply List.in_map_iff in Hin as (j & Hid & Hj).
  rewrite List.Forall_forall in H2. apply (H2 j Hj).
  unfold idHead in *. now rewrite Hid.
Qed.

Lemma idHead_other c c' (l : list SecurityIssue) :
  c' <> c ->
  Forall (fun i => idHead i = Some c') l -> Forall (fun i => idHead i <> Some c) l.
Proof.
  intros Hne. apply List.Forall_impl. intros i -> [= E]. now apply Hne.
Qed.

(** X3. No two issues of a generated scan share an id, whatever the clock
    reads: the ids differ already in their detector prefix, or the error
    type that follows "api_error_". *)
Theorem generateScan_issue_ids_distinct :
  forall (h : Host) (t : nat) (token tenant : string)
         (tenantName : option string) (realData : option GraphResult),
    List.NoDup (List.map si_id (sd_issues (generateScan h t token tenant tenantName realData))).
Proof.
  intros h t token tenant tenantName realData. unfold generateScan. cbn [sd_issues].
  destruct realData as [rd|]; [|constructor].
  destruct (detectAll_filed h tenantName rd {| tick := S t; issues := [] |})
    as (risky & mfa & inactive & forwarding & failures & guests
        & E & (Lr & Kr) & (Lm & Km) & (Li & Ki) & (Lf & Kf) & Ka & (Lg & Kg)).
  rewrite E. cbn [issues app].
  assert (Forall (fun i => idHead i = Some "r"%char) risky) as Hr
    by (eapply List.Forall_impl; [|exact Kr]; apply filedBy_idHead).
  assert (Forall (fun i => idHead i = Some "m"%char) mfa) as Hm
    by (eapply List.Forall_impl; [|exact Km]; apply filedBy_idHead).
  assert (Forall (fun i => idHead i = Some "i"%char) inactive) as Hi
    by (eapply List.Forall_impl; [|exact Ki]; apply filedBy_idHead).
  assert (Forall (fun i => idHead i = Some "f"%char) forwarding) as Hf
    by (eapply List.Forall_impl; [|exact Kf]; apply filedBy_idHead).
  assert (Forall (fun i => idHead i = Some "g"%char) guests) as Hg
    by (eapply List.Forall_impl; [|exact Kg]; apply filedBy_idHead).
  assert (Forall (fun i => idHead i = Some "a"%char) failures) as Ha.
  { apply List.Forall_forall. intros i Hin.
    destruct (Forall2_In_r _ _ _ _ Ka Hin) as (e & _ & He).
    now apply (filedForGroup_idHead e). }
  assert (List.NoDup (List.map si_id failures)) as Na.
  { apply (failures_ids_distinct _ _ Ka); [apply errorsByType_keys|].
    apply errorsByType_spec. }
  assert (forall c l, (length l <= 1)%nat -> Forall (fun i => idHead i = Some c) l ->
            forall rest, Forall (fun i => idHead i <> Some c) rest ->
            List.NoDup (List.map si_id rest) ->
            List.NoDup (List.map si_id (l ++ rest))) as one.
  { intros c l Hl Hc rest Hrest Nrest.
    apply (ids_distinct_app c); auto using ids_distinct_short. }
  apply (one "r"%char); [assumption.. | |].
  { rewrite !List.Forall_app.
    repeat split; (eapply idHead_other; [|eassumption]; discriminate). }
  apply (one "m"%char); [assumption.. | |].
  { rewrite !List.Forall_app.
    repeat split; (eapply idHead_other; [|eassumption]; discriminate). }
  apply (one "i"%char); [assumption.. | |].
  { rewrite !List.Forall_app.
    repeat split; (eapply idHead_other; [|eassumption]; discriminate). }
  apply (one "f"%char); [assumption.. | |].
  { rewrite !List.Forall_app.
    repeat split; (eapply idHead_other; [|eassumption]; discriminate). }
  apply (ids_distinct_app "a"%char); [assumption | | assumption |].
  { eapply idHead_other; [|eassumption]. discriminate. }
  now apply ids_distinct_short.
Qed.

(** Failed endpoints in the issue list. *)

Lemma accPush_endpoints errorType error acc :
  Permutation (List.concat (List.map snd (accPush errorType error acc)))
              (error :: List.concat (List.map snd acc)).
Proof.
  induction acc as [|[k eps] acc IH]; cbn [accPush List.map snd List.concat].
  - reflexivity.
  - destruct (String.eqb errorType k); cbn [List.map snd List.concat].
    + rewrite <- app_assoc. cbn [app]. symmetry. apply Permutation_middle.
    + rewrite IH. symmetry. apply Permutation_middle.
Qed.

Lemma errorsByType_endpoints apiErrors :
  Permutation (List.concat (List.map snd (errorsByType apiErrors))) apiErrors.
Proof.
  unfold errorsByType.
  assert (forall acc,
            Permutation
              (List.concat (List.map snd
                 (fold_left (fun acc error => accPush (errorTypeOf error) error acc)
                            apiErrors acc)))
              (List.concat (List.map snd acc) ++ apiErrors)%list) as H.
  { induction apiErrors as [|e errs IH]; intros acc; cbn [fold_left].
    - now rewrite app_nil_r.
    - rewrite IH, accPush_endpoints. cbn [app]. apply Permutation_middle. }
  apply (H []).
Qed.

Lemma filedBy_not_failure prefix sev category l :
  Forall (filedBy prefix sev category) l ->
  String.eqb category "Policy" = false ->
  List.filter isFailureIssue l = [].
Proof.
  intros Hl Hc. apply filter_nothing.
  eapply List.Forall_impl; [|exact Hl]. cbn beta.
  intros i (_ & _ & Hcat & _). unfold isFailureIssue. now rewrite Hcat.
Qed.

Lemma filedForGroup_failures entries l :
  Forall2 filedForGroup entries l ->
  List.filter isFailureIssue l = l
  /\ List.map (fun i => elements (si_affectedItems i)) l = List.map snd entries.
Proof.
  induction 1 as [|e i entries l [now ->] _ [IHf IHm]]; [split; reflexivity|].
  cbn [List.filter List.map]. unfold isFailureIssue at 1.
  cbn [apiErrorIssue si_affectedObject multiple ao_type si_affectedItems elements].
  cbn [String.eqb Ascii.eqb Bool.eqb andb]. now rewrite IHf, IHm.
Qed.

(** X4. The issues raised for failed endpoints (those on a "Policy" object)
    list, between them, exactly the failed endpoints the collector recorded:
    none is lost and none is listed more often than it was recorded. *)
Theorem generateScan_failed_endpoints_all_listed :
  forall (h : Host) (t : nat) (token tenant : string)
         (tenantName : option string) (realData : GraphResult),
    let scan := generateScan h t token tenant tenantName (Some realData) in
    Permutation
      (List.concat (List.map (fun i => elements (si_affectedItems i))
                             (List.filter isFailureIssue (sd_issues scan))))
      (gr_apiErrors realData).
Proof.
  intros h t token tenant tenantName rd scan. subst scan.
  unfold generateScan. cbn [sd_issues].
  destruct (detectAll_filed h tenantName rd {| tick := S t; issues := [] |})
    as (risky & mfa & inactive & forwarding & failures & guests
        & E & (_ & Kr) & (_ & Km) & (_ & Ki) & (_ & Kf) & Ka & (_ & Kg)).
  rewrite E. cbn [issues app]. rewrite !List.filter_app.
  rewrite (filedBy_not_failure _ _ _ risky Kr eq_refl),
          (filedBy_not_failure _ _ _ mfa Km eq_refl),
          (filedBy_not_failure _ _ _ inactive Ki eq_refl),
          (filedBy_not_failure _ _ _ forwarding Kf eq_refl),
          (filedBy_not_failure _ _ _ guests Kg eq_refl).
  destruct (filedForGroup_failures _ _ Ka) as [-> Hm].
  cbn [app]. rewrite app_nil_r, Hm. apply errorsByType_endpoints.
Qed.

(** ** The score shown on the result page *)

Lemma generateScan_all_open h t token tenant tenantName realData :
  Forall (fun i => si_status i = Some "Open")
         (sd_issues (generateScan h t token tenant tenantName realData)).
Proof.
  unfold generateScan. cbn [sd_issues].
  destruct realData as [rd|]; [|constructor].
  destruct (detectAll_filed h tenantName rd {| tick := S t; issues := [] |})
    as (risky & mfa & inactive & forwarding & failures & guests
        & E & (_ & Kr) & (_ & Km) & (_ & Ki) & (_ & Kf) & Ka & (_ & Kg)).
  rewrite E. cbn [issues app].
  assert (forall prefix sev category l,
            Forall (filedBy prefix sev category) l ->
            Forall (fun i => si_status i = Some "Open") l) as Hopen.
  { intros prefix sev category l. apply List.Forall_impl. unfold filedBy. tauto. }
  rewrite !List.Forall_app. repeat split; eauto.
  apply List.Forall_forall. intros i Hin.
  destruct (Forall2_In_r _ _ _ _ Ka Hin) as (e & _ & [now ->]). reflexivity.
Qed.

Lemma openWith_count (f : SecurityIssue -> IssueView) sev l :
  (forall i, iv_severity (f i) = JStr (Severity_toString (si_severity i))) ->
  Forall (fun i => iv_status (f i) = JStr "Open") l ->
  Z.of_nat (length (List.filter (openWith (Severity_toString sev)) (List.map f l)))
  = countSeverity sev l.
Proof.
  intros Hsev Hl. unfold countSeverity. f_equal.
  induction Hl as [|i l Hi _ IH]; cbn [List.map List.filter]; [reflexivity|].
  unfold openWith at 1. rewrite Hsev, Hi, strictEqStr_severity.
  cbn [strictEqStr String.eqb Ascii.eqb Bool.eqb negb]. rewrite andb_true_r.
  destruct (Severity_eqb (si_severity i) sev); cbn [length]; now rewrite IH.
Qed.

Lemma calculateSecurityScore_open (f : SecurityIssue -> IssueView) view l :
  sv_issues view = List.map f l ->
  (forall i, iv_severity (f i) = JStr (Severity_toString (si_severity i))) ->
  Forall (fun i => iv_status (f i) = JStr "Open") l ->
  calculateSecurityScore (Some view) = riskScore (severityCountOf l).
Proof.
  intros Hv Hsev Hl. unfold calculateSecurityScore, riskScore, severityCountOf.
  cbn [cnt_High cnt_Medium cnt_Low]. rewrite Hv.
  change "High" with (Severity_toString High).
  change "Medium" with (Severity_toString Medium).
  change "Low" with (Severity_toString Low).
  now rewrite !(openWith_count f _ l Hsev Hl).
Qed.

(** X5. For a scan as it was generated, the score shown on the result page
    (computed from the issues that are not fixed) equals the overall risk
    score of the summary, and no issue counts as fixed; this holds for the
    scan read from memory and for the one read back from its stored
    snapshot. *)
Theorem fresh_scan_page_score :
  forall (h : Host) (t : nat) (token tenant : string)
         (tenantName : option string) (realData : option GraphResult),
    let scan := generateScan h t token tenant tenantName realData in
    let current := viewOfCurrent h scan in
    (calculateSecurityScore (Some current) = sum_overallRiskScore (sd_summary scan)
     /\ sv_issuesFixed current = 0%Z)
    /\ exists reloaded,
         viewOfParsed h (jsonRoundTrip (ScanData_toJS scan)) = Ok reloaded
         /\ calculateSecurityScore (Some reloaded) = sum_overallRiskScore (sd_summary scan)
         /\ sv_issuesFixed reloaded = 0%Z.
Proof.
  intros h t token tenant tenantName realData scan current.
  pose proof (generateScan_all_open h t token tenant tenantName realData) as Hopen.
  fold scan in Hopen.
  assert (sum_overallRiskScore (sd_summary scan) = riskScore (severityCountOf (sd_issues scan)))
    as -> by reflexivity.
  assert (Z.of_nat (length (List.filter (fun i => isFixedStatus (si_status i))
                                        (sd_issues scan))) = 0%Z) as Hfixed.
  { rewrite filter_nothing; [reflexivity|].
    eapply List.Forall_impl; [|exact Hopen]. cbn beta. now intros i ->. }
  assert (forall f : SecurityIssue -> IssueView,
            (forall i, iv_status (f i) = JStr (orDefault (si_status i) "Open")) ->
            Forall (fun i => iv_status (f i) = JStr "Open") (sd_issues scan)) as Hstatus.
  { intros f Hf. eapply List.Forall_impl; [|exact Hopen]. cbn beta.
    intros i Hi. now rewrite Hf, Hi. }
  split.
  - split; [|exact Hfixed].
    apply (calculateSecurityScore_open issueViewOfCurrent); auto.
  - exists (storedScanView h scan). split; [apply viewOfParsed_stored|].
    split; [|exact Hfixed].
    apply (calculateSecurityScore_open storedIssueView); auto.
Qed.

(** ** What the collector records *)

Lemma checkIndices_spec responses endpoint indices acc errs :
  checkIndices responses endpoint indices acc = Ok errs ->
  errs = (acc ++ recordedFor responses (endpoint, indices))%list.
Proof.
  unfold recordedFor. cbn [fst snd].
  revert acc. induction indices as [|index rest IH]; intros acc H; cbn in H.
  - injection H as <-. cbn. now rewrite app_nil_r.
  - unfold responseAt in H. cbn [List.filter]. unfold failedAt at 1.
    destruct (nth_error responses index) as [r|]; cbn [bind] in H; [|discriminate].
    rewrite (IH _ H). destruct (negb (success r)); cbn [List.map]; [|reflexivity].
    now rewrite <- app_assoc.
Qed.

Lemma checkEndpoints_spec responses entries acc errs :
  checkEndpoints responses entries acc = Ok errs ->
  errs = (acc ++ flat_map (recordedFor responses) entries)%list.
Proof.
  revert acc. induction entries as [|[endpoint indices] rest IH]; intros acc H; cbn in H.
  - injection H as <-. cbn. now rewrite app_nil_r.
  - apply bind_Ok in H as (acc' & E & H). apply checkIndices_spec in E as ->.
    rewrite (IH _ H). cbn [flat_map]. now rewrite <- app_assoc.
Qed.

Lemma length_flat_map_recordedFor responses entries :
  length (flat_map (recordedFor responses) entries)
  = length (List.filter (failedAt responses) (List.concat (List.map snd entries))).
Proof.
  induction entries as [|e entries IH]; cbn [flat_map List.map List.concat]; [reflexivity|].
  rewrite List.length_app, List.filter_app, List.length_app, IH.
  unfold recordedFor. now rewrite List.length_map.
Qed.

(** X6. When the collector's [try] block completes, apiErrors holds, for the
    entries of the endpoint map in their order, the endpoint name once for
    each listed position whose response failed, and nothing else; so it has
    as many entries as there are failed responses at the listed positions. *)
Theorem collector_records_listed_failures :
  forall (responses : list GraphApiResponse) (bag : GraphResult),
    collect responses = Ok bag ->
    gr_apiErrors bag = flat_map (recordedFor responses) endpointMap
    /\ length (gr_apiErrors bag)
       = length (List.filter (failedAt responses)
                             (List.concat (List.map snd endpointMap))).
Proof.
  intros responses bag H. unfold collect in H.
  apply bind_Ok in H as (errs & E & H).
  apply checkEndpoints_spec in E. cbn [app] in E.
  repeat (apply bind_Ok in H as (? & _ & H)).
  injection H as <-. cbn [gr_apiErrors].
  split; [exact E|]. rewrite E. apply length_flat_map_recordedFor.
Qed.

Lemma collector_records_listed_failures_witness :
  collect sampleResponses = Ok (fetchMicrosoftGraphData sampleResponses)
  /\ gr_apiErrors (fetchMicrosoftGraphData sampleResponses)
     = flat_map (recordedFor sampleResponses) endpointMap
  /\ length (gr_apiErrors (fetchMicrosoftGraphData sampleResponses))
     = length (List.filter (failedAt sampleResponses)
                           (List.concat (List.map snd endpointMap))).
Proof.
  assert (collect sampleResponses = Ok (fetchMicrosoftGraphData sampleResponses)) as H
    by (vm_compute; reflexivity).
  split; [exact H|]. exact (collector_records_listed_failures _ _ H).
Defined.

Lemma responseAt_nth responses index r :
  nth_error responses index = Some r -> responseAt responses index = Ok r.
Proof. intros H. unfold responseAt. now rewrite H. Qed.

Lemma valueOrEmpty_null_body r :
  success r = true -> data r = None ->
  valueOrEmpty r = Throw "TypeError: Cannot read properties of undefined (reading 'value')".
Proof. intros Hs Hd. unfold valueOrEmpty, valueOf. now rewrite Hs, Hd. Qed.

Lemma firstOrNull_null_body r :
  success r = true -> data r = None ->
  firstOrNull r = Throw "TypeError: Cannot read properties of undefined (reading '0')".
Proof. intros Hs Hd. unfold firstOrNull. now rewrite Hs, Hd. Qed.

(** X7. One response that reports success without a body (a 2xx answer
    whose JSON is [null]), at any position read as [data.value], makes the
    whole collection fail: the collector returns its failure object, with
    success false, no recorded endpoint errors and no dataset. *)
Theorem collector_null_body_discards_everything :
  forall (responses : list GraphApiResponse) (index : nat) (r : GraphApiResponse),
    In index valuePositions ->
    nth_error responses index = Some r ->
    success r = true -> data r = None ->
    exists msg, fetchMicrosoftGraphData responses = collectFailed msg.
Proof.
  intros responses index r Hin Hnth Hs Hd. unfold fetchMicrosoftGraphData.
  destruct (collect responses) as [bag|msg] eqn:H; [|now exists msg].
  exfalso. unfold collect in H.
  apply bind_Ok in H as (errs & _ & H).
  repeat (apply bind_Ok in H as (? & ? & H)). clear H.
  pose proof (valueOrEmpty_null_body r Hs Hd) as Hv.
  pose proof (firstOrNull_null_body r Hs Hd) as Hf.
  apply responseAt_nth in Hnth.
  unfold valuePositions in Hin. cbn [In] in Hin.
  repeat destruct Hin as [<-|Hin]; try contradiction;
    match goal with
    | E : responseAt responses _ = Ok ?x |- _ =>
        rewrite Hnth in E; injection E as <-
    end;
    match goal with
    | V : valueOrEmpty r = Ok _ |- _ => rewrite Hv in V; discriminate V
    | V : firstOrNull r = Ok _ |- _ => rewrite Hf in V; discriminate V
    end.
Qed.

Lemma collector_null_body_discards_everything_witness :
  exists msg,
    fetchMicrosoftGraphData (succeeded None :: List.repeat (collection []) 28)
    = collectFailed msg.
Proof.
  apply (collector_null_body_discards_everything
           (succeeded None :: List.repeat (collection []) 28) 0 (succeeded None));
    [now left | reflexivity | reflexivity | reflexivity].
Defined.

(** ** A collection that failed as a whole *)

Lemma collect_success responses bag :
  collect responses = Ok bag -> gr_success bag = existsb success responses.
Proof.
  unfold collect. intros H. repeat (apply bind_Ok in H as (? & _ & H)).
  now injection H as <-.
Qed.

Lemma fetchMicrosoftGraphData_all_failed responses :
  Forall (fun r => success r = false) responses ->
  gr_success (fetchMicrosoftGraphData responses) = false.
Proof.
  intros Hall. unfold fetchMicrosoftGraphData.
  destruct (collect responses) as [bag|msg] eqn:H; [|reflexivity].
  rewrite (collect_success _ _ H). clear H.
  induction Hall as [|r l Hr _ IH]; cbn [existsb]; [reflexivity|].
  rewrite Hr. exact IH.
Qed.

(** X8. When the collection fails as a whole (no call succeeded, or the
    collector's [try] block raised), an authenticated [startScan] still
    completes and returns a scan id; the scan it stores has no issue, no
    recorded endpoint error, zero scanned objects and the overall risk score
    100, and is flagged as using real data. *)
Theorem startScan_failed_collection_looks_clean :
  forall (h : Host) (t : nat) (s : AppState) (responses : list GraphApiResponse)
         (token tenant : string),
    accessToken s = Some token -> tenantId s = Some tenant ->
    token <> "" -> tenant <> "" ->
    gr_success (fetchMicrosoftGraphData responses) = false ->
    exists s' scan,
      startScan h t s responses = (s', Some (sum_id (sd_summary scan)))
      /\ currentScan s' = Some scan
      /\ localStorage s' !! ("scan_" +:+ sum_id (sd_summary scan))
         = Some (jsonRoundTrip (ScanData_toJS scan))
      /\ sd_issues scan = []
      /\ sd_apiErrors scan = []
      /\ sum_overallRiskScore (sd_summary scan) = 100%Z
      /\ sum_totalAccountsScanned (sd_summary scan) = 0%Z
      /\ sd_usesRealData scan = true.
Proof.
  intros h t s responses token tenant Ha Hn Ha' Hn' Hfail.
  destruct (startScan_completes h t s responses token tenant Ha Hn Ha' Hn')
    as (s' & Hrun & _ & Hcur & _ & Hscan & _).
  exists s', (pipelineScan h t token tenant responses).
  split; [exact Hrun|]. split; [exact Hcur|]. split; [exact Hscan|].
  unfold pipelineScan. rewrite Hfail. repeat split; reflexivity.
Qed.

Lemma startScan_failed_collection_looks_clean_witness :
  exists s' scan,
    startScan sampleHost 0 signedIn refusedResponses = (s', Some (sum_id (sd_summary scan)))
    /\ currentScan s' = Some scan
    /\ localStorage s' !! ("scan_" +:+ sum_id (sd_summary scan))
       = Some (jsonRoundTrip (ScanData_toJS scan))
    /\ sd_issues scan = []
    /\ sd_apiErrors scan = []
    /\ sum_overallRiskScore (sd_summary scan) = 100%Z
    /\ sum_totalAccountsScanned (sd_summary scan) = 0%Z
    /\ sd_usesRealData scan = true.
Proof.
  apply (startScan_failed_collection_looks_clean
           sampleHost 0%nat signedIn refusedResponses "token" "tenant-1");
    [reflexivity | reflexivity | discriminate | discriminate |].
  apply fetchMicrosoftGraphData_all_failed. unfold refusedResponses.
  repeat constructor.
Defined.

(** ** What a scan leaves alone *)

(** X9. [startScan] writes at most two entries of the browser storage: the
    snapshot under the key of the new scan id and the history of the signed-in
    tenant. Every other entry (other tenants' histories, older snapshots,
    sign-in data) is left as it was. Without a token or tenant the call
    changes nothing at all and returns null. *)
Theorem startScan_writes_two_keys :
  forall (h : Host) (t : nat) (s : AppState) (responses : list GraphApiResponse),
    let s' := fst (startScan h t s responses) in
    (forall key,
       key <> "scan_scan_" +:+ numberToString 36 (clock h t) ->
       (forall tenant, tenantId s = Some tenant -> key <> "scanHistory_" +:+ tenant) ->
       localStorage s' !! key = localStorage s !! key)
    /\ (missing (accessToken s) || missing (tenantId s) = true ->
        startScan h t s responses = (s, None)).
Proof.
  intros h t s responses s'. subst s'. split.
  - intros key Hscan Hhist. unfold startScan.
    destruct (accessToken s) as [token|]; [|reflexivity].
    destruct (tenantId s) as [tenant|]; [|reflexivity].
    destruct (String.eqb token "" || String.eqb tenant ""); [reflexivity|].
    specialize (Hhist tenant eq_refl).
    set (scanData := generateScan _ _ _ _ _ _).
    assert (localStorage s !! key
            = setItem ("scan_" +:+ sum_id (sd_summary scanData)) (ScanData_toJS scanData)
                (setItem ("scanHistory_" +:+ tenant)
                   (JArr (List.map ScanSummary_toJS
                            (firstn 10 (sd_summary scanData :: scanHistory s))))
                   (localStorage s)) !! key) as E.
    { unfold setItem. rewrite !lookup_insert_ne; [reflexivity | |].
      - intros E. now apply Hhist.
      - intros E. apply Hscan. now rewrite <- E. }
    destruct (convertToLatestScanData _ _); cbn [fst localStorage]; now rewrite E.
  - unfold startScan, missing.
    destruct (accessToken s) as [token|]; [|reflexivity].
    destruct (tenantId s) as [tenant|]; [|reflexivity].
    intros ->. reflexivity.
Qed.

(** A storage that holds a token, another tenant's history and an older
    snapshot: all three entries are still there after a scan, beside the two
    new ones; signed out, the scan changes nothing. *)
Lemma startScan_writes_two_keys_witness :
  let s' := fst (startScan sampleHost 0 signedInWithData sampleResponses) in
  localStorage s' !! "accessToken" = Some (JStr "token")
  /\ localStorage s' !! "scanHistory_tenant-2"
     = Some (JArr [JObj [("id", JStr "scan_m2q0aaaa")]])
  /\ localStorage s' !! "scan_scan_m2q0aaaa" = Some (JObj [("issues", JArr [])])
  /\ localStorage s' !! "scan_scan_m2r1bz7k" <> None
  /\ localStorage s' !! "scanHistory_tenant-1" <> None
  /\ startScan sampleHost 0 (logout signedInWithData) sampleResponses
     = (logout signedInWithData, None).
Proof.
  intros s'.
  destruct (startScan_writes_two_keys sampleHost 0%nat signedInWithData sampleResponses)
    as [Hframe _].
  destruct (startScan_writes_two_keys sampleHost 0%nat (logout signedInWithData)
                                      sampleResponses) as [_ Hnone].
  fold s' in Hframe.
  split; [|split; [|split; [|split; [|split]]]].
  - rewrite Hframe; [reflexivity | vm_compute; discriminate |].
    intros tenant [= <-]. discriminate.
  - rewrite Hframe; [reflexivity | vm_compute; discriminate |].
    intros tenant [= <-]. discriminate.
  - rewrite Hframe; [reflexivity | vm_compute; discriminate |].
    intros tenant [= <-]. discriminate.
  - vm_compute. discriminate.
  - vm_compute. discriminate.
  - apply Hnone. reflexivity.
Defined.

(** ** Dashboard cards *)

Lemma chargeFirstMatch_sane category issueType impactScore ms ms' :
  chargeFirstMatch category issueType impactScore ms = Ok ms' ->
  (0 <= impactScore)%Z -> saneMappings ms ->
  List.map cm_key ms' = List.map cm_key ms
  /\ saneMappings ms'
  /\ (chargedIssues ms <= chargedIssues ms' <= chargedIssues ms + 1)%Z.
Proof.
  intros H Himp. revert ms' H.
  induction ms as [|m ms IH]; intros ms' H Hs; cbn [chargeFirstMatch] in H.
  - injection H as <-. repeat split; [constructor | lia | lia].
  - inversion Hs as [|? ? (Hscore & Hcount) Hs']; subst.
    apply bind_Ok in H as (hit & _ & H). destruct hit.
    + injection H as <-. unfold chargedIssues, saneMappings.
      cbn [List.map cm_key cm_issues cm_score fold_right].
      repeat split; [|lia|lia]. constructor; [|exact Hs'].
      cbn [cm_score cm_issues]. lia.
    + apply bind_Ok in H as (rest' & Hrest & H). injection H as <-.
      destruct (IH rest' Hrest Hs') as (Hk & Hsane & Hc).
      unfold chargedIssues in *. cbn [List.map fold_right].
      repeat split; [now rewrite Hk | now constructor | lia | lia].
Qed.

Lemma chargeIssue_sane ms issue ms' :
  chargeIssue ms issue = Ok ms' -> saneMappings ms ->
  List.map cm_key ms' = List.map cm_key ms
  /\ saneMappings ms'
  /\ (chargedIssues ms <= chargedIssues ms' <= chargedIssues ms + 1)%Z.
Proof.
  unfold chargeIssue. intros H Hs.
  repeat (apply bind_Ok in H as (? & _ & H)).
  apply (chargeFirstMatch_sane _ _ _ _ _ H); [|exact Hs].
  repeat match goal with |- context [if ?b then _ else _] => destruct b end; lia.
Qed.

Lemma foldM_chargeIssue_sane issues ms ms' :
  foldM chargeIssue issues ms = Ok ms' -> saneMappings ms ->
  List.map cm_key ms' = List.map cm_key ms
  /\ saneMappings ms'
  /\ (chargedIssues ms <= chargedIssues ms'
      <= chargedIssues ms + Z.of_nat (length issues))%Z.
Proof.
  revert ms. induction issues as [|issue issues IH]; intros ms H Hs; cbn [foldM] in H.
  - injection H as <-. repeat split; [exact Hs | lia | cbn; lia].
  - apply bind_Ok in H as (ms1 & H1 & H).
    destruct (chargeIssue_sane _ _ _ H1 Hs) as (K1 & S1 & C1).
    destruct (IH _ H S1) as (K2 & S2 & C2).
    cbn [length]. repeat split; [congruence | exact S2 | lia | lia].
Qed.

Lemma categoryMappings_sane : saneMappings categoryMappings.
Proof. unfold saneMappings, categoryMappings. repeat constructor; cbn; lia. Qed.

(** The cards of the dashboard show the entries of the final mappings, in
    the order of the object literal. *)
Lemma cards_of_mappings ms :
  List.map cm_key ms = List.map cm_key categoryMappings ->
  [ scoreOf "securityPosture" ms; scoreOf "identityAccess" ms; scoreOf "deviceApp" ms;
    scoreOf "dataProtection" ms; scoreOf "licenseManagement" ms ]
  = List.map cm_score ms
  /\ [ issuesOf "securityPosture" ms; issuesOf "identityAccess" ms; issuesOf "deviceApp" ms;
       issuesOf "dataProtection" ms; issuesOf "licenseManagement" ms ]
     = List.map cm_issues ms.
Proof.
  destruct ms as [|m1 [|m2 [|m3 [|m4 [|m5 [|m6 ms]]]]]]; try discriminate.
  cbn [List.map categoryMappings cm_key]. intros [= K1 K2 K3 K4 K5].
  unfold scoreOf, issuesOf. cbn [List.find]. rewrite K1, K2, K3, K4, K5.
  split; reflexivity.
Qed.

Lemma convertToLatestScanData_cards st summary latest :
  convertToLatestScanData st summary = Ok latest ->
  exists ms,
    foldM chargeIssue (lsd_issues latest) categoryMappings = Ok ms
    /\ cardScores latest = List.map cm_score ms
    /\ cardIssues latest = List.map cm_issues ms.
Proof.
  unfold convertToLatestScanData. intros H.
  apply bind_Ok in H as (issuesValue & _ & H).
  apply bind_Ok in H as (issues & _ & H).
  apply bind_Ok in H as (ms & Hms & H).
  repeat (apply bind_Ok in H as (? & _ & H)).
  injection H as <-. exists ms. cbn [lsd_issues]. split; [exact Hms|].
  destruct (foldM_chargeIssue_sane _ _ _ Hms categoryMappings_sane) as (Hk & _ & _).
  unfold cardScores, cardIssues. cbn -[scoreOf issuesOf categoryMappings].
  now apply cards_of_mappings.
Qed.

(** X10. Whatever is stored under the scan's key, when the conversion for
    the dashboard succeeds each of the five category scores lies between 0
    and 100, no category count is negative, and the five counts together do
    not exceed the number of issues: an issue is charged to at most one
    category. *)
Theorem dashboard_cards_in_range :
  forall (st : gmap string jsval) (summary : ScanSummary) (latest : LatestScanData),
    convertToLatestScanData st summary = Ok latest ->
    Forall (fun score => (0 <= score <= 100)%Z) (cardScores latest)
    /\ Forall (fun count => (0 <= count)%Z) (cardIssues latest)
    /\ (fold_right Z.add 0 (cardIssues latest) <= Z.of_nat (length (lsd_issues latest)))%Z.
Proof.
  intros st summary latest H.
  destruct (convertToLatestScanData_cards _ _ _ H) as (ms & Hms & -> & ->).
  destruct (foldM_chargeIssue_sane _ _ _ Hms categoryMappings_sane) as (_ & Hs & Hc).
  fold (chargedIssues ms). change (chargedIssues categoryMappings) with 0%Z in Hc.
  repeat split; [| |lia].
  - apply List.Forall_map. eapply List.Forall_impl; [|exact Hs]. cbn. tauto.
  - apply List.Forall_map. eapply List.Forall_impl; [|exact Hs]. cbn. tauto.
Qed.

Lemma dashboard_cards_in_range_witness :
  let st := localStorage (fst (startScan sampleHost 0 signedIn sampleResponses)) in
  let summary := sd_summary (pipelineScan sampleHost 0 "token" "tenant-1" sampleResponses) in
  exists latest,
    convertToLatestScanData st summary = Ok latest
    /\ Forall (fun score => (0 <= score <= 100)%Z) (cardScores latest)
    /\ Forall (fun count => (0 <= count)%Z) (cardIssues latest)
    /\ (fold_right Z.add 0 (cardIssues latest) <= Z.of_nat (length (lsd_issues latest)))%Z.
Proof.
  intros st summary.
  destruct (convertToLatestScanData st summary) as [latest|] eqn:H;
    [|vm_compute in H; discriminate H].
  exists latest. split; [reflexivity|].
  exact (dashboard_cards_in_range st summary latest H).
Defined.

(** ** The dashboard after a scan *)

Lemma countWhere_severity sev (l : list SecurityIssue) :
  countWhere "severity" (Severity_toString sev) (List.map storedIssue l)
  = Ok (countSeverity sev l).
Proof.
  unfold countWhere, countSeverity.
  assert (filterM (fun i => let* v := get i "severity" in
                            Ok (strictEqStr v (Severity_toString sev)))
                  (List.map storedIssue l)
          = Ok (List.map storedIssue
                  (List.filter (fun i => Severity_eqb (si_severity i) sev) l))) as ->.
  { induction l as [|i l IH]; cbn [List.map filterM List.filter]; [reflexivity|].
    rewrite get_storedIssue. cbn [lookupField String.eqb Ascii.eqb Bool.eqb bind jsonRoundTrip].
    rewrite IH, strictEqStr_severity. cbn [bind].
    now destruct (Severity_eqb (si_severity i) sev). }
  cbn [bind]. now rewrite List.length_map.
Qed.

Lemma countWhere_fixed (l : list SecurityIssue) :
  countWhere "status" "Fixed" (List.map storedIssue l)
  = Ok (Z.of_nat (length (List.filter (fun i => isFixedStatus (si_status i)) l))).
Proof.
  unfold countWhere.
  assert (filterM (fun i => let* v := get i "status" in Ok (strictEqStr v "Fixed"))
                  (List.map storedIssue l)
          = Ok (List.map storedIssue
                  (List.filter (fun i => isFixedStatus (si_status i)) l))) as ->.
  { induction l as [|i l IH]; cbn [List.map filterM List.filter]; [reflexivity|].
    rewrite get_storedIssue. cbn [lookupField String.eqb Ascii.eqb Bool.eqb bind].
    rewrite jsonRoundTrip_optStr, IH. cbn [bind].
    destruct (si_status i) as [status|]; cbn [optJS strictEqStr isFixedStatus];
      [destruct (String.eqb status "Fixed")|]; reflexivity. }
  cbn [bind]. now rewrite List.length_map.
Qed.

Lemma chargeIssue_typed ms i :
  chargeIssue ms (storedIssue i)
  = chargeFirstMatch (JStr (ao_type (si_affectedObject i))) (JStr (si_type i))
                     (impactOf (si_severity i)) ms.
Proof.
  unfold chargeIssue. rewrite !get_storedIssue.
  cbn [lookupField String.eqb Ascii.eqb Bool.eqb bind].
  change (jsonRoundTrip (AffectedObject_toJS (si_affectedObject i)))
    with (JObj [ ("type", JStr (ao_type (si_affectedObject i)));
                 ("id", JStr (ao_id (si_affectedObject i)));
                 ("name", JStr (ao_name (si_affectedObject i))) ]).
  cbn [get lookupField String.eqb Ascii.eqb Bool.eqb bind jsonRoundTrip].
  now destruct (si_severity i).
Qed.

(** What [convertToLatestScanData] computes from the snapshot the pipeline
    stored for a scan. *)
Lemma convertToLatestScanData_of_snapshot (st : gmap string jsval) d :
  st !! ("scan_" +:+ sum_id (sd_summary d)) = Some (storedScan d) ->
  exists latest ms,
    convertToLatestScanData st (sd_summary d) = Ok latest
    /\ foldM chargeIssue (List.map storedIssue (sd_issues d)) categoryMappings = Ok ms
    /\ cardScores latest = List.map cm_score ms
    /\ cardIssues latest = List.map cm_issues ms
    /\ lsd_id latest = sum_id (sd_summary d)
    /\ lsd_highRiskIssues latest = countSeverity High (sd_issues d)
    /\ lsd_mediumRiskIssues latest = countSeverity Medium (sd_issues d)
    /\ lsd_lowRiskIssues latest = countSeverity Low (sd_issues d)
    /\ lsd_issuesFixed latest
       = Z.of_nat (length (List.filter (fun i => isFixedStatus (si_status i)) (sd_issues d)))
    /\ lsd_securityScore latest
       = (if ((0 <? countSeverity High (sd_issues d))
              || (0 <? countSeverity Medium (sd_issues d))
              || (0 <? countSeverity Low (sd_issues d)))%Z
          then Z.max 0 (Z.min 100
                 (100 - (countSeverity High (sd_issues d) * 15
                         + countSeverity Medium (sd_issues d) * 7
                         + countSeverity Low (sd_issues d) * 3)))
          else sum_overallRiskScore (sd_summary d)).
Proof.
  intros Hst.
  destruct (convertToLatestScanData_stored st d Hst) as [latest Hlatest].
  destruct (convertToLatestScanData_cards _ _ _ Hlatest) as (ms & Hms & Hscores & Hcounts).
  exists latest, ms. split; [exact Hlatest|].
  unfold convertToLatestScanData in Hlatest. rewrite Hst in Hlatest.
  destruct (storedScan_obj d) as [fs Hfs].
  assert (truthy (storedScan d) = true) as T by now rewrite Hfs.
  rewrite T, !get_storedScan in Hlatest.
  cbn [lookupField String.eqb Ascii.eqb Bool.eqb] in Hlatest.
  rewrite jsonRoundTrip_issues in Hlatest. cbn [bind asArray] in Hlatest.
  apply bind_Ok in Hlatest as (ms' & _ & Hlatest).
  change "High" with (Severity_toString High) in Hlatest.
  change "Medium" with (Severity_toString Medium) in Hlatest.
  change "Low" with (Severity_toString Low) in Hlatest.
  rewrite !countWhere_severity, countWhere_fixed in Hlatest. cbn [bind] in Hlatest.
  apply bind_Ok in Hlatest as (usesRealData & _ & Hlatest).
  injection Hlatest as <-. cbn [lsd_issues] in Hms.
  repeat split; assumption || reflexivity.
Qed.

(** The dashboard state after an authenticated [startScan]: the converted
    snapshot, with [usesRealData] and [issues] taken from the scan. *)
Lemma startScan_dashboard h t s responses token tenant :
  accessToken s = Some token -> tenantId s = Some tenant ->
  token <> "" -> tenant <> "" ->
  exists s' converted latest,
    startScan h t s responses
    = (s', Some (sum_id (sd_summary (pipelineScan h t token tenant responses))))
    /\ localStorage s'
         !! ("scan_" +:+ sum_id (sd_summary (pipelineScan h t token tenant responses)))
       = Some (storedScan (pipelineScan h t token tenant responses))
    /\ convertToLatestScanData (localStorage s')
         (sd_summary (pipelineScan h t token tenant responses)) = Ok converted
    /\ latestScan s' = Some latest
    /\ lsd_id latest = lsd_id converted
    /\ lsd_securityScore latest = lsd_securityScore converted
    /\ lsd_highRiskIssues latest = lsd_highRiskIssues converted
    /\ lsd_mediumRiskIssues latest = lsd_mediumRiskIssues converted
    /\ lsd_lowRiskIssues latest = lsd_lowRiskIssues converted
    /\ lsd_issuesFixed latest = lsd_issuesFixed converted
    /\ cardScores latest = cardScores converted
    /\ cardIssues latest = cardIssues converted.
Proof.
  intros Htok Hten Htok' Hten'.
  unfold startScan. rewrite Htok, Hten.
  apply String.eqb_neq in Htok', Hten'. rewrite Htok', Hten'. cbn [orb].
  change (generateScan h t token tenant _ _) with (pipelineScan h t token tenant responses).
  set (scanData := pipelineScan h t token tenant responses).
  set (storage := setItem _ _ (setItem _ _ _)).
  assert (storage !! ("scan_" +:+ sum_id (sd_summary scanData)) = Some (storedScan scanData))
    as Hscan by (subst storage; unfold setItem; apply lookup_insert_eq).
  destruct (convertToLatestScanData_stored storage scanData Hscan) as [converted Hc].
  rewrite Hc. eexists _, converted, _. split; [reflexivity|].
  cbn [localStorage latestScan]. split; [exact Hscan|]. split; [exact Hc|].
  split; [reflexivity|]. repeat split; reflexivity.
Qed.

Lemma riskScore_as_total_impact h m l :
  (0 <= h)%Z -> (0 <= m)%Z -> (0 <= l)%Z ->
  (if ((0 <? h) || (0 <? m) || (0 <? l))%Z
   then Z.max 0 (Z.min 100 (100 - (h * 15 + m * 7 + l * 3)))
   else riskScore {| cnt_High := h; cnt_Medium := m; cnt_Low := l |})
  = riskScore {| cnt_High := h; cnt_Medium := m; cnt_Low := l |}.
Proof.
  intros Hh Hm Hl. unfold riskScore. cbn [cnt_High cnt_Medium cnt_Low].
  destruct ((0 <? h) || (0 <? m) || (0 <? l))%Z; lia.
Qed.

(** X11. After an authenticated scan the dashboard shows the scan just
    made: its id, the overall risk score of the summary (the dashboard
    recomputes it from the stored issues and arrives at the same number),
    the three severity counts of the summary, and no fixed issue. *)
Theorem startScan_dashboard_matches_summary :
  forall (h : Host) (t : nat) (s : AppState) (responses : list GraphApiResponse)
         (token tenant : string),
    accessToken s = Some token -> tenantId s = Some tenant ->
    token <> "" -> tenant <> "" ->
    exists s' scan latest,
      startScan h t s responses = (s', Some (sum_id (sd_summary scan)))
      /\ currentScan s' = Some scan
      /\ latestScan s' = Some latest
      /\ lsd_id latest = sum_id (sd_summary scan)
      /\ lsd_securityScore latest = sum_overallRiskScore (sd_summary scan)
      /\ lsd_highRiskIssues latest = cnt_High (sum_issueCountsBySeverity (sd_summary scan))
      /\ lsd_mediumRiskIssues latest = cnt_Medium (sum_issueCountsBySeverity (sd_summary scan))
      /\ lsd_lowRiskIssues latest = cnt_Low (sum_issueCountsBySeverity (sd_summary scan))
      /\ lsd_issuesFixed latest = 0%Z.
Proof.
  intros h t s responses token tenant Ha Hn Ha' Hn'.
  destruct (startScan_dashboard h t s responses token tenant Ha Hn Ha' Hn')
    as (s' & converted & latest & Hrun & Hsnap & Hconv & Hlatest
        & Hid & Hscore & Hhigh & Hmedium & Hlow & Hfixed & _ & _).
  destruct (startScan_completes h t s responses token tenant Ha Hn Ha' Hn')
    as (s1 & Hrun1 & _ & Hcur & _).
  assert (s1 = s') as -> by (rewrite Hrun in Hrun1; now injection Hrun1).
  set (scan := pipelineScan h t token tenant responses) in *.
  destruct (convertToLatestScanData_of_snapshot _ scan Hsnap)
    as (converted' & ms & Hconv' & _ & _ & _ & Ci & Ch & Cm & Cl & Cf & Cs).
  assert (converted' = converted) as -> by congruence.
  exists s', scan, latest.
  split; [exact Hrun|]. split; [exact Hcur|]. split; [exact Hlatest|].
  rewrite Hid, Hscore, Hhigh, Hmedium, Hlow, Hfixed, Ci, Ch, Cm, Cl, Cf, Cs.
  split; [reflexivity|]. split.
  { change (sum_overallRiskScore (sd_summary scan))
      with (riskScore {| cnt_High := countSeverity High (sd_issues scan);
                         cnt_Medium := countSeverity Medium (sd_issues scan);
                         cnt_Low := countSeverity Low (sd_issues scan) |}).
    apply riskScore_as_total_impact; apply countSeverity_nonneg. }
  repeat (split; [reflexivity|]).
  rewrite filter_nothing; [reflexivity|].
  eapply List.Forall_impl; [|apply generateScan_all_open]. cbn beta. now intros i ->.
Qed.

Lemma startScan_dashboard_matches_summary_witness :
  exists s' scan latest,
    startScan sampleHost 0 signedIn sampleResponses = (s', Some (sum_id (sd_summary scan)))
    /\ currentScan s' = Some scan
    /\ latestScan s' = Some latest
    /\ lsd_id latest = sum_id (sd_summary scan)
    /\ lsd_securityScore latest = sum_overallRiskScore (sd_summary scan)
    /\ lsd_highRiskIssues latest = cnt_High (sum_issueCountsBySeverity (sd_summary scan))
    /\ lsd_mediumRiskIssues latest = cnt_Medium (sum_issueCountsBySeverity (sd_summary scan))
    /\ lsd_lowRiskIssues latest = cnt_Low (sum_issueCountsBySeverity (sd_summary scan))
    /\ lsd_issuesFixed latest = 0%Z.
Proof.
  apply (startScan_dashboard_matches_summary
           sampleHost 0%nat signedIn sampleResponses "token" "tenant-1");
    [reflexivity | reflexivity | discriminate | discriminate].
Defined.

(** ** Which card a generated issue is charged to *)

Lemma charge_onPolicy issueType impactScore a b c d e :
  chargeFirstMatch (JStr "Policy") (JStr issueType) impactScore (withCharges [a; b; c; d; e])
  = Ok (withCharges [ (Z.max 0 (fst a - impactScore), (snd a + 1)%Z); b; c; d; e ]).
Proof. reflexivity. Qed.

Lemma charge_onUser issueType impactScore a b c d e :
  In issueType [ "Risky Users Detected"; "MFA Not Configured";
                 "Inactive Accounts"; "Guest User Access" ] ->
  chargeFirstMatch (JStr "User") (JStr issueType) impactScore (withCharges [a; b; c; d; e])
  = Ok (withCharges [ a; (Z.max 0 (fst b - impactScore), (snd b + 1)%Z); c; d; e ]).
Proof.
  cbn [In]. intros H. repeat destruct H as [<-|H]; try contradiction; reflexivity.
Qed.

Lemma charge_onMailbox impactScore a b c d e :
  chargeFirstMatch (JStr "Mailbox") (JStr "External Email Forwarding") impactScore
                   (withCharges [a; b; c; d; e])
  = Ok (withCharges [ a; b; c; (Z.max 0 (fst d - impactScore), (snd d + 1)%Z); e ]).
Proof. reflexivity. Qed.

Lemma generateScan_kinds h t token tenant tenantName realData :
  Forall (fun i => onPolicy i \/ onUser i \/ onMailbox i)
         (sd_issues (generateScan h t token tenant tenantName realData)).
Proof.
  unfold generateScan. cbn [sd_issues].
  destruct realData as [rd|]; [|constructor].
  destruct (detectAll_issues h tenantName rd {| tick := S t; issues := [] |})
    as (risky & mfa & inactive & forwarding & failures & guests
        & E & Kr & Km & Ki & (Kf & _) & Ka & Kg).
  rewrite E. cbn [issues app].
  assert (forall ty sev l,
            Forall (fun i => issueKind i = (ty, sev, "User")) l ->
            In ty [ "Risky Users Detected"; "MFA Not Configured";
                    "Inactive Accounts"; "Guest User Access" ] ->
            Forall (fun i => onPolicy i \/ onUser i \/ onMailbox i) l) as Huser.
  { intros ty sev l Hl Hty. revert Hl. apply List.Forall_impl. intros i Hk.
    unfold issueKind in Hk. injection Hk as Ht _ Hc.
    right. left. split; [exact Hc | now rewrite Ht]. }
  rewrite !List.Forall_app. repeat split.
  - apply (Huser _ _ _ Kr). cbn. auto.
  - apply (Huser _ _ _ Km). cbn. auto.
  - apply (Huser _ _ _ Ki). cbn. auto.
  - eapply List.Forall_impl; [|exact Kf]. cbn beta. intros i Hk.
    unfold issueKind in Hk. injection Hk as Ht _ Hc. right. right. now split.
  - eapply List.Forall_impl; [|apply (map_kind_in _ _ _ Ka)]. cbn beta.
    intros i (entry & _ & Hk). unfold issueKind in Hk. injection Hk as _ _ Hc _.
    now left.
  - apply (Huser _ _ _ Kg). cbn. auto.
Qed.

Lemma foldM_charges_generated (l : list SecurityIssue) :
  Forall (fun i => onPolicy i \/ onUser i \/ onMailbox i) l ->
  forall a b c d e,
  exists a' b' d',
    foldM chargeIssue (List.map storedIssue l) (withCharges [a; b; c; d; e])
    = Ok (withCharges [a'; b'; c; d'; e])
    /\ (snd a' + snd b' + snd d' = snd a + snd b + snd d + Z.of_nat (length l))%Z.
Proof.
  induction 1 as [|i l Hi _ IH]; intros a b c d e; cbn [List.map foldM length].
  - exists a, b, d. split; [reflexivity | lia].
  - rewrite chargeIssue_typed.
    destruct Hi as [Hp | [[Hc Ht] | [Hc Ht]]].
    + unfold onPolicy in Hp. rewrite Hp, charge_onPolicy. cbn [bind].
      destruct (IH (Z.max 0 (fst a - impactOf (si_severity i)), (snd a + 1)%Z) b c d e)
        as (a' & b' & d' & -> & Hsum).
      exists a', b', d'. split; [reflexivity|]. cbn [snd] in Hsum. lia.
    + rewrite Hc, (charge_onUser _ _ _ _ _ _ _ Ht). cbn [bind].
      destruct (IH a (Z.max 0 (fst b - impactOf (si_severity i)), (snd b + 1)%Z) c d e)
        as (a' & b' & d' & -> & Hsum).
      exists a', b', d'. split; [reflexivity|]. cbn [snd] in Hsum. lia.
    + rewrite Hc, Ht, charge_onMailbox. cbn [bind].
      destruct (IH a b c (Z.max 0 (fst d - impactOf (si_severity i)), (snd d + 1)%Z) e)
        as (a' & b' & d' & -> & Hsum).
      exists a', b', d'. split; [reflexivity|]. cbn [snd] in Hsum. lia.
Qed.

(** X12. After an authenticated scan, the dashboard cards "Device & App
    Security" and "License Management" always show the score 100 and no
    issue: every issue the detectors file is charged to one of the other
    three cards (failed endpoints, also those of the license endpoint, to
    "Security Posture"), whose counts add up to the number of issues. *)
Theorem startScan_cards_never_charged :
  forall (h : Host) (t : nat) (s : AppState) (responses : list GraphApiResponse)
         (token tenant : string),
    accessToken s = Some token -> tenantId s = Some tenant ->
    token <> "" -> tenant <> "" ->
    exists s' scan latest,
      startScan h t s responses = (s', Some (sum_id (sd_summary scan)))
      /\ currentScan s' = Some scan
      /\ latestScan s' = Some latest
      /\ lsd_deviceAppScore latest = 100%Z /\ lsd_deviceAppIssues latest = 0%Z
      /\ lsd_licenseManagementScore latest = 100%Z
      /\ lsd_licenseManagementIssues latest = 0%Z
      /\ (lsd_securityPostureIssues latest + lsd_identityAccessIssues latest
          + lsd_dataProtectionIssues latest = Z.of_nat (length (sd_issues scan)))%Z.
Proof.
  intros h t s responses token tenant Ha Hn Ha' Hn'.
  destruct (startScan_dashboard h t s responses token tenant Ha Hn Ha' Hn')
    as (s' & converted & latest & Hrun & Hsnap & Hconv & Hlatest
        & _ & _ & _ & _ & _ & _ & Hscores & Hcounts).
  destruct (startScan_completes h t s responses token tenant Ha Hn Ha' Hn')
    as (s1 & Hrun1 & _ & Hcur & _).
  assert (s1 = s') as -> by (rewrite Hrun in Hrun1; now injection Hrun1).
  set (scan := pipelineScan h t token tenant responses) in *.
  destruct (convertToLatestScanData_of_snapshot _ scan Hsnap)
    as (converted' & ms & Hconv' & Hms & Cscores & Ccounts & _).
  assert (converted' = converted) as -> by congruence.
  destruct (foldM_charges_generated (sd_issues scan)
              ltac:(apply generateScan_kinds) (100, 0) (100, 0) (100, 0) (100, 0) (100, 0))%Z
    as (a' & b' & d' & Hfold & Hsum).
  change (withCharges [(100, 0); (100, 0); (100, 0); (100, 0); (100, 0)]%Z)
    with categoryMappings in Hfold.
  rewrite Hfold in Hms. injection Hms as <-.
  rewrite Cscores in Hscores. rewrite Ccounts in Hcounts.
  unfold cardScores, cardIssues, withCharges in Hscores, Hcounts.
  cbn [List.map List.combine categoryMappings cm_score cm_issues fst snd] in Hscores, Hcounts.
  injection Hscores as _ _ Hs3 _ Hs5. injection Hcounts as Hc1 Hc2 Hc3 Hc4 Hc5.
  exists s', scan, latest.
  split; [exact Hrun|]. split; [exact Hcur|]. split; [exact Hlatest|].
  rewrite Hs3, Hs5, Hc1, Hc2, Hc3, Hc4, Hc5. repeat split. cbn [snd] in Hsum. lia.
Qed.

Lemma startScan_cards_never_charged_witness :
  exists s' scan latest,
    startScan sampleHost 0 signedIn sampleResponses = (s', Some (sum_id (sd_summary scan)))
    /\ currentScan s' = Some scan
    /\ latestScan s' = Some latest
    /\ lsd_deviceAppScore latest = 100%Z /\ lsd_deviceAppIssues latest = 0%Z
    /\ lsd_licenseManagementScore latest = 100%Z
    /\ lsd_licenseManagementIssues latest = 0%Z
    /\ (lsd_securityPostureIssues latest + lsd_identityAccessIssues latest
        + lsd_dataProtectionIssues latest = Z.of_nat (length (sd_issues scan)))%Z.
Proof.
  apply (startScan_cards_never_charged
           sampleHost 0%nat signedIn sampleResponses "token" "tenant-1");
    [reflexivity | reflexivity | discriminate | discriminate].
Defined.

(** ** What fixing an issue changes *)

(** [fixIssue] leaves the state as it is except for the storage, where it
    writes at most the snapshot of the scan, and for [isFixing]. *)
Lemma fixIssue_state h s scanId issueId :
  exists st,
    fst (fixIssue h s scanId issueId)
    = {| accessToken := accessToken s; tenantId := tenantId s;
         isScanning := isScanning s; isFixing := None;
         currentScan := currentScan s; scanHistory := scanHistory s;
         latestScan := latestScan s; localStorage := st |}
    /\ (st = localStorage s
        \/ (snd (fixIssue h s scanId issueId) = ToastSuccess "Issue fixed successfully"
            /\ exists snapshot, st = <[ "scan_" +:+ scanId := snapshot ]> (localStorage s))).
Proof.
  unfold fixIssue.
  destruct (getScanById h s scanId) as [[scan|]|]; cbn [fst snd]; eauto.
  destruct (List.find _ _); cbn [fst snd]; eauto.
  eexists. split; [reflexivity|]. right. split; [reflexivity|].
  unfold setItem. eauto.
Qed.

Lemma scan_key_injective a b : "scan_" +:+ a = "scan_" +:+ b -> a = b.
Proof. cbn. now intros [= E]. Qed.

Lemma getScanByIdDirect_frame h s s' id :
  currentScan s' = currentScan s ->
  ((exists current, currentScan s = Some current /\ sum_id (sd_summary current) = id)
   \/ localStorage s' !! ("scan_" +:+ id) = localStorage s !! ("scan_" +:+ id)) ->
  getScanByIdDirect h s' id = getScanByIdDirect h s id.
Proof.
  intros Hc H. unfold getScanByIdDirect. rewrite Hc.
  destruct H as [(current & -> & <-) | ->]; [|reflexivity].
  now rewrite String.eqb_refl.
Qed.

(** X13. While a scan is the current scan in memory, fixing one of its
    issues is not seen by [getScanById]: the call returns for that scan
    exactly what it returned before, and the current scan, the dashboard data
    and the history are untouched. The "Fixed" status is only written to the
    stored snapshot. *)
Theorem fixIssue_not_seen_for_current_scan :
  forall (h : Host) (s : AppState) (scanId issueId : string) (current : ScanData),
    currentScan s = Some current ->
    sum_id (sd_summary current) = scanId ->
    let s' := fst (fixIssue h s scanId issueId) in
    getScanById h s' scanId = getScanById h s scanId
    /\ currentScan s' = currentScan s
    /\ latestScan s' = latestScan s
    /\ scanHistory s' = scanHistory s.
Proof.
  intros h s scanId issueId current Hcur Hid s'.
  destruct (fixIssue_state h s scanId issueId) as (st & Hs' & Hst).
  fold s' in Hs'. rewrite Hs'. cbn [currentScan latestScan scanHistory].
  split; [|auto]. unfold getScanById. cbn [tenantId latestScan].
  destruct (missing (tenantId s)); [reflexivity|].
  assert (getScanByIdDirect h
            {| accessToken := accessToken s; tenantId := tenantId s;
               isScanning := isScanning s; isFixing := None;
               currentScan := currentScan s; scanHistory := scanHistory s;
               latestScan := latestScan s; localStorage := st |} scanId
          = getScanByIdDirect h s scanId) as Hdirect.
  { apply getScanByIdDirect_frame; [reflexivity|]. left. eauto. }
  destruct (latestScan s) as [latest|]; [|exact Hdirect].
  destruct (String.eqb_spec scanId "latest") as [Hl|_]; [|exact Hdirect].
  destruct (String.eqb_spec (lsd_id latest) "latest") as [|Hne]; [reflexivity|].
  apply getScanByIdDirect_frame; [reflexivity|]. right. cbn [localStorage].
  destruct Hst as [->|(_ & snapshot & ->)]; [reflexivity|].
  apply lookup_insert_ne. intros E. apply scan_key_injective in E. congruence.
Qed.

Lemma fixIssue_not_seen_for_current_scan_witness :
  let s := fst (startScan sampleHost 0 signedIn sampleResponses) in
  let s' := fst (fixIssue sampleHost s "scan_m2r1bz7k" "risky_users_1730000000001") in
  snd (fixIssue sampleHost s "scan_m2r1bz7k" "risky_users_1730000000001")
  = ToastSuccess "Issue fixed successfully"
  /\ getScanById sampleHost s' "scan_m2r1bz7k" = getScanById sampleHost s "scan_m2r1bz7k"
  /\ currentScan s' = currentScan s
  /\ latestScan s' = latestScan s
  /\ scanHistory s' = scanHistory s.
Proof.
  intros s s'. split; [vm_compute; reflexivity|].
  apply (fixIssue_not_seen_for_current_scan
           sampleHost s "scan_m2r1bz7k" "risky_users_1730000000001"
           (pipelineScan sampleHost 0 "token" "tenant-1" sampleResponses));
    vm_compute; reflexivity.
Defined.

(** X14. [fixIssue] writes to the browser storage only when it reports
    success, and then only the snapshot of the scan it was called for: every
    other entry is left as it was. Whatever the outcome, the marker of the
    issue being fixed is cleared and the sign-in data is unchanged. *)
Theorem fixIssue_writes_one_key_on_success :
  forall (h : Host) (s : AppState) (scanId issueId : string),
    let s' := fst (fixIssue h s scanId issueId) in
    let toast := snd (fixIssue h s scanId issueId) in
    (forall key, key <> "scan_" +:+ scanId ->
                 localStorage s' !! key = localStorage s !! key)
    /\ (toast <> ToastSuccess "Issue fixed successfully" ->
        localStorage s' = localStorage s)
    /\ isFixing s' = None
    /\ accessToken s' = accessToken s
    /\ tenantId s' = tenantId s.
Proof.
  intros h s scanId issueId s' toast.
  destruct (fixIssue_state h s scanId issueId) as (st & Hs' & Hst).
  fold s' in Hs'. fold toast in Hst. rewrite Hs'.
  cbn [localStorage isFixing accessToken tenantId].
  repeat split.
  - intros key Hkey. destruct Hst as [->|(_ & snapshot & ->)]; [reflexivity|].
    now apply lookup_insert_ne.
  - intros Hfail. destruct Hst as [->|(Hok & _)]; [reflexivity | contradiction].
Qed.

(** ** Warnings of the result page *)

Lemma collect_apiErrors_named responses bag :
  collect responses = Ok bag -> incl (gr_apiErrors bag) endpointNames.
Proof.
  intros H e He.
  assert (gr_apiErrors bag = flat_map (recordedFor responses) endpointMap) as E.
  { unfold collect in H. apply bind_Ok in H as (errs & E & H).
    apply checkEndpoints_spec in E. cbn [app] in E.
    repeat (apply bind_Ok in H as (? & _ & H)). now injection H as <-. }
  rewrite E in He. apply List.in_flat_map in He as (entry & Hentry & Hin).
  unfold recordedFor in Hin. apply List.in_map_iff in Hin as (index & <- & _).
  unfold endpointNames. now apply (List.in_map (fun entry => _ +:+ fst entry)).
Qed.

Lemma pipelineScan_apiErrors_named h t token tenant responses :
  incl (sd_apiErrors (pipelineScan h t token tenant responses)) endpointNames.
Proof.
  unfold pipelineScan, generateScan. cbn [sd_apiErrors].
  destruct (gr_success (fetchMicrosoftGraphData responses)); [|intros e []].
  unfold fetchMicrosoftGraphData.
  destruct (collect responses) as [bag|msg] eqn:H; [|intros e []].
  now apply (collect_apiErrors_named responses).
Qed.

Lemma hasApiError_incl apiErrors apiErrors' errorKeys :
  incl apiErrors apiErrors' ->
  hasApiError apiErrors' errorKeys = false -> hasApiError apiErrors errorKeys = false.
Proof.
  unfold hasApiError. intros Hincl H.
  induction errorKeys as [|key keys IH]; cbn [existsb] in *; [reflexivity|].
  apply orb_false_elim in H as [Hkey Hkeys]. rewrite (IH Hkeys), orb_false_r.
  destruct (existsb _ apiErrors) eqn:E; [|reflexivity].
  apply List.existsb_exists in E as (error & Hin & Hm).
  rewrite <- Hkey. symmetry. apply List.existsb_exists.
  exists error. split; [now apply Hincl | exact Hm].
Qed.

(** X15. For a scan made by the pipeline, none of the three "Security
    Posture" checks of the result page (Microsoft Secure Score, Compliance
    Score, Defender Exposure Score) ever shows its "unable to fetch" warning:
    no endpoint name the collector can record matches the keys these checks
    look for. *)
Theorem securityPosture_warning_never_shown :
  forall (h : Host) (t : nat) (token tenant : string)
         (responses : list GraphApiResponse),
    securityPostureWarnings (sd_apiErrors (pipelineScan h t token tenant responses)) = [].
Proof.
  intros h t token tenant responses.
  pose proof (pipelineScan_apiErrors_named h t token tenant responses) as Hnamed.
  unfold securityPostureWarnings, securityPostureChecks. cbn [List.filter snd].
  rewrite !(hasApiError_incl _ _ _ Hnamed); [reflexivity | | |];
    vm_compute; reflexivity.
Qed.

(** The collector never records the secure score endpoint. *)
Lemma secureScores_never_collected responses :
  ~ In secureScoresEndpoint (gr_apiErrors (fetchMicrosoftGraphData responses)).
Proof.
  unfold fetchMicrosoftGraphData.
  destruct (collect responses) as [bag|msg] eqn:H; [|intros []].
  intros Hin. apply (collect_apiErrors_named responses bag H) in Hin.
  vm_compute in Hin. repeat destruct Hin as [Hin|Hin]; try discriminate Hin.
  exact Hin.
Qed.

(** ** Real-data test *)

Lemma hasValues_dataset gt0 (o : option (list GraphObject)) :
  hasValues gt0 (datasetJS o) = Ok false
  /\ hasValues gt0 (jsonRoundTrip (datasetJS o)) = Ok false.
Proof. destruct o as [l|]; split; reflexivity. Qed.

Lemma get_storedRawData k r :
  get (jsonRoundTrip (RawData_toJS r)) k
  = Ok (jsonRoundTrip (lookupField k
          [ ("users", datasetJS (raw_users r));
            ("groups", datasetJS (raw_groups r));
            ("policies", datasetJS (raw_policies r));
            ("mailRules", datasetJS (raw_mailRules r));
            ("devices", datasetJS (raw_devices r));
            ("licenses", datasetJS (raw_licenses r));
            ("roles", datasetJS (raw_roles r)) ])).
Proof. unfold RawData_toJS. now rewrite get_stored. Qed.

(** X16. [hasRealGraphData] answers false for every scan the generator
    builds, in memory and read back from storage, whatever was collected:
    it looks for [rawData.users.value] and [rawData.tenantInfo], but
    [rawData.users] is the array itself and [rawData] has no [tenantInfo]. *)
Theorem hasRealGraphData_false_for_generated_scans :
  forall (gt0 : jsval -> bool) (h : Host) (t : nat) (token tenant : string)
         (tenantName : option string) (realData : option GraphResult),
    let scan := generateScan h t token tenant tenantName realData in
    hasRealGraphData gt0 (ScanData_toJS scan) = Ok false
    /\ hasRealGraphData gt0 (jsonRoundTrip (ScanData_toJS scan)) = Ok false.
Proof.
  intros gt0 h t token tenant tenantName realData scan.
  generalize scan as d. clear. intros d. split.
  - unfold hasRealGraphData, ScanData_toJS, RawData_toJS.
    cbn [truthy get lookupField String.eqb Ascii.eqb Bool.eqb bind].
    now rewrite (proj1 (hasValues_dataset gt0 _)).
  - unfold hasRealGraphData. fold (storedScan d).
    destruct (storedScan_obj d) as [fs Hfs].
    assert (truthy (storedScan d) = true) as -> by now rewrite Hfs.
    rewrite get_storedScan. cbn [lookupField String.eqb Ascii.eqb Bool.eqb bind].
    assert (truthy (jsonRoundTrip (RawData_toJS (sd_rawData d))) = true) as ->
      by reflexivity.
    rewrite !get_storedRawData. cbn [lookupField String.eqb Ascii.eqb Bool.eqb bind].
    now rewrite (proj2 (hasValues_dataset gt0 _)).
Qed.

(** ** Clearing the history *)

Lemma lookup_remove_all (keys : list string) (st : gmap string jsval) (key : string) :
  fold_left (fun st key => removeItem key st) keys st !! key
  = if existsb (String.eqb key) keys then None else st !! key.
Proof.
  revert st. induction keys as [|k keys IH]; intros st; cbn [fold_left existsb];
    [reflexivity|].
  rewrite IH. unfold removeItem.
  destruct (String.eqb_spec key k) as [->|Hne]; cbn [orb].
  - rewrite lookup_delete_eq. now destruct (existsb _ keys).
  - rewrite lookup_delete_ne by congruence. reflexivity.
Qed.

Lemma keysOf_spec (st : gmap string jsval) key :
  In key (keysOf st) <-> st !! key <> None.
Proof.
  unfold keysOf. rewrite List.in_map_iff. split.
  - intros ([k v] & <- & Hin). apply list_elem_of_In, elem_of_map_to_list in Hin.
    cbn. congruence.
  - intros H. destruct (st !! key) as [v|] eqn:E; [|contradiction].
    exists (key, v). split; [reflexivity|].
    now apply list_elem_of_In, elem_of_map_to_list.
Qed.

(** What [clearScanHistory] leaves in the storage and in memory. *)
Lemma clearScanHistory_storage :
  forall (s : AppState) (tenant : string),
    tenantId s = Some tenant -> tenant <> "" ->
    let s' := fst (clearScanHistory s) in
    (forall key,
       localStorage s' !! key
       = if startsWith key "scan_" || String.eqb key ("scanHistory_" +:+ tenant)
         then None else localStorage s !! key)
    /\ scanHistory s' = []
    /\ latestScan s' = None
    /\ currentScan s' = currentScan s.
Proof.
  intros s tenant Hten Hne s'. subst s'. unfold clearScanHistory. rewrite Hten.
  apply String.eqb_neq in Hne. rewrite Hne.
  cbn [fst localStorage scanHistory latestScan currentScan].
  split; [|auto]. intros key. rewrite lookup_remove_all. unfold removeItem.
  set (st1 := delete ("scanHistory_" +:+ tenant) (localStorage s)).
  destruct (String.eqb_spec key ("scanHistory_" +:+ tenant)) as [->|Hk].
  - rewrite orb_true_r. subst st1. rewrite lookup_delete_eq.
    now destruct (existsb _ _).
  - rewrite orb_false_r.
    assert (st1 !! key = localStorage s !! key) as E
      by (subst st1; apply lookup_delete_ne; congruence).
    destruct (startsWith key "scan_") eqn:P.
    + destruct (existsb _ _) eqn:X; [reflexivity|].
      destruct (st1 !! key) as [v|] eqn:L; [|reflexivity].
      exfalso. apply Bool.not_true_iff_false in X. apply X.
      apply List.existsb_exists. exists key. split; [|apply String.eqb_refl].
      apply List.filter_In. split; [|exact P]. apply keysOf_spec. congruence.
    + destruct (existsb _ _) eqn:X; [|exact E].
      apply List.existsb_exists in X as (k & Hin & Hk').
      apply String.eqb_eq in Hk'. subst k.
      apply List.filter_In in Hin as [_ Hp]. congruence.
Qed.


(** X17. With a tenant signed in, [clearScanHistory] removes from the browser
    storage the history of that tenant and every entry whose key starts with
    "scan_", so the snapshots of all tenants, and nothing else: the histories
    of other tenants and all other entries stay. It empties the history and
    the dashboard data in memory but keeps the current scan. *)
Theorem clearScanHistory_removes_all_snapshots :
  forall (s : AppState) (tenant : string),
    tenantId s = Some tenant -> tenant <> "" ->
    let s' := fst (clearScanHistory s) in
    (forall key,
       localStorage s' !! key
       = if startsWith key "scan_" || String.eqb key ("scanHistory_" +:+ tenant)
         then None else localStorage s !! key)
    /\ scanHistory s' = []
    /\ latestScan s' = None
    /\ currentScan s' = currentScan s.
Proof. exact clearScanHistory_storage. Qed.

Lemma clearScanHistory_removes_all_snapshots_witness :
  let s := fst (startScan sampleHost 0 signedIn sampleResponses) in
  let s' := fst (clearScanHistory s) in
  (forall key,
     localStorage s' !! key
     = if startsWith key "scan_" || String.eqb key ("scanHistory_" +:+ "tenant-1")
       then None else localStorage s !! key)
  /\ scanHistory s' = []
  /\ latestScan s' = None
  /\ currentScan s' = currentScan s.
Proof.
  intros s.
  apply (clearScanHistory_removes_all_snapshots s "tenant-1");
    [vm_compute; reflexivity | discriminate].
Defined.

(** X18. After [clearScanHistory], [getScanById] finds no scan any more,
    under any id, except the current scan in memory, which it still returns
    although its snapshot is gone. *)
Theorem clearScanHistory_then_getScanById :
  forall (h : Host) (s : AppState) (tenant scanId : string),
    tenantId s = Some tenant -> tenant <> "" ->
    getScanById h (fst (clearScanHistory s)) scanId
    = match currentScan s with
      | Some current =>
          if String.eqb (sum_id (sd_summary current)) scanId
          then Ok (Some (viewOfCurrent h current))
          else Ok None
      | None => Ok None
      end.
Proof.
  intros h s tenant scanId Hten Hne.
  destruct (clearScanHistory_storage s tenant Hten Hne)
    as (Hst & _ & Hlatest & Hcur).
  assert (tenantId (fst (clearScanHistory s)) = Some tenant) as Hten'.
  { unfold clearScanHistory. rewrite Hten.
    now destruct (String.eqb tenant ""). }
  unfold getScanById, getScanByIdDirect.
  rewrite Hten', Hlatest, Hcur, Hst. cbn [missing].
  apply String.eqb_neq in Hne. rewrite Hne.
  assert (startsWith ("scan_" +:+ scanId) "scan_" = true) as ->
    by (destruct scanId; reflexivity).
  cbn [orb].
  now destruct (currentScan s).
Qed.

Lemma clearScanHistory_then_getScanById_witness :
  let s := fst (startScan sampleHost 0 signedIn sampleResponses) in
  getScanById sampleHost (fst (clearScanHistory s)) "scan_m2r1bz7k"
  = match currentScan s with
    | Some current =>
        if String.eqb (sum_id (sd_summary current)) "scan_m2r1bz7k"
        then Ok (Some (viewOfCurrent sampleHost current))
        else Ok None
    | None => Ok None
    end.
Proof.
  intros s.
  apply (clearScanHistory_then_getScanById sampleHost s "tenant-1" "scan_m2r1bz7k");
    [vm_compute; reflexivity | discriminate].
Defined.

(** ** Signing out *)

(** X19. Signing out removes the six sign-in entries from the browser
    storage and nothing else: every stored snapshot and history (every key
    starting with "scan") stays, and so does the scan data in memory. With
    the token and tenant gone, [getScanById] finds no scan and [startScan]
    does nothing and returns [null]. *)
Theorem logout_keeps_scan_data :
  forall (h : Host) (t : nat) (s : AppState) (responses : list GraphApiResponse)
         (scanId : string),
    (forall key,
       localStorage (logout s) !! key
       = if existsb (String.eqb key)
                    [ "accessToken"; "refreshToken"; "idToken"; "expiresAt";
                      "tenantId"; "codeVerifier" ]
         then None else localStorage s !! key)
    /\ (forall key, startsWith key "scan" = true ->
                    localStorage (logout s) !! key = localStorage s !! key)
    /\ currentScan (logout s) = currentScan s
    /\ scanHistory (logout s) = scanHistory s
    /\ getScanById h (logout s) scanId = Ok None
    /\ startScan h t (logout s) responses = (logout s, None).
Proof.
  intros h t s responses scanId.
  assert (forall key,
            localStorage (logout s) !! key
            = if existsb (String.eqb key)
                         [ "accessToken"; "refreshToken"; "idToken"; "expiresAt";
                           "tenantId"; "codeVerifier" ]
              then None else localStorage s !! key) as Hst.
  { intros key.
    change (localStorage (logout s))
      with (fold_left (fun st key => removeItem key st)
                      [ "accessToken"; "refreshToken"; "idToken"; "expiresAt";
                        "tenantId"; "codeVerifier" ] (localStorage s)).
    apply lookup_remove_all. }
  split; [exact Hst|]. split; [|repeat split].
  intros key Hkey. rewrite Hst.
  destruct (existsb _ _) eqn:X; [|reflexivity].
  apply List.existsb_exists in X as (name & Hin & Hname).
  apply String.eqb_eq in Hname. subst name. cbn [In] in Hin.
  repeat destruct Hin as [<-|Hin]; try contradiction; discriminate Hkey.
Qed.

(** ** Shape of the client's results *)

(** X20. Whatever the network does, a result of [callGraphApi] has one of
    two shapes. A success carries no error and no status code. A failure
    carries no data, an error message, and a status code that is 401, 500 or
    the status of a response outside 200-299. A call without token sends no
    request; any other call sends exactly one, to the beta endpoint. *)
Theorem callGraphApi_result_shape :
  forall (endpoint token method : string) (body : jsval) (w : World),
    let r := fst (callGraphApi endpoint token method body w) in
    let w' := snd (callGraphApi endpoint token method body w) in
    (if success r
     then error r = None /\ statusCode r = None
     else data r = None
          /\ error r <> None
          /\ exists code, statusCode r = Some code
                          /\ (code = 401 \/ code = 500 \/ ~ (200 <= code <= 299))%Z)
    /\ sent w'
       = if String.eqb token "" then sent w
         else (sent w ++ [requestOptionsOf endpoint token method body])%list.
Proof.
  intros endpoint token method body w r w'. subst r w'. unfold callGraphApi.
  destruct (String.eqb token "").
  { cbn. split; [|reflexivity]. repeat split; [discriminate|]. exists 401%Z. auto. }
  destruct (net w (length (sent w)) (requestOptionsOf endpoint token method body))
    as [msg|response].
  { cbn. split; [|reflexivity]. repeat split; [discriminate|]. exists 500%Z. auto. }
  unfold ok.
  destruct ((200 <=? status response) && (status response <=? 299))%Z eqn:Hok;
    cbn [negb].
  - destruct ((status response =? 204)%Z || String.eqb method "DELETE").
    { cbn. auto. }
    destruct (json response) as [msg|d]; cbn; [|auto].
    split; [|reflexivity]. repeat split; [discriminate|]. exists 500%Z. auto.
  - assert (~ (200 <= status response <= 299)%Z) as Hnot.
    { intros [H1 H2]. apply Z.leb_le in H1, H2. rewrite H1, H2 in Hok. discriminate. }
    destruct (json response) as [msg|errorData].
    { cbn. split; [|reflexivity]. repeat split; [discriminate|]. exists 500%Z. auto. }
    destruct (errorMessageOf errorData) as [errorMessage|msg]; cbn;
      (split; [|reflexivity]); (repeat split; [discriminate|]); eauto.
Qed.

(** ** The organization settings check *)

(** X21. [checkOrganizationSettings] makes its two calls one after the
    other, whatever the first returns: with a token, exactly two GET requests
    are sent; with an empty token, none. It does not pass the failures of
    the calls on: it reports failure only when one of the two calls succeeded
    without a body; when both calls fail, for whatever reason (also for the
    missing token), it still reports success, with an empty body. *)
Theorem checkOrganizationSettings_swallows_failures :
  forall (token : string) (w : World),
    let first :=
      callGraphApi "/deviceManagement/mobileThreatDefenseConnectors" token "GET"
                   JUndefined w in
    let second :=
      callGraphApi "/security/secureScoreControlProfiles" token "GET" JUndefined
                   (snd first) in
    let r := fst (checkOrganizationSettings token w) in
    let w' := snd (checkOrganizationSettings token w) in
    w' = snd second
    /\ sent w'
       = (if String.eqb token "" then sent w
          else (sent w
                ++ [ requestOptionsOf "/deviceManagement/mobileThreatDefenseConnectors"
                                      token "GET" JUndefined;
                     requestOptionsOf "/security/secureScoreControlProfiles"
                                      token "GET" JUndefined ])%list)
    /\ (success r = false
        <-> (success (fst first) = true /\ data (fst first) = None)
            \/ (success (fst second) = true /\ data (fst second) = None))
    /\ (success r = true -> r = succeeded (Some emptyBody))
    /\ (success (fst first) = false -> success (fst second) = false ->
        r = succeeded (Some emptyBody))
    /\ (token = "" -> r = succeeded (Some emptyBody)).
Proof.
  intros token w first second r w'. subst r w'.
  assert (sent (snd second)
          = (if String.eqb token "" then sent w
             else (sent w
                   ++ [ requestOptionsOf "/deviceManagement/mobileThreatDefenseConnectors"
                                         token "GET" JUndefined;
                        requestOptionsOf "/security/secureScoreControlProfiles"
                                         token "GET" JUndefined ])%list)) as Hsent.
  { subst second first. unfold callGraphApi.
    destruct (String.eqb token ""); [reflexivity|].
    assert (forall (o : FetchOutcome) (m : string) (rq : Request) (w0 : World),
              sent (snd (match o with
                         | NetworkError msg => (failed msg 500, w0)
                         | Responded response =>
                             if negb (ok response) then
                               match json response with
                               | BodyInvalid msg => (failed msg 500, w0)
                               | BodyJson errorData =>
                                   match errorMessageOf errorData with
                                   | Ok errorMessage =>
                                       (failed errorMessage (status response), w0)
                                   | Throw msg => (failed msg 500, w0)
                                   end
                               end
                             else if (status response =? 204)%Z || String.eqb m "DELETE"
                             then (succeeded (Some emptyBody), w0)
                             else match json response with
                                  | BodyInvalid msg => (failed msg 500, w0)
                                  | BodyJson d => (succeeded d, w0)
                                  end
                         end)) = sent w0) as Hsnd.
    { intros o m rq w0. destruct o as [msg|response]; [reflexivity|].
      destruct (negb (ok response)).
      - destruct (json response) as [msg|errorData]; [reflexivity|].
        now destruct (errorMessageOf errorData).
      - destruct ((status response =? 204)%Z || String.eqb m "DELETE"); [reflexivity|].
        now destruct (json response). }
    rewrite (Hsnd _ "GET" (requestOptionsOf "/security/secureScoreControlProfiles"
                                             token "GET" JUndefined)).
    cbn [sent].
    rewrite (Hsnd _ "GET" (requestOptionsOf "/deviceManagement/mobileThreatDefenseConnectors"
                                             token "GET" JUndefined)).
    cbn [sent]. now rewrite <- app_assoc. }
  assert (token = "" -> success (fst first) = false /\ success (fst second) = false)
    as Hnone.
  { intros ->. subst second first. cbn. auto. }
  unfold checkOrganizationSettings.
  fold first. destruct first as [mdmResponse w1] eqn:E1. cbn [fst snd] in *.
  fold second. destruct second as [securityResponse w2] eqn:E2. cbn [fst snd] in *.
  unfold valueOrEmpty, valueOf.
  destruct (success mdmResponse), (data mdmResponse),
           (success securityResponse), (data securityResponse);
    cbn; repeat split; try tauto; try discriminate; try exact Hsent;
    try (intros [[? ?]|[? ?]]; discriminate);
    try (intros Ht; destruct (Hnone Ht); discriminate).
Qed.

(** ** PKCE code verifier *)

Lemma string_get_In i s c : String.get i s = Some c -> In c (list_ascii_of_string s).
Proof.
  revert i. induction s as [|a s IH]; intros i H; [destruct i; discriminate|].
  destruct i as [|i]; cbn in H.
  - injection H as ->. now left.
  - right. eapply IH, H.
Qed.

Lemma string_get_Some i s : (i < String.length s)%nat -> exists c, String.get i s = Some c.
Proof.
  revert i. induction s as [|a s IH]; intros i H; cbn in H; [lia|].
  destruct i as [|i]; cbn; [eauto|]. apply IH. lia.
Qed.

Lemma list_ascii_of_string_app a b :
  list_ascii_of_string (a +:+ b)
  = (list_ascii_of_string a ++ list_ascii_of_string b)%list.
Proof. induction a as [|c a IH]; simpl; [reflexivity | now f_equal]. Qed.

Lemma verifierChars_unreserved :
  Forall (fun c => isUnreserved c = true) (list_ascii_of_string verifierChars).
Proof. apply List.Forall_forall. apply List.forallb_forall. vm_compute. reflexivity. Qed.

(** X22. A generated code verifier has 43 characters plus the random
    offset, so between 43 and 85, and consists only of unreserved
    characters (letters, digits, "-", ".", "_", "~"), whatever bytes the
    random source delivers. *)
Theorem generateCodeVerifier_well_formed :
  forall (floored : nat) (randValues : nat -> nat),
    (floored < 43)%nat ->
    let verifier := generateCodeVerifier floored randValues in
    String.length verifier = (43 + floored)%nat
    /\ (43 <= String.length verifier <= 85)%nat
    /\ Forall (fun c => isUnreserved c = true) (list_ascii_of_string verifier).
Proof.
  intros floored randValues Hf verifier. subst verifier. unfold generateCodeVerifier.
  assert (forall (positions : list nat) (result : string),
            Forall (fun c => isUnreserved c = true) (list_ascii_of_string result) ->
            let final :=
              fold_left (fun result i =>
                           result +:+ charAt verifierChars
                                        (randValues i mod String.length verifierChars))
                        positions result in
            String.length final = (String.length result + length positions)%nat
            /\ Forall (fun c => isUnreserved c = true) (list_ascii_of_string final)) as H.
  { induction positions as [|i positions IH]; intros result Hr; cbn [fold_left length].
    - split; [lia | exact Hr].
    - destruct (string_get_Some (randValues i mod String.length verifierChars) verifierChars)
        as [c Hc]; [apply Nat.mod_upper_bound; discriminate|].
      destruct (IH (result +:+ charAt verifierChars
                                 (randValues i mod String.length verifierChars)))
        as [Hl Hu].
      + rewrite list_ascii_of_string_app. apply List.Forall_app. split; [exact Hr|].
        unfold charAt. rewrite Hc. cbn [list_ascii_of_string].
        constructor; [|constructor].
        pose proof verifierChars_unreserved as Hall. rewrite List.Forall_forall in Hall.
        apply Hall. eapply string_get_In, Hc.
      + split; [|exact Hu]. rewrite Hl, string_length_app.
        unfold charAt. rewrite Hc. cbn [String.length]. lia. }
  destruct (H (List.seq 0 (43 + floored)) EmptyString ltac:(constructor)) as [Hl Hu].
  rewrite List.length_seq in Hl. cbn [String.length] in Hl.
  split; [exact Hl|]. split; [lia | exact Hu].
Qed.

Lemma generateCodeVerifier_well_formed_witness :
  let verifier := generateCodeVerifier 7 (fun i => (37 * i + 11)%nat) in
  String.length verifier = (43 + 7)%nat
  /\ (43 <= String.length verifier <= 85)%nat
  /\ Forall (fun c => isUnreserved c = true) (list_ascii_of_string verifier).
Proof.
  apply (generateCodeVerifier_well_formed 7 (fun i => (37 * i + 11)%nat)). lia.
Defined.

(** ** CSV export *)

Lemma string_app_assoc a b c : (a +:+ b) +:+ c = a +:+ (b +:+ c).
Proof.
  induction a as [|x a IH]; [reflexivity|].
  change (String x ((a +:+ b) +:+ c) = String x (a +:+ (b +:+ c))). now rewrite IH.
Qed.

Lemma string_app_nil_r a : a +:+ EmptyString = a.
Proof.
  induction a as [|x a IH]; [reflexivity|].
  change (String x (a +:+ EmptyString) = String x a). now rewrite IH.
Qed.

Lemma read_unquoted p field record tail :
  plainText p = true -> endsField tail ->
  readCsvFrom Unquoted field record (p +:+ tail) = afterField (field +:+ p) record tail.
Proof.
  revert field. induction p as [|c p IH]; intros field Hp Ht.
  - rewrite string_app_nil_r. destruct tail as [|c rest]; [reflexivity|].
    destruct Ht as [-> | ->]; reflexivity.
  - cbn [plainText] in Hp.
    apply andb_prop in Hp as [Hp Hrest]. apply andb_prop in Hp as [Hp Hn].
    apply andb_prop in Hp as [Hc Hq]. apply negb_true_iff in Hc, Hq, Hn.
    change (String c p +:+ tail) with (String c (p +:+ tail)).
    cbn [readCsvFrom]. rewrite Hc, Hn, (IH _ Hrest Ht).
    now rewrite string_app_assoc.
Qed.

Lemma read_plain_field p record tail :
  plainText p = true -> endsField tail ->
  readCsvFrom FieldStart EmptyString record (p +:+ tail) = afterField p record tail.
Proof.
  intros Hp Ht. destruct p as [|c p].
  - destruct tail as [|c rest]; [reflexivity|].
    destruct Ht as [-> | ->]; reflexivity.
  - pose proof Hp as Hp'. cbn [plainText] in Hp.
    apply andb_prop in Hp as [Hp Hrest]. apply andb_prop in Hp as [Hp Hn].
    apply andb_prop in Hp as [Hc Hq]. apply negb_true_iff in Hc, Hq, Hn.
    change (String c p +:+ tail) with (String c (p +:+ tail)).
    cbn [readCsvFrom]. rewrite Hq, Hc, Hn.
    now rewrite (read_unquoted p _ record tail Hrest Ht).
Qed.

Lemma read_quoted s field record tail :
  readCsvFrom Quoted field record (escapeQuotes s +:+ String quoteChar tail)
  = readCsvFrom AfterQuote (field +:+ s) record tail.
Proof.
  revert field. induction s as [|c s IH]; intros field.
  - now rewrite string_app_nil_r.
  - cbn [escapeQuotes]. destruct (Ascii.eqb c quoteChar) eqn:E.
    + apply Ascii.eqb_eq in E. subst c.
      change (readCsvFrom Quoted field record
                (String quoteChar (String quoteChar (escapeQuotes s +:+ String quoteChar tail)))
              = readCsvFrom AfterQuote (field +:+ String quoteChar s) record tail).
      cbn [readCsvFrom]. change (Ascii.eqb quoteChar quoteChar) with true. cbn iota.
      now rewrite IH, string_app_assoc.
    + change (readCsvFrom Quoted field record
                (String c (escapeQuotes s +:+ String quoteChar tail))
              = readCsvFrom AfterQuote (field +:+ String c s) record tail).
      cbn [readCsvFrom]. rewrite E. now rewrite IH, string_app_assoc.
Qed.

Lemma read_quoted_field s record tail :
  endsField tail ->
  readCsvFrom FieldStart EmptyString record (inQuotes (escapeQuotes s) +:+ tail)
  = afterField s record tail.
Proof.
  intros Ht. unfold inQuotes.
  change (String quoteChar (escapeQuotes s +:+ String quoteChar EmptyString) +:+ tail)
    with (String quoteChar ((escapeQuotes s +:+ String quoteChar EmptyString) +:+ tail)).
  rewrite string_app_assoc.
  change (String quoteChar EmptyString +:+ tail) with (String quoteChar tail).
  change (readCsvFrom FieldStart EmptyString record
            (String quoteChar (escapeQuotes s +:+ String quoteChar tail)))
    with (readCsvFrom Quoted EmptyString record
            (escapeQuotes s +:+ String quoteChar tail)).
  rewrite read_quoted.
  change (EmptyString +:+ s) with s.
  destruct tail as [|c rest]; [reflexivity|].
  destruct Ht as [-> | ->]; reflexivity.
Qed.

Lemma read_field quoted value record tail :
  quoted = true \/ plainText value = true -> endsField tail ->
  readCsvFrom FieldStart EmptyString record (csvField quoted value +:+ tail)
  = afterField value record tail.
Proof.
  intros Hv Ht. unfold csvField. destruct quoted.
  - now apply read_quoted_field.
  - destruct Hv as [|Hp]; [discriminate|]. now apply read_plain_field.
Qed.

(** A line is read back as its values. *)
Lemma read_line fields record tail :
  fields <> [] ->
  Forall (fun f => fst f = true \/ plainText (snd f) = true) fields ->
  (tail = EmptyString \/ exists rest, tail = String newlineChar rest) ->
  readCsvFrom FieldStart EmptyString record (csvLine fields +:+ tail)
  = match tail with
    | EmptyString => [(record ++ List.map snd fields)%list]
    | String _ rest =>
        (record ++ List.map snd fields)%list :: readCsvFrom FieldStart EmptyString [] rest
    end.
Proof.
  intros Hne Hok Ht. revert record.
  induction fields as [|f fields IH]; intros record; [contradiction|].
  inversion Hok as [|? ? Hf Hrest]; subst.
  destruct fields as [|g fields].
  - unfold csvLine. cbn [List.map String.concat snd].
    rewrite read_field; [|exact Hf|].
    + destruct Ht as [-> | [rest ->]]; reflexivity.
    + destruct Ht as [-> | [rest ->]]; cbn; auto.
  - unfold csvLine in *. cbn [List.map] in *.
    change (String.concat "," (csvField (fst f) (snd f) :: csvField (fst g) (snd g)
                               :: List.map (fun f => csvField (fst f) (snd f)) fields))
      with (csvField (fst f) (snd f)
            +:+ String commaChar
                  (String.concat "," (csvField (fst g) (snd g)
                     :: List.map (fun f => csvField (fst f) (snd f)) fields))).
    rewrite string_app_assoc.
    change (String commaChar ?x +:+ tail) with (String commaChar (x +:+ tail)).
    rewrite read_field; [|exact Hf | now left].
    cbn [afterField]. change (Ascii.eqb commaChar commaChar) with true. cbn iota.
    rewrite (IH ltac:(discriminate) Hrest). cbn [List.map snd].
    destruct tail; now rewrite <- app_assoc.
Qed.

(** A text of lines is read back as the values of its lines. *)
Lemma read_lines (lines : list (list (bool * string))) :
  lines <> [] ->
  Forall (fun fields =>
            fields <> []
            /\ Forall (fun f => fst f = true \/ plainText (snd f) = true) fields) lines ->
  readCsv (String.concat (String newlineChar EmptyString) (List.map csvLine lines))
  = List.map (List.map snd) lines.
Proof.
  intros Hne Hok. unfold readCsv.
  induction lines as [|fields lines IH]; [contradiction|].
  inversion Hok as [|? ? [Hf1 Hf2] Hrest]; subst.
  destruct lines as [|next lines].
  - cbn [List.map String.concat].
    rewrite <- (string_app_nil_r (csvLine fields)).
    rewrite (read_line fields [] EmptyString Hf1 Hf2); [reflexivity | now left].
  - cbn [List.map] in *.
    change (String.concat (String newlineChar EmptyString)
              (csvLine fields :: csvLine next :: List.map csvLine lines))
      with (csvLine fields
            +:+ String newlineChar
                  (String.concat (String newlineChar EmptyString)
                     (csvLine next :: List.map csvLine lines))).
    rewrite (read_line fields [] _ Hf1 Hf2); [|right; eauto].
    cbn [app]. now rewrite (IH ltac:(discriminate) Hrest).
Qed.

Lemma escapedOrEmpty_text v :
  isText v = true -> escapedOrEmpty v = Ok (escapeQuotes (textOf v)).
Proof. destruct v; try discriminate; reflexivity. Qed.

Lemma escapedIfTruthy_text v :
  isText v = true -> escapedIfTruthy v = Ok (escapeQuotes (textOf v)).
Proof.
  destruct v as [| | | |s| |]; try discriminate; try reflexivity.
  intros _. unfold escapedIfTruthy. cbn [truthy textOf].
  destruct (String.eqb_spec s "") as [->|]; reflexivity.
Qed.

Lemma csvRow_exportable issue :
  exportable issue ->
  csvRow issue = Ok (csvLine (csvFieldsOf issue))
  /\ Forall (fun f => fst f = true \/ plainText (snd f) = true) (csvFieldsOf issue).
Proof.
  intros (Hid & Hsev & Hcat & Hstatus & Ht & Hd & Hi & Hr). split.
  - unfold csvRow.
    rewrite (escapedOrEmpty_text _ Ht), (escapedOrEmpty_text _ Hd),
      (escapedIfTruthy_text _ Hi), (escapedIfTruthy_text _ Hr).
    reflexivity.
  - unfold csvFieldsOf, csvValues. cbn [List.combine].
    repeat match goal with
           | |- Forall _ (_ :: _) => constructor
           | |- Forall _ [] => constructor
           end; cbn [fst snd]; auto.
    right. now destruct (truthy (iv_isRealData issue)).
Qed.

Lemma mapM_csvRow issues :
  Forall exportable issues ->
  mapM csvRow issues = Ok (List.map (fun issue => csvLine (csvFieldsOf issue)) issues).
Proof.
  induction 1 as [|issue issues Hi _ IH]; cbn [mapM List.map]; [reflexivity|].
  rewrite (proj1 (csvRow_exportable issue Hi)), IH. reflexivity.
Qed.

(** The text written for exportable issues reads back as their values. *)
Lemma convertToCSV_of_exportable (issues : list IssueView) :
  Forall exportable issues ->
  exists csvContent,
    convertToCSV issues = Ok csvContent
    /\ readCsv csvContent = csvHeader :: List.map csvValues issues.
Proof.
  intros Hall. unfold convertToCSV. rewrite (mapM_csvRow issues Hall).
  cbn [bind]. eexists. split; [reflexivity|].
  rewrite <- (List.map_map csvFieldsOf csvLine).
  change (String.concat "," csvHeader)
    with (csvLine (List.map (fun name => (false, name)) csvHeader)).
  change (csvLine (List.map (fun name => (false, name)) csvHeader)
          :: List.map csvLine (List.map csvFieldsOf issues))
    with (List.map csvLine
            (List.map (fun name => (false, name)) csvHeader
             :: List.map csvFieldsOf issues)).
  rewrite read_lines.
  - cbn [List.map]. f_equal. rewrite List.map_map. apply List.map_ext.
    intros issue. reflexivity.
  - discriminate.
  - constructor.
    + split; [discriminate|]. apply List.Forall_forall. intros f Hin. right.
      revert f Hin. apply List.Forall_forall. unfold csvHeader. cbn [List.map].
      repeat constructor.
    + apply List.Forall_map. eapply List.Forall_impl; [|exact Hall]. cbn beta.
      intros issue Hi. split; [discriminate | apply (csvRow_exportable issue Hi)].
Qed.

(** X24. For issues whose id, severity, category and status hold no comma,
    quote or line feed and whose free-text members are strings or missing,
    [convertToCSV] succeeds and its text reads back, by the quoting rules of
    CSV, as the header followed by one record per issue holding the nine
    values of that issue, whatever commas, quotes or line feeds the free
    texts contain. *)
Theorem convertToCSV_reads_back :
  forall issues : list IssueView,
    Forall exportable issues ->
    exists csvContent,
      convertToCSV issues = Ok csvContent
      /\ readCsv csvContent = csvHeader :: List.map csvValues issues.
Proof. exact convertToCSV_of_exportable. Qed.

(** ** Reading the scan just made *)

(** The state after an authenticated [startScan]: the new scan is the
    current scan and the dashboard data carries its id. *)
Lemma startScan_current h t s responses token tenant :
  accessToken s = Some token -> tenantId s = Some tenant ->
  token <> "" -> tenant <> "" ->
  exists s' latest,
    startScan h t s responses
    = (s', Some (sum_id (sd_summary (pipelineScan h t token tenant responses))))
    /\ tenantId s' = Some tenant
    /\ currentScan s' = Some (pipelineScan h t token tenant responses)
    /\ latestScan s' = Some latest
    /\ lsd_id latest = sum_id (sd_summary (pipelineScan h t token tenant responses)).
Proof.
  intros Ha Hn Ha' Hn'.
  destruct (startScan_dashboard h t s responses token tenant Ha Hn Ha' Hn')
    as (s' & converted & latest & Hrun & Hsnap & Hconv & Hlatest & Hid & _).
  destruct (startScan_completes h t s responses token tenant Ha Hn Ha' Hn')
    as (s1 & Hrun1 & Hten & Hcur & _).
  assert (s1 = s') as -> by (rewrite Hrun in Hrun1; now injection Hrun1).
  destruct (convertToLatestScanData_of_snapshot _ _ Hsnap)
    as (converted' & ms & Hconv' & _ & _ & _ & Ci & _).
  assert (converted' = converted) as -> by congruence.
  rewrite Ci in Hid. exists s', latest. auto.
Qed.

Lemma getScanById_current h s tenant scan :
  tenantId s = Some tenant -> tenant <> "" ->
  currentScan s = Some scan ->
  String.eqb (sum_id (sd_summary scan)) "latest" = false ->
  getScanById h s (sum_id (sd_summary scan)) = Ok (Some (viewOfCurrent h scan)).
Proof.
  intros Hten Hne Hcur Hid. unfold getScanById, getScanByIdDirect.
  rewrite Hten, Hcur, Hid, String.eqb_refl. cbn [missing].
  apply String.eqb_neq in Hne. rewrite Hne. now destruct (latestScan s).
Qed.

(** X23. After an authenticated scan, [getScanById] returns the new scan
    both under the returned id and under the alias "latest", built from the
    scan in memory. *)
Theorem startScan_then_getScanById :
  forall (h : Host) (t : nat) (s : AppState) (responses : list GraphApiResponse)
         (token tenant : string),
    accessToken s = Some token -> tenantId s = Some tenant ->
    token <> "" -> tenant <> "" ->
    exists s' scan,
      startScan h t s responses = (s', Some (sum_id (sd_summary scan)))
      /\ currentScan s' = Some scan
      /\ getScanById h s' (sum_id (sd_summary scan)) = Ok (Some (viewOfCurrent h scan))
      /\ getScanById h s' "latest" = Ok (Some (viewOfCurrent h scan)).
Proof.
  intros h t s responses token tenant Ha Hn Ha' Hn'.
  destruct (startScan_current h t s responses token tenant Ha Hn Ha' Hn')
    as (s' & latest & Hrun & Hten & Hcur & Hlatest & Hid).
  set (scan := pipelineScan h t token tenant responses) in *.
  exists s', scan. split; [exact Hrun|]. split; [exact Hcur|].
  pose proof (getScanById_current h s' tenant scan Hten Hn' Hcur
                (scan_id_not_latest _)) as Hread.
  split; [exact Hread|].
  unfold getScanById in *. rewrite Hten, Hlatest, Hid in *. cbn [missing] in *.
  apply String.eqb_neq in Hn'. rewrite Hn' in *.
  assert (String.eqb (sum_id (sd_summary scan)) "latest" = false) as E
    by apply scan_id_not_latest.
  rewrite E in *. cbn [String.eqb Ascii.eqb Bool.eqb]. exact Hread.
Qed.

Lemma startScan_then_getScanById_witness :
  exists s' scan,
    startScan sampleHost 0 signedIn sampleResponses = (s', Some (sum_id (sd_summary scan)))
    /\ currentScan s' = Some scan
    /\ getScanById sampleHost s' (sum_id (sd_summary scan))
       = Ok (Some (viewOfCurrent sampleHost scan))
    /\ getScanById sampleHost s' "latest" = Ok (Some (viewOfCurrent sampleHost scan)).
Proof.
  apply (startScan_then_getScanById
           sampleHost 0%nat signedIn sampleResponses "token" "tenant-1");
    [reflexivity | reflexivity | discriminate | discriminate].
Defined.

(** The views of generated issues can be exported. *)

Lemma plainText_app a b : plainText (a +:+ b) = plainText a && plainText b.
Proof.
  induction a as [|c a IH]; [reflexivity|].
  change (plainText (String c (a +:+ b)) = plainText (String c a) && plainText b).
  cbn [plainText]. rewrite IH. now rewrite !andb_assoc.
Qed.

Lemma digitChar_plain d :
  (d < 10)%N -> plainText (String (digitChar d) EmptyString) = true.
Proof.
  intros H.
  assert (d = 0 \/ d = 1 \/ d = 2 \/ d = 3 \/ d = 4 \/ d = 5 \/ d = 6 \/ d = 7
          \/ d = 8 \/ d = 9)%N as Hd by lia.
  repeat destruct Hd as [->|Hd]; try subst d; reflexivity.
Qed.

Lemma digitsOf_plain fuel n acc :
  plainText acc = true -> plainText (digitsOf fuel 10 n acc) = true.
Proof.
  revert n acc. induction fuel as [|fuel IH]; intros n acc Hacc; cbn [digitsOf];
    [exact Hacc|].
  assert (plainText (String (digitChar (n mod 10)) acc) = true) as Hnext.
  { change (String (digitChar (n mod 10)) acc)
      with (String (digitChar (n mod 10)) EmptyString +:+ acc).
    rewrite plainText_app, digitChar_plain, Hacc; [reflexivity|].
    apply N.mod_lt. discriminate. }
  destruct (n / 10 =? 0)%N; [exact Hnext | now apply IH].
Qed.

Lemma numberToString_plain z : plainText (numberToString 10 z) = true.
Proof.
  unfold numberToString.
  pose proof (digitsOf_plain (S (N.to_nat (N.log2 (Z.to_N (Z.abs z)))))
                (Z.to_N (Z.abs z)) EmptyString eq_refl) as H.
  destruct (z <? 0)%Z; [|exact H].
  cbn [plainText]. now rewrite H.
Qed.

Lemma filedBy_exportable prefix sev category i :
  plainText prefix = true -> plainText (toLowerCase category) = true ->
  filedBy prefix sev category i -> exportable (issueViewOfCurrent i).
Proof.
  intros Hp Hc ([now Hid] & Hsev & Hcat & Hstatus & _).
  unfold exportable, issueViewOfCurrent.
  cbn [iv_id iv_severity iv_category iv_status iv_title iv_description iv_impact
       iv_recommendation joinElement toText isText].
  rewrite Hid, Hcat, Hstatus, plainText_app, Hp, numberToString_plain, Hc.
  repeat split; try reflexivity.
  - now destruct (si_severity i).
  - now destruct (si_remediation i).
Qed.

Lemma apiErrorIssue_exportable errorType endpoints now :
  In errorType errorTypes ->
  exportable (issueViewOfCurrent (apiErrorIssue errorType endpoints now)).
Proof.
  intros Ht. unfold exportable, issueViewOfCurrent, apiErrorIssue.
  cbn [iv_id iv_severity iv_category iv_status iv_title iv_description iv_impact
       iv_recommendation joinElement toText isText si_id si_severity si_affectedObject
       si_status si_type si_description si_impact si_remediation multiple ao_type
       Severity_toString optJS orDefault].
  rewrite !plainText_app, numberToString_plain.
  unfold errorTypes in Ht. cbn [In] in Ht.
  repeat destruct Ht as [<-|Ht]; try contradiction;
    repeat split; vm_compute; reflexivity.
Qed.

Lemma generateScan_exportable h t token tenant tenantName realData :
  Forall exportable
         (List.map issueViewOfCurrent
                   (sd_issues (generateScan h t token tenant tenantName realData))).
Proof.
  apply List.Forall_map. unfold generateScan. cbn [sd_issues].
  destruct realData as [rd|]; [|constructor].
  destruct (detectAll_filed h tenantName rd {| tick := S t; issues := [] |})
    as (risky & mfa & inactive & forwarding & failures & guests
        & E & (_ & Kr) & (_ & Km) & (_ & Ki) & (_ & Kf) & Ka & (_ & Kg)).
  rewrite E. cbn [issues app].
  assert (forall prefix sev category l,
            plainText prefix = true -> plainText (toLowerCase category) = true ->
            Forall (filedBy prefix sev category) l ->
            Forall (fun i => exportable (issueViewOfCurrent i)) l) as Hfiled.
  { intros prefix sev category l Hp Hc. apply List.Forall_impl.
    intros i. now apply filedBy_exportable. }
  rewrite !List.Forall_app. repeat split;
    try (eapply Hfiled; [| |eassumption]; reflexivity).
  apply List.Forall_forall. intros i Hin.
  destruct (Forall2_In_r _ _ _ _ Ka Hin) as (e & He & [now ->]).
  apply apiErrorIssue_exportable.
  pose proof (errorsByType_keys (gr_apiErrors rd)) as Hk.
  rewrite List.Forall_forall in Hk. now apply Hk.
Qed.

Lemma convertToCSV_reads_back_witness :
  exists csvContent,
    convertToCSV (List.map issueViewOfCurrent
                    (sd_issues (pipelineScan sampleHost 0 "token" "tenant-1" sampleResponses)))
    = Ok csvContent
    /\ readCsv csvContent
       = csvHeader
         :: List.map csvValues
              (List.map issueViewOfCurrent
                 (sd_issues (pipelineScan sampleHost 0 "token" "tenant-1" sampleResponses))).
Proof.
  apply (convertToCSV_reads_back
           (List.map issueViewOfCurrent
              (sd_issues (pipelineScan sampleHost 0 "token" "tenant-1" sampleResponses)))).
  apply generateScan_exportable.
Defined.

(** X25. After an authenticated scan, exporting the new scan as CSV always
    succeeds: a file named after the scan id is downloaded, and its text
    reads back as the header and one record per issue of the scan, in the
    order of the issue list. *)
Theorem exportScanResults_after_scan :
  forall (h : Host) (t : nat) (s : AppState) (responses : list GraphApiResponse)
         (token tenant : string),
    accessToken s = Some token -> tenantId s = Some tenant ->
    token <> "" -> tenant <> "" ->
    exists s' scan csvContent,
      startScan h t s responses = (s', Some (sum_id (sd_summary scan)))
      /\ currentScan s' = Some scan
      /\ exportScanResults h s' (sum_id (sd_summary scan)) Csv
         = Ok (Downloaded ("supervision-scan-" +:+ sum_id (sd_summary scan) +:+ ".csv")
                          csvContent
                          (ToastSuccess "CSV file downloaded successfully"))
      /\ readCsv csvContent
         = csvHeader :: List.map (fun i => csvValues (issueViewOfCurrent i)) (sd_issues scan).
Proof.
  intros h t s responses token tenant Ha Hn Ha' Hn'.
  destruct (startScan_current h t s responses token tenant Ha Hn Ha' Hn')
    as (s' & latest & Hrun & Hten & Hcur & _).
  set (scan := pipelineScan h t token tenant responses) in *.
  pose proof (getScanById_current h s' tenant scan Hten Hn' Hcur
                (scan_id_not_latest _)) as Hread.
  destruct (convertToCSV_of_exportable
              (List.map issueViewOfCurrent (sd_issues scan))
              ltac:(apply generateScan_exportable)) as (csvContent & Hcsv & Hback).
  exists s', scan, csvContent.
  split; [exact Hrun|]. split; [exact Hcur|]. split.
  - unfold exportScanResults. rewrite Hread. cbn [bind viewOfCurrent sv_issues].
    now rewrite Hcsv.
  - rewrite Hback, List.map_map. reflexivity.
Qed.

Lemma exportScanResults_after_scan_witness :
  exists s' scan csvContent,
    startScan sampleHost 0 signedIn sampleResponses = (s', Some (sum_id (sd_summary scan)))
    /\ currentScan s' = Some scan
    /\ exportScanResults sampleHost s' (sum_id (sd_summary scan)) Csv
       = Ok (Downloaded ("supervision-scan-" +:+ sum_id (sd_summary scan) +:+ ".csv")
                        csvContent
                        (ToastSuccess "CSV file downloaded successfully"))
    /\ readCsv csvContent
       = csvHeader :: List.map (fun i => csvValues (issueViewOfCurrent i)) (sd_issues scan).
Proof.
  apply (exportScanResults_after_scan
           sampleHost 0%nat signedIn sampleResponses "token" "tenant-1");
    [reflexivity | reflexivity | discriminate | discriminate].
Defined.

(** ** What each detector reports *)

Lemma reported_one h (mk : Z -> SecurityIssue) report s (b : bool) :
  (forall now, reportOf (mk now) = report) ->
  exists added,
    issues (if b then push h mk s else s) = (issues s ++ added)%list
    /\ List.map reportOf added = if b then [report] else [].
Proof.
  intros Hmk. destruct b.
  - eexists. split; [apply push_issues|]. cbn [List.map]. now rewrite Hmk.
  - exists []. split; [now rewrite app_nil_r | reflexivity].
Qed.

Lemma detectRiskyUsers_reports h rd s :
  exists added,
    issues (detectRiskyUsers h rd s) = (issues s ++ added)%list
    /\ List.map reportOf added
       = if lengthGt0 (riskyUsers rd)
         then [ (("Risky Users Detected", High, "User"),
                 Some (namesOf "Unknown User" (riskyUsers rd))) ]
         else [].
Proof. unfold detectRiskyUsers. apply reported_one. reflexivity. Qed.

Lemma detectUsersWithoutMFA_reports h rd s :
  exists added,
    issues (detectUsersWithoutMFA h rd s) = (issues s ++ added)%list
    /\ List.map reportOf added
       = if (0 <? length (List.filter mfaDisabled (elements (mfaStatus rd))))%nat
         then [ (("MFA Not Configured", High, "User"),
                 Some (List.map (fun user => orDefault (userPrincipalName user) "Unknown User")
                                (List.filter mfaDisabled (elements (mfaStatus rd))))) ]
         else [].
Proof.
  unfold detectUsersWithoutMFA.
  destruct (mfaStatus rd) as [[|u l]|] eqn:E; cbn [lengthGt0 elements].
  - exists []. split; [now rewrite app_nil_r | reflexivity].
  - apply reported_one. reflexivity.
  - exists []. split; [now rewrite app_nil_r | reflexivity].
Qed.

Lemma detectInactiveUsers_reports h rd s :
  exists added,
    issues (detectInactiveUsers h rd s) = (issues s ++ added)%list
    /\ List.map reportOf added
       = if lengthGt0 (inactiveUsers rd)
         then [ (("Inactive Accounts", Medium, "User"),
                 Some (namesOf "Unknown User" (inactiveUsers rd))) ]
         else [].
Proof. unfold detectInactiveUsers. apply reported_one. reflexivity. Qed.

Lemma detectEmailForwarding_reports h tenantName rd s :
  let external :=
    List.filter (isExternalForwarding tenantName) (elements (emailForwarding rd)) in
  exists added,
    issues (detectEmailForwarding h tenantName rd s) = (issues s ++ added)%list
    /\ List.map reportOf added
       = if (0 <? length external)%nat
         then [ (("External Email Forwarding", Medium, "Mailbox"),
                 Some (List.map (fun rule => orDefault (mailbox rule) "Unknown Mailbox")
                                external)) ]
         else [].
Proof.
  intros external. subst external. unfold detectEmailForwarding.
  destruct (emailForwarding rd) as [[|r l]|] eqn:E; cbn [lengthGt0 elements].
  - exists []. split; [now rewrite app_nil_r | reflexivity].
  - apply reported_one. reflexivity.
  - exists []. split; [now rewrite app_nil_r | reflexivity].
Qed.

Lemma detectGuestUsers_reports h rd s :
  exists added,
    issues (detectGuestUsers h rd s) = (issues s ++ added)%list
    /\ List.map reportOf added
       = if lengthGt0 (guestUsers rd)
         then [ (("Guest User Access", Low, "User"),
                 Some (namesOf "Unknown Guest" (guestUsers rd))) ]
         else [].
Proof. unfold detectGuestUsers. apply reported_one. reflexivity. Qed.

(** The reports of a run over collected data, detector by detector. *)
Lemma generateScan_reports h t token tenant tenantName rd :
  List.map reportOf (sd_issues (generateScan h t token tenant tenantName (Some rd)))
  = ((if lengthGt0 (riskyUsers rd)
      then [ (("Risky Users Detected", High, "User"),
              Some (namesOf "Unknown User" (riskyUsers rd))) ]
      else [])
     ++ (if (0 <? length (List.filter mfaDisabled (elements (mfaStatus rd))))%nat
         then [ (("MFA Not Configured", High, "User"),
                 Some (List.map (fun user => orDefault (userPrincipalName user) "Unknown User")
                                (List.filter mfaDisabled (elements (mfaStatus rd))))) ]
         else [])
     ++ (if lengthGt0 (inactiveUsers rd)
         then [ (("Inactive Accounts", Medium, "User"),
                 Some (namesOf "Unknown User" (inactiveUsers rd))) ]
         else [])
     ++ (if (0 <? length (List.filter (isExternalForwarding tenantName)
                                      (elements (emailForwarding rd))))%nat
         then [ (("External Email Forwarding", Medium, "Mailbox"),
                 Some (List.map (fun rule => orDefault (mailbox rule) "Unknown Mailbox")
                                (List.filter (isExternalForwarding tenantName)
                                             (elements (emailForwarding rd))))) ]
         else [])
     ++ List.map (fun entry =>
                    ((fst entry +:+ " Access Required", Medium, "Policy"),
                     Some (snd entry)))
                 (errorsByType (gr_apiErrors rd))
     ++ (if lengthGt0 (guestUsers rd)
         then [ (("Guest User Access", Low, "User"),
                 Some (namesOf "Unknown Guest" (guestUsers rd))) ]
         else []))%list.
Proof.
  unfold generateScan. cbn [sd_issues detectAll].
  set (s0 := {| tick := S t; issues := [] |}).
  set (s1 := detectRiskyUsers h rd s0).
  set (s2 := detectUsersWithoutMFA h rd s1).
  set (s3 := detectInactiveUsers h rd s2).
  set (s4 := detectEmailForwarding h tenantName rd s3).
  set (s5 := detectApiErrors h rd s4).
  destruct (detectRiskyUsers_reports h rd s0) as (risky & E1 & K1).
  destruct (detectUsersWithoutMFA_reports h rd s1) as (mfa & E2 & K2).
  destruct (detectInactiveUsers_reports h rd s2) as (inactive & E3 & K3).
  destruct (detectEmailForwarding_reports h tenantName rd s3) as (forwarding & E4 & K4).
  destruct (detectApiErrors_issues h rd s4) as (failures & E5 & K5).
  destruct (detectGuestUsers_reports h rd s5) as (guests & E6 & K6).
  fold s1 s2 s3 s4 s5 in E1, E2, E3, E4, E5, E6.
  rewrite E6, E5, E4, E3, E2, E1. cbn [issues s0 app].
  rewrite <- !app_assoc, !List.map_app. unfold reportOf in *.
  now rewrite K1, K2, K3, K4, K5, K6.
Qed.

Lemma reports_filter ty (l : list SecurityIssue) :
  List.map reportOf (List.filter (hasType ty) l)
  = List.filter (reportHasType ty) (List.map reportOf l).
Proof.
  induction l as [|i l IH]; cbn [List.filter List.map]; [reflexivity|].
  change (reportHasType ty (reportOf i)) with (hasType ty i).
  destruct (hasType ty i); cbn [List.map]; now rewrite IH.
Qed.

Lemma failure_reports_untitled ty apiErrors :
  In ty detectorTitles ->
  List.filter (reportHasType ty)
    (List.map (fun entry =>
                 ((fst entry +:+ " Access Required", Medium, "Policy"), Some (snd entry)))
              (errorsByType apiErrors)) = [].
Proof.
  intros Hty. apply filter_nothing. apply List.Forall_map.
  eapply List.Forall_impl; [|apply errorsByType_keys]. cbn beta.
  intros entry Hk. unfold reportHasType. cbn [fst].
  unfold errorTypes in Hk. unfold detectorTitles in Hty. cbn [In] in Hk, Hty.
  repeat destruct Hk as [<-|Hk]; try contradiction;
    repeat destruct Hty as [<-|Hty]; try contradiction; reflexivity.
Qed.

(** The reports under one detector title, read off the reports of the
    whole run. *)
Ltac reports_titled :=
  unfold reportsTitled; rewrite reports_filter, generateScan_reports;
  rewrite !List.filter_app, failure_reports_untitled by (cbn; auto 10);
  repeat match goal with
         | |- context [if ?b then _ else _] => destruct b
         end; reflexivity.

Lemma namesOf_listed dflt d :
  namesOf dflt d = List.map (listedName dflt) (default [] d).
Proof.
  unfold namesOf. destruct d as [l|]; cbn [elements default]; [|reflexivity].
  apply List.map_ext. intros record. unfold orDefault, listedName.
  now destruct (userPrincipalName record) as [[|c rest]|].
Qed.

Lemma lengthGt0_default {A} (d : option (list A)) :
  lengthGt0 d = match default [] d with [] => false | _ :: _ => true end.
Proof. now destruct d as [[|x l]|]. Qed.
(** X26. Three detectors do no selecting of their own: a scan over collected
    data holds one "Risky Users Detected" issue (High), one "Inactive
    Accounts" issue (Medium) and one "Guest User Access" issue (Low) exactly
    when the respective dataset is not empty, and each lists every record of
    its dataset, in order, by principal name, "Unknown User" or "Unknown
    Guest" standing for a record without one. *)
Theorem detectors_list_whole_dataset :
  forall (h : Host) (t : nat) (token tenant : string)
         (tenantName : option string) (realData : GraphResult),
    let scan := generateScan h t token tenant tenantName (Some realData) in
    reportsTitled "Risky Users Detected" scan
    = match default [] (riskyUsers realData) with
      | [] => []
      | record :: others =>
          [ (("Risky Users Detected", High, "User"),
             Some (List.map (listedName "Unknown User") (record :: others))) ]
      end
    /\ reportsTitled "Inactive Accounts" scan
       = match default [] (inactiveUsers realData) with
         | [] => []
         | record :: others =>
             [ (("Inactive Accounts", Medium, "User"),
                Some (List.map (listedName "Unknown User") (record :: others))) ]
         end
    /\ reportsTitled "Guest User Access" scan
       = match default [] (guestUsers realData) with
         | [] => []
         | record :: others =>
             [ (("Guest User Access", Low, "User"),
                Some (List.map (listedName "Unknown Guest") (record :: others))) ]
         end.
Proof.
  intros h t token tenant tenantName rd scan. subst scan.
  repeat split;
    unfold reportsTitled; rewrite reports_filter, generateScan_reports;
    rewrite !List.filter_app, failure_reports_untitled by (cbn; auto 10);
    rewrite !namesOf_listed, !lengthGt0_default;
    repeat match goal with
           | |- context [default [] ?d] => destruct (default [] d)
           end;
    repeat match goal with
           | |- context [if ?b then _ else _] => destruct b
           end; reflexivity.
Qed.

(** X27. A scan over collected data holds one "MFA Not Configured" issue
    (High) exactly when some record of the MFA dataset does not have
    isMfaEnabled set to true, and the issue lists exactly those records, in
    order; a record without the member counts as not enabled. *)
Theorem mfa_issue_lists_users_not_enabled :
  forall (h : Host) (t : nat) (token tenant : string)
         (tenantName : option string) (realData : GraphResult),
    let scan := generateScan h t token tenant tenantName (Some realData) in
    reportsTitled "MFA Not Configured" scan
    = match List.filter mfaNotEnabled (default [] (mfaStatus realData)) with
      | [] => []
      | record :: others =>
          [ (("MFA Not Configured", High, "User"),
             Some (List.map (listedName "Unknown User") (record :: others))) ]
      end.
Proof.
  intros h t token tenant tenantName rd scan. subst scan.
  assert (List.filter mfaDisabled (elements (mfaStatus rd))
          = List.filter mfaNotEnabled (default [] (mfaStatus rd))) as E.
  { destruct (mfaStatus rd) as [l|]; cbn [elements default]; [|reflexivity].
    apply List.filter_ext. intros record. unfold mfaDisabled, mfaNotEnabled.
    destruct (isMfaEnabled record) as [[|]|]; reflexivity. }
  assert (forall l : list GraphObject,
            List.map (fun user => orDefault (userPrincipalName user) "Unknown User") l
            = List.map (listedName "Unknown User") l) as N.
  { intros l. apply List.map_ext. intros record. unfold orDefault, listedName.
    now destruct (userPrincipalName record) as [[|c rest]|]. }
  unfold reportsTitled. rewrite reports_filter, generateScan_reports.
  rewrite !List.filter_app, failure_reports_untitled by (cbn; auto 10).
  rewrite E, N.
  destruct (List.filter mfaNotEnabled (default [] (mfaStatus rd))) as [|u l];
    cbn [length Nat.ltb Nat.leb];
    repeat match goal with
           | |- context [if ?b then _ else _] => destruct b
           end; reflexivity.
Qed.

(** X28. Without a tenant name (none was found, or it is empty) no
    forwarding rule counts as external, because every address ends with the
    empty string: the scan holds no "External Email Forwarding" issue,
    whatever rules were collected. *)
Theorem no_forwarding_issue_without_tenant_name :
  forall (h : Host) (t : nat) (token tenant : string)
         (tenantName : option string) (realData : GraphResult),
    orDefault tenantName "" = "" ->
    reportsTitled "External Email Forwarding"
                  (generateScan h t token tenant tenantName (Some realData)) = [].
Proof.
  intros h t token tenant tenantName rd Hname.
  assert (List.filter (isExternalForwarding tenantName) (elements (emailForwarding rd)) = [])
    as Hnone.
  { apply filter_nothing. apply List.Forall_forall. intros rule _.
    unfold isExternalForwarding. rewrite Hname.
    destruct (forwardTo rule) as [target|]; [|reflexivity].
    unfold endsWith. rewrite Nat.sub_0_r. cbn [String.length Nat.leb].
    assert (String.substring (String.length target) 0 target = "") as ->.
    { clear. induction target as [|c s IH]; [reflexivity | exact IH]. }
    cbn. apply andb_false_r. }
  unfold reportsTitled. rewrite reports_filter, generateScan_reports.
  rewrite !List.filter_app, failure_reports_untitled by (cbn; auto 10).
  rewrite Hnone. cbn [length Nat.ltb Nat.leb].
  repeat match goal with
         | |- context [if ?b then _ else _] => destruct b
         end; reflexivity.
Qed.

Lemma no_forwarding_issue_without_tenant_name_witness :
  reportsTitled "External Email Forwarding"
    (generateScan sampleHost 0 "token" "tenant-1" None
       (Some (fetchMicrosoftGraphData sampleResponses))) = [].
Proof.
  apply (no_forwarding_issue_without_tenant_name
           sampleHost 0%nat "token" "tenant-1" None
           (fetchMicrosoftGraphData sampleResponses)).
  reflexivity.
Defined.

(** ** The page score and fixed issues *)

Lemma openWith_markFixed sev issueId (l : list IssueView) :
  (length (List.filter (openWith sev) (List.map (markFixed issueId) l))
   <= length (List.filter (openWith sev) l))%nat.
Proof.
  induction l as [|i l IH]; cbn [List.map List.filter]; [lia|].
  assert (openWith sev (markFixed issueId i) = true -> openWith sev i = true) as Himp.
  { unfold markFixed. destruct (strictEqStr (iv_id i) issueId); [|auto].
    unfold openWith. cbn [iv_status iv_severity strictEqStr String.eqb Ascii.eqb Bool.eqb negb].
    rewrite andb_false_r. discriminate. }
  destruct (openWith sev (markFixed issueId i)).
  - rewrite (Himp eq_refl). cbn [length]. lia.
  - destruct (openWith sev i); cbn [length]; lia.
Qed.

Lemma openWith_all_fixed sev (l : list IssueView) :
  Forall (fun i => iv_status i = JStr "Fixed") l -> List.filter (openWith sev) l = [].
Proof.
  intros H. apply filter_nothing. eapply List.Forall_impl; [|exact H]. cbn beta.
  intros i Hi. unfold openWith. rewrite Hi. apply andb_false_r.
Qed.

(** X29. The score of the result page counts only issues that are not
    fixed: it lies between 0 and 100, marking an issue as fixed never lowers
    it, and it is 100 when every issue is fixed. *)
Theorem page_score_ignores_fixed_issues :
  forall (scan : ScanView) (issueId : string),
    (0 <= calculateSecurityScore (Some scan) <= 100)%Z
    /\ (calculateSecurityScore (Some scan)
        <= calculateSecurityScore
             (Some (withIssues scan (List.map (markFixed issueId) (sv_issues scan)))))%Z
    /\ (Forall (fun i => iv_status i = JStr "Fixed") (sv_issues scan) ->
        calculateSecurityScore (Some scan) = 100%Z).
Proof.
  intros scan issueId. unfold calculateSecurityScore, withIssues. cbn [sv_issues].
  pose proof (openWith_markFixed "High" issueId (sv_issues scan)) as Hh.
  pose proof (openWith_markFixed "Medium" issueId (sv_issues scan)) as Hm.
  pose proof (openWith_markFixed "Low" issueId (sv_issues scan)) as Hl.
  repeat split.
  - destruct (_ || _ || _)%bool; lia.
  - destruct (_ || _ || _)%bool; lia.
  - repeat match goal with
           | |- context [if ?b then _ else _] => destruct b eqn:?
           end; try lia;
      repeat match goal with
             | H : (_ || _)%bool = _ |- _ =>
                 first [apply orb_false_elim in H as [? ?] | apply orb_prop in H as [?|?]]
             | H : (_ <? _)%Z = true |- _ => apply Z.ltb_lt in H
             | H : (_ <? _)%Z = false |- _ => apply Z.ltb_ge in H
             end; lia.
  - intros Hall. rewrite !(openWith_all_fixed _ _ Hall). reflexivity.
Qed.

(** ** Exporting the whole history *)

Lemma collectAllIssues_spec h s summaries allIssues :
  collectAllIssues h s summaries allIssues
  = match issuesOfHistory h s summaries with
    | Some later => Ok (allIssues ++ later)%list
    | None =>
        match collectAllIssues h s summaries allIssues with
        | Ok l => Ok l
        | Throw e => Throw e
        end
    end
  /\ (issuesOfHistory h s summaries = None ->
      exists e, collectAllIssues h s summaries allIssues = Throw e).
Proof.
  revert allIssues.
  induction summaries as [|summary rest IH]; intros allIssues;
    cbn [collectAllIssues issuesOfHistory].
  - split; [now rewrite app_nil_r | discriminate].
  - destruct (getScanById h s (sum_id summary)) as [[scan|]|e]; cbn [bind].
    + destruct (IH (allIssues ++ sv_issues scan)%list) as [E N].
      destruct (issuesOfHistory h s rest) as [later|].
      * split; [now rewrite E, <- app_assoc | discriminate].
      * split; [now destruct (collectAllIssues _ _ _ _) | auto].
    + destruct (IH allIssues) as [E N].
      destruct (issuesOfHistory h s rest) as [later|].
      * split; [exact E | discriminate].
      * split; [now destruct (collectAllIssues _ _ _ _) | auto].
    + split; [now destruct (issuesOfHistory h s rest) | eauto].
Qed.

Lemma escapedOrEmpty_ok v : isOk (escapedOrEmpty v) = isText v.
Proof. now destruct v. Qed.

Lemma escapedIfTruthy_ok v : isOk (escapedIfTruthy v) = textOrFalsy v.
Proof.
  unfold escapedIfTruthy, textOrFalsy.
  destruct v as [| |b|z|str|l|fs]; cbn [truthy]; try reflexivity.
  - now destruct b.
  - now destruct (z =? 0)%Z.
  - now destruct (String.eqb str "").
Qed.

Lemma csvRow_writable issue : isOk (csvRow issue) = writable issue.
Proof.
  unfold csvRow, writable.
  rewrite <- !escapedOrEmpty_ok, <- !escapedIfTruthy_ok.
  destruct (escapedOrEmpty (iv_title issue)); cbn [bind isOk andb]; [|reflexivity].
  destruct (escapedOrEmpty (iv_description issue)); cbn [bind isOk andb]; [|reflexivity].
  destruct (escapedIfTruthy (iv_impact issue)); cbn [bind isOk andb]; [|reflexivity].
  now destruct (escapedIfTruthy (iv_recommendation issue)).
Qed.

Lemma convertToCSV_writable issues :
  isOk (convertToCSV issues) = forallb writable issues.
Proof.
  unfold convertToCSV.
  assert (isOk (mapM csvRow issues) = forallb writable issues) as H.
  { induction issues as [|issue issues IH]; cbn [mapM forallb]; [reflexivity|].
    rewrite <- csvRow_writable, <- IH.
    destruct (csvRow issue); cbn [bind isOk andb]; [|reflexivity].
    now destruct (mapM csvRow issues). }
  rewrite <- H. now destruct (mapM csvRow issues).
Qed.
(** X30. [exportAllScanResults] exports all or nothing. With an empty
    history it only says that there is nothing to export. When a scan of the
    history cannot be read (the read raises), or when one of the issues found
    cannot be written (a title or description that is neither a string nor
    missing, an impact or recommendation that is neither a string nor
    falsy), nothing is downloaded and the failure is reported. Otherwise one
    file is downloaded, holding the text [convertToCSV] makes of the issues
    of all scans found, in the order of the history, scans without a snapshot
    being skipped; for exportable issues that text reads back as the header
    followed by one record per issue. *)
Theorem exportAllScanResults_all_or_nothing :
  forall (h : Host) (s : AppState),
    (scanHistory s = [] ->
     exportAllScanResults h s = NothingToExport "No scan data to export")
    /\ (scanHistory s <> [] -> issuesOfHistory h s (scanHistory s) = None ->
        exportAllScanResults h s
        = NotExported (ToastError "Failed to export all scan results"))
    /\ (forall allIssues,
          scanHistory s <> [] ->
          issuesOfHistory h s (scanHistory s) = Some allIssues ->
          (forallb writable allIssues = false ->
           exportAllScanResults h s
           = NotExported (ToastError "Failed to export all scan results"))
          /\ (forallb writable allIssues = true ->
              exists csvContent,
                convertToCSV allIssues = Ok csvContent
                /\ exportAllScanResults h s
                   = Downloaded "supervision-all-scans.csv" csvContent
                                (ToastSuccess "All scan results exported successfully")
                /\ (Forall exportable allIssues ->
                    readCsv csvContent = csvHeader :: List.map csvValues allIssues))).
Proof.
  intros h s. unfold exportAllScanResults. split; [|split].
  - now intros ->.
  - intros Hne Hnone. destruct (scanHistory s) as [|summary rest] eqn:E; [contradiction|].
    destruct (proj2 (collectAllIssues_spec h s (summary :: rest) []) Hnone) as [e ->].
    reflexivity.
  - intros allIssues Hne Hall.
    destruct (scanHistory s) as [|summary rest] eqn:E; [contradiction|].
    rewrite (proj1 (collectAllIssues_spec h s (summary :: rest) [])), Hall.
    cbn [app bind]. rewrite <- convertToCSV_writable.
    destruct (convertToCSV allIssues) as [csvContent|e] eqn:Ecsv; cbn [isOk]; split;
      try discriminate; try reflexivity.
    intros _. exists csvContent. split; [reflexivity|]. split; [reflexivity|].
    intros Hexp.
    destruct (convertToCSV_of_exportable allIssues Hexp) as (csv' & Hcsv' & Hback).
    rewrite Ecsv in Hcsv'. injection Hcsv' as ->. exact Hback.
Qed.

(** ** Fixing an issue that is already fixed *)

Lemma scan_key_startsWith id : startsWith ("scan_" +:+ id) "scan_" = true.
Proof. now destruct id. Qed.

Lemma startScan_storage h t s responses :
  localStorage (fst (startScan h t s responses)) = localStorage s
  \/ exists token tenant history,
       localStorage (fst (startScan h t s responses))
       = <[ "scan_" +:+ sum_id (sd_summary (pipelineScan h t token tenant responses))
            := storedScan (pipelineScan h t token tenant responses) ]>
           (<[ "scanHistory_" +:+ tenant := history ]> (localStorage s)).
Proof.
  unfold startScan.
  destruct (accessToken s) as [token|]; [|now left].
  destruct (tenantId s) as [tenant|]; [|now left].
  destruct (String.eqb token "" || String.eqb tenant ""); [now left|].
  right. exists token, tenant. eexists.
  change (generateScan h t token tenant _ _) with (pipelineScan h t token tenant responses).
  destruct (convertToLatestScanData _ _); cbn [fst localStorage]; reflexivity.
Qed.

Lemma fixIssue_storage h s scanId issueId :
  exists st,
    fst (fixIssue h s scanId issueId)
    = {| accessToken := accessToken s; tenantId := tenantId s;
         isScanning := isScanning s; isFixing := None;
         currentScan := currentScan s; scanHistory := scanHistory s;
         latestScan := latestScan s; localStorage := st |}
    /\ (st = localStorage s
        \/ exists scan updatedIssues,
             getScanById h s scanId = Ok (Some scan)
             /\ st = <[ "scan_" +:+ scanId
                        := jsonRoundTrip (fixedSnapshot scan updatedIssues) ]>
                       (localStorage s)).
Proof.
  unfold fixIssue.
  destruct (getScanById h s scanId) as [[scan|]|]; cbn [fst snd]; eauto.
  destruct (List.find _ _); cbn [fst snd]; eauto.
  eexists. split; [reflexivity|]. right. unfold setItem. eauto.
Qed.

(** The snapshots of a reachable state are as the writers left them. *)
Lemma reachable_snapshots s : reachable s -> snapshotsWritten (localStorage s).
Proof.
  induction 1 as [token tenant st Hnone
                 | h t s responses _ IH
                 | h s scanId issueId _ IH
                 | s _ IH
                 | s _ IH
                 | s token tenant scanning fixing current history latest st
                     _ IH Hsame _];
    intros key v Hkey Hv.
  - cbn [localStorage] in Hv. rewrite (Hnone key Hkey) in Hv. discriminate.
  - destruct (startScan_storage h t s responses)
      as [E | (token & tenant & history & E)]; rewrite E in Hv.
    + exact (IH key v Hkey Hv).
    + apply lookup_insert_Some in Hv as [[_ <-] | [_ Hv]].
      * left. eexists. split; [reflexivity|]. apply generateScan_all_open.
      * apply lookup_insert_Some in Hv as [[<- _] | [_ Hv]].
        -- discriminate Hkey.
        -- exact (IH key v Hkey Hv).
  - destruct (fixIssue_storage h s scanId issueId) as (st & E & Hst).
    rewrite E in Hv. cbn [localStorage] in Hv.
    destruct Hst as [-> | (scan & updatedIssues & _ & ->)].
    + exact (IH key v Hkey Hv).
    + apply lookup_insert_Some in Hv as [[_ <-] | [_ Hv]].
      * right. eauto.
      * exact (IH key v Hkey Hv).
  - destruct (tenantId s) as [tenant|] eqn:Hten.
    + destruct (String.eqb_spec tenant "") as [->|Hne].
      * unfold clearScanHistory in Hv. rewrite Hten in Hv. exact (IH key v Hkey Hv).
      * pose proof (clearScanHistory_storage s tenant Hten Hne) as Hclear.
        cbv zeta in Hclear. destruct Hclear as (Hlook & _).
        rewrite (Hlook key), Hkey in Hv. discriminate.
    + unfold clearScanHistory in Hv. rewrite Hten in Hv. exact (IH key v Hkey Hv).
  - unfold logout, removeItem in Hv. cbn [localStorage] in Hv.
    repeat (apply lookup_delete_Some in Hv as [_ Hv]).
    exact (IH key v Hkey Hv).
  - cbn [localStorage] in Hv. rewrite (Hsame key Hkey) in Hv.
    exact (IH key v Hkey Hv).
Qed.

(** No issue of a stored scan with open issues only reads as fixed. *)
Lemma storedScan_no_fixed d issues issue :
  Forall (fun i => si_status i = Some "Open") (sd_issues d) ->
  get (storedScan d) "issues" = Ok (JArr issues) ->
  In issue issues ->
  get issue "status" <> Ok (JStr "Fixed").
Proof.
  intros Hopen Hget Hin. rewrite get_storedScan in Hget.
  cbn [lookupField String.eqb Ascii.eqb Bool.eqb] in Hget.
  rewrite jsonRoundTrip_issues in Hget. injection Hget as <-.
  apply List.in_map_iff in Hin as (i & <- & Hi).
  rewrite List.Forall_forall in Hopen. specialize (Hopen i Hi).
  rewrite get_storedIssue. cbn [lookupField String.eqb Ascii.eqb Bool.eqb].
  rewrite Hopen. cbn. discriminate.
Qed.
(** C3. In every state the provider can reach, for a stored scan with an
    issue whose status is already "Fixed", calling [fixIssue] on that scan and
    issue leaves what [getScanById] returns for the scan, and so the
    issuesFixed count it reports, unchanged. *)
Theorem fixIssue_again_keeps_issuesFixed :
  forall (h : Host) (s : AppState) (scanId issueId : string),
    reachable s ->
    persistedAsFixed (localStorage s) scanId issueId ->
    let s' := fst (fixIssue h s scanId issueId) in
    getScanById h s' scanId = getScanById h s scanId
    /\ reportedIssuesFixed h s' scanId = reportedIssuesFixed h s scanId.
Proof.
  intros h s scanId issueId Hreach Hfixed s'.
  assert (getScanById h s' scanId = getScanById h s scanId) as Hsame;
    [|split; [exact Hsame | unfold reportedIssuesFixed; now rewrite Hsame]].
  pose proof (reachable_snapshots s Hreach) as Hinv.
  destruct (fixIssue_storage h s scanId issueId) as (st & Hs' & Hst).
  fold s' in Hs'. rewrite Hs'.
  destruct Hst as [-> | (scan & updatedIssues & Hfound & ->)]; [reflexivity|].
  revert Hfound. unfold getScanById. cbn [tenantId latestScan].
  destruct (missing (tenantId s)); [reflexivity|].
  assert (forall id,
            id <> scanId ->
            getScanByIdDirect h
              {| accessToken := accessToken s; tenantId := tenantId s;
                 isScanning := isScanning s; isFixing := None;
                 currentScan := currentScan s; scanHistory := scanHistory s;
                 latestScan := latestScan s;
                 localStorage :=
                   <[ "scan_" +:+ scanId
                      := jsonRoundTrip (fixedSnapshot scan updatedIssues) ]>
                     (localStorage s) |} id
            = getScanByIdDirect h s id) as Hother.
  { intros id Hne. apply getScanByIdDirect_frame; [reflexivity|]. right.
    cbn [localStorage]. apply lookup_insert_ne.
    intros E. apply scan_key_injective in E. congruence. }
  assert (getScanByIdDirect h s scanId = Ok (Some scan) ->
          getScanByIdDirect h
            {| accessToken := accessToken s; tenantId := tenantId s;
               isScanning := isScanning s; isFixing := None;
               currentScan := currentScan s; scanHistory := scanHistory s;
               latestScan := latestScan s;
               localStorage :=
                 <[ "scan_" +:+ scanId
                    := jsonRoundTrip (fixedSnapshot scan updatedIssues) ]>
                   (localStorage s) |} scanId
          = getScanByIdDirect h s scanId) as Hthis.
  { intros Hdirect.
    destruct Hfixed as (snapshot & issues & issue & Hsnap & Hissues & Hin & _ & Hstatus).
    assert (viewOfParsed h snapshot = Ok scan -> False) as Hunread.
    { intros Hview.
      destruct (Hinv _ _ (scan_key_startsWith scanId) Hsnap)
        as [(d & -> & Hopen) | (scan0 & updated0 & ->)].
      - exact (storedScan_no_fixed d issues issue Hopen Hissues Hin Hstatus).
      - rewrite fixedSnapshot_unreadable in Hview. discriminate. }
    apply getScanByIdDirect_frame; [reflexivity|].
    unfold getScanByIdDirect in Hdirect. rewrite Hsnap in Hdirect.
    destruct (currentScan s) as [current|].
    - destruct (String.eqb_spec (sum_id (sd_summary current)) scanId) as [Heq|_].
      + left. eauto.
      + exfalso. apply Hunread.
        destruct (viewOfParsed h snapshot); cbn [bind] in Hdirect; congruence.
    - exfalso. apply Hunread.
      destruct (viewOfParsed h snapshot); cbn [bind] in Hdirect; congruence. }
  destruct (latestScan s) as [latest|]; [|exact Hthis].
  destruct (String.eqb_spec scanId "latest") as [Hl|_]; [|exact Hthis].
  destruct (String.eqb_spec (lsd_id latest) "latest") as [|Hne]; [reflexivity|].
  intros _. apply Hother. congruence.
Qed.

(** The sample scan with its first issue fixed while the scan is still the
    current one. *)
Lemma fixIssue_again_keeps_issuesFixed_witness :
  let s1 := fst (startScan sampleHost 0 signedIn sampleResponses) in
  let s2 := fst (fixIssue sampleHost s1 "scan_m2r1bz7k" "risky_users_1730000000001") in
  let s3 := fst (fixIssue sampleHost s2 "scan_m2r1bz7k" "risky_users_1730000000001") in
  getScanById sampleHost s3 "scan_m2r1bz7k" = getScanById sampleHost s2 "scan_m2r1bz7k"
  /\ reportedIssuesFixed sampleHost s3 "scan_m2r1bz7k"
     = reportedIssuesFixed sampleHost s2 "scan_m2r1bz7k".
Proof.
  intros s1 s2 s3.
  apply (fixIssue_again_keeps_issuesFixed
           sampleHost s2 "scan_m2r1bz7k" "risky_users_1730000000001").
  - apply reach_fixIssue, reach_startScan.
    apply (reach_fresh (Some "token") (Some "tenant-1") ∅).
    intros key _. apply lookup_empty.
  - unfold persistedAsFixed. eexists _, _, _.
    split; [vm_compute; reflexivity|].
    split; [vm_compute; reflexivity|].
    split; [left; reflexivity|].
    split; vm_compute; reflexivity.
Defined.

(** The run of the witness: both fixes announce success, the snapshot holds
    the issue as fixed after the first, and the count reported for the scan
    is 0 before the second fix and after it. *)
Example fix_twice_in_session :
  let s1 := fst (startScan sampleHost 0 signedIn sampleResponses) in
  let s2 := fst (fixIssue sampleHost s1 "scan_m2r1bz7k" "risky_users_1730000000001") in
  let again := fixIssue sampleHost s2 "scan_m2r1bz7k" "risky_users_1730000000001" in
  snd again = ToastSuccess "Issue fixed successfully"
  /\ reportedIssuesFixed sampleHost s2 "scan_m2r1bz7k" = Ok (Some 0%Z)
  /\ reportedIssuesFixed sampleHost (fst again) "scan_m2r1bz7k" = Ok (Some 0%Z).
Proof. vm_compute. repeat split; reflexivity. Qed.
